(** * Web-Scraper-Clothing: the retailer scrapers and the master scraper

    A shallow embedding of the Python sources

      - [Dockers_scraper.py], [multi_scraper.py]  (single product pages),
      - [amazon_scraper.py], [jcpenney_scraper.py], [macys_scraper.py]
        (search pages followed by product pages),
      - [scraper.py]                               (product listing, page by page),
      - [master_scraper.py]                        (threads and aggregation),

    followed by the properties proved about them.

    Conventions of the embedding.

      - A Python [float] is a binary64 value: Rocq's primitive [float], with
        the IEEE comparisons [PrimFloat.ltb] and [PrimFloat.eqb].
      - A Python [str] is a [string]; its characters are the code points
        below 256.
      - A product [dict] is a [gmap string atom]; [self.results] is a
        [gmap string field].
      - Code that may raise returns an [outcome]; [try]/[except] is
        [try_except].
      - The network is an oracle [http]; every [requests.get] is appended
        to a log of requested URLs.
      - Logging calls and [time.sleep] have no effect on the values computed
        and are left out. *)

From Stdlib Require Import ZArith Floats Ascii String.
From stdpp Require Import gmap strings list pretty sorting.

Local Open Scope string_scope.
Local Open Scope list_scope.
Local Open Scope Z_scope.

(* ===================================================================== *)
(** * The Python runtime, as far as the sources use it                   *)
(* ===================================================================== *)

Module Python.

(** ** Exceptions

    Instances of Python's [Exception] class.  The argument [msg] is what
    [str(e)] returns. *)
Inductive exn : Type :=
| ValueError (msg : string)
| AttributeError (msg : string)
| TypeError (msg : string)
| KeyError (msg : string)
| ZeroDivisionError (msg : string)
| OverflowError (msg : string)
| HTTPError (status_code : Z) (msg : string)   (* requests.exceptions.HTTPError *)
| RequestsTimeout (msg : string)               (* requests.exceptions.Timeout *)
| RequestException (msg : string)   (* the other classes of requests.exceptions,
                                       such as ConnectionError *)
| OtherException (msg : string).

Definition str_of_exn (e : exn) : string :=
  match e with
  | ValueError m | AttributeError m | TypeError m | KeyError m
  | ZeroDivisionError m | OverflowError m | HTTPError _ m
  | RequestsTimeout m | RequestException m | OtherException m => m
  end.

Inductive outcome (A : Type) : Type :=
| Ok (a : A)
| Raised (e : exn).
Arguments Ok {A} a.
Arguments Raised {A} e.

#[export] Instance outcome_ret : MRet outcome := fun A a => Ok a.
#[export] Instance outcome_bind : MBind outcome := fun A B f m =>
  match m with
  | Ok a => f a
  | Raised e => Raised e
  end.

(** [try: body  except <classes> as e: handler e]; [catches] tells the
    exceptions of the listed classes. *)
Definition try_except {A} (body : outcome A) (catches : exn -> bool)
    (handler : exn -> outcome A) : outcome A :=
  match body with
  | Ok a => Ok a
  | Raised e => if catches e then handler e else Raised e
  end.

(** [except Exception]: every [exn] is an instance of [Exception]. *)
Definition is_Exception (e : exn) : bool := true.

Definition is_ValueError (e : exn) : bool :=
  match e with ValueError _ => true | _ => false end.
Definition is_AttributeError (e : exn) : bool :=
  match e with AttributeError _ => true | _ => false end.
Definition is_HTTPError (e : exn) : bool :=
  match e with HTTPError _ _ => true | _ => false end.
Definition is_Timeout (e : exn) : bool :=
  match e with RequestsTimeout _ => true | _ => false end.
(** [requests.exceptions.RequestException] and its subclasses. *)
Definition is_RequestException (e : exn) : bool :=
  match e with
  | HTTPError _ _ | RequestsTimeout _ | RequestException _ => true
  | _ => false
  end.

(** ** Values *)

(** What a product dictionary holds under a key. *)
Inductive atom : Type :=
| ANone
| ABool (b : bool)
| AFloat (f : float)
| AStr (s : string).

(** An element of a per-source list: a product dictionary, or any other
    object (the [None] that [Dockers_scraper.scrape_product] returns on
    failure is [IAtom ANone]). *)
Inductive item : Type :=
| IAtom (a : atom)
| IDict (d : gmap string atom).

(** A value of [self.results]: the per-source lists, and the
    [timestamp] and [search_term] entries. *)
Inductive field : Type :=
| FAtom (a : atom)
| FList (l : list item).

(** Truth value of an object in a condition ([if x:], [x or y], [not x]). *)
Definition truthy (a : atom) : bool :=
  match a with
  | ANone => false
  | ABool b => b
  | AFloat f => negb (PrimFloat.eqb f 0%float)
  | AStr s => negb (String.eqb s "")
  end.

Definition float_of_bool (b : bool) : float := if b then 1%float else 0%float.

(** [a < b].  Numbers ([float], and [bool] as 0 and 1) compare by value,
    strings by code points; any other pair of types raises [TypeError]. *)
Definition py_lt (a b : atom) : outcome bool :=
  match a, b with
  | AFloat x, AFloat y => Ok (PrimFloat.ltb x y)
  | AFloat x, ABool y => Ok (PrimFloat.ltb x (float_of_bool y))
  | ABool x, AFloat y => Ok (PrimFloat.ltb (float_of_bool x) y)
  | ABool x, ABool y => Ok (PrimFloat.ltb (float_of_bool x) (float_of_bool y))
  | AStr x, AStr y => Ok (String.ltb x y)
  | _, _ => Raised (TypeError "'<' not supported between instances")
  end.

(** [obj.get(key, dflt)] *)
Definition py_get (x : item) (key : string) (dflt : atom) : outcome atom :=
  match x with
  | IDict d => Ok (default dflt (d !! key))
  | IAtom _ => Raised (AttributeError "object has no attribute 'get'")
  end.

(** [{**obj, key: value}] *)
Definition dict_with (x : item) (key : string) (value : atom)
    : outcome (gmap string atom) :=
  match x with
  | IDict d => Ok (<[key := value]> d)
  | IAtom _ => Raised (TypeError "object is not a mapping")
  end.

(** [a != b] on [Optional[float]] values. *)
Definition py_ne (a b : option float) : bool :=
  match a, b with
  | None, None => false
  | Some x, Some y => negb (PrimFloat.eqb x y)
  | _, _ => true
  end.

(** [a - b] and [a / b] where an operand may be [None]. *)
Definition py_sub (a b : option float) : outcome float :=
  match a, b with
  | Some x, Some y => Ok (PrimFloat.sub x y)
  | _, _ => Raised (TypeError "unsupported operand type(s) for -")
  end.

(** Calling a function defined with no parameter:
    [def name(): body] applied to the positional arguments [args]. *)
Definition call_def0 {A} (name : string) (body : A) (args : list atom) : outcome A :=
  match args with
  | [] => Ok body
  | _ => Raised (TypeError (name ++ "() takes 0 positional arguments but "
                   ++ pretty (Z.of_nat (length args))
                   ++ (if bool_decide (length args = 1%nat) then " was given" else " were given")))
  end.

(** ** Strings *)

Definition code (c : ascii) : Z := Z.of_N (N_of_ascii c).

Definition is_digit (c : ascii) : bool := (48 <=? code c) && (code c <=? 57).

(** [str.isspace] on one character (the white space below code point 256). *)
Definition py_isspace (c : ascii) : bool :=
  ((9 <=? code c) && (code c <=? 13)) || ((28 <=? code c) && (code c <=? 32))
  || (code c =? 133) || (code c =? 160).

Fixpoint drop_while (p : ascii -> bool) (l : list ascii) : list ascii :=
  match l with
  | [] => []
  | c :: r => if p c then drop_while p r else l
  end.

Fixpoint take_while (p : ascii -> bool) (l : list ascii) : list ascii :=
  match l with
  | [] => []
  | c :: r => if p c then c :: take_while p r else []
  end.

Definition strip_with (space : ascii -> bool) (l : list ascii) : list ascii :=
  rev (drop_while space (rev (drop_while space l))).

Definition strip_list (l : list ascii) : list ascii := strip_with py_isspace l.

(** [s.strip()] *)
Definition py_strip (s : string) : string :=
  string_of_list_ascii (strip_list (list_ascii_of_string s)).

(** [s.replace(c, '')] for a one-character [c]. *)
Fixpoint py_remove (c : ascii) (s : string) : string :=
  match s with
  | EmptyString => EmptyString
  | String a r => if Ascii.eqb a c then py_remove c r else String a (py_remove c r)
  end.

Definition lower_char (c : ascii) : ascii :=
  if ((65 <=? code c) && (code c <=? 90))
     || ((192 <=? code c) && (code c <=? 222) && negb (code c =? 215))
  then ascii_of_N (N_of_ascii c + 32) else c.

(** [s.lower()] *)
Fixpoint py_lower (s : string) : string :=
  match s with
  | EmptyString => EmptyString
  | String a r => String (lower_char a) (py_lower r)
  end.

(** [needle in hay] on strings. *)
Fixpoint py_in (needle hay : string) : bool :=
  String.prefix needle hay
  || match hay with
     | EmptyString => false
     | String _ r => py_in needle r
     end.

(** [s.startswith(p)] *)
Definition startswith (s p : string) : bool := String.prefix p s.

(** The double quote character, for selectors that contain one. *)
Definition dq : string := String (ascii_of_N 34) EmptyString.

(** [repr(s)] of a string: in single quotes, or in double quotes when [s]
    holds a single quote and no double quote; the quote and the backslash
    are escaped, and so are the characters that do not print. *)
Definition hex_lower (n : Z) : ascii :=
  ascii_of_N (Z.to_N (if n <? 10 then 48 + n else 87 + n)).

Definition is_printable (c : ascii) : bool :=
  ((32 <=? code c) && (code c <=? 126)) || ((161 <=? code c) && negb (code c =? 173)).

Definition repr_char (quote c : ascii) : string :=
  if Ascii.eqb c quote || Ascii.eqb c "\" then String "\" (String c EmptyString)
  else if code c =? 9 then "\t"
  else if code c =? 10 then "\n"
  else if code c =? 13 then "\r"
  else if is_printable c then String c EmptyString
  else String "\" (String "x" (String (hex_lower (code c / 16))
                                  (String (hex_lower (code c mod 16)) EmptyString))).

Fixpoint has_char (c : ascii) (s : string) : bool :=
  match s with
  | EmptyString => false
  | String a r => Ascii.eqb a c || has_char c r
  end.

Fixpoint repr_chars (quote : ascii) (s : string) : string :=
  match s with
  | EmptyString => EmptyString
  | String a r => repr_char quote a ++ repr_chars quote r
  end.

Definition py_repr (s : string) : string :=
  let quote := if has_char "'" s && negb (has_char (ascii_of_N 34) s)
               then ascii_of_N 34 else "'"%char in
  String quote (repr_chars quote s ++ String quote EmptyString).

(** [d[key]]; the message of the [KeyError] is [repr(key)]. *)
Definition getitem {V} (d : gmap string V) (key : string) : outcome V :=
  match d !! key with
  | Some v => Ok v
  | None => Raised (KeyError (py_repr key))
  end.

(** ** [float(s)]

    The accepted texts are, between optional white space (the ASCII white
    space, and the two other spaces below code point 256; not the
    separators U+001C to U+001F, which [str.strip] does remove),

      [sign] ("inf" | "infinity" | "nan")          (any case)
      [sign] digits ["." [digits]] [exponent]
      [sign] "." digits [exponent]

    where digits may be grouped by single underscores and the exponent is
    ("e" | "E") [sign] digits.  The value is the decimal number rounded to
    the nearest binary64 (ties to even).  Anything else raises
    [ValueError]. *)

Definition float_isspace (c : ascii) : bool :=
  ((9 <=? code c) && (code c <=? 13)) || (code c =? 32)
  || (code c =? 133) || (code c =? 160).

Definition digit_val (c : ascii) : Z := code c - 48.

Definition digits_val (l : list ascii) : Z :=
  fold_left (fun acc c => 10 * acc + digit_val c) l 0.

(** [m * 10 ^ e10], correctly rounded. *)
Definition float_of_decimal (neg : bool) (m : Z) (e10 : Z) : float :=
  match m with
  | Z.pos p =>
      if 0 <=? e10
      then SF2Prim (binary_normalize prec emax
                      (if neg then - (m * 10 ^ e10) else m * 10 ^ e10) 0 neg)
      else SF2Prim (SFdiv prec emax (S754_finite neg p 0)
                      (S754_finite false (Z.to_pos (10 ^ (- e10))) 0))
  | _ => SF2Prim (S754_zero neg)
  end.

(** Underscores are allowed only between two digits; they are removed. *)
Fixpoint drop_underscores (prev : ascii) (l : list ascii) : option (list ascii) :=
  match l with
  | [] => if Ascii.eqb prev "_" then None else Some []
  | c :: r =>
      if Ascii.eqb c "_"
      then if is_digit prev then drop_underscores c r else None
      else if Ascii.eqb prev "_" && negb (is_digit c) then None
      else cons c <$> drop_underscores c r
  end.

Definition split_sign (l : list ascii) : bool * list ascii :=
  match l with
  | c :: r => if Ascii.eqb c "-" then (true, r)
              else if Ascii.eqb c "+" then (false, r) else (false, l)
  | [] => (false, [])
  end.

Definition lower_list (l : list ascii) : string :=
  py_lower (string_of_list_ascii l).

Definition parse_exponent (l : list ascii) : option Z :=
  match l with
  | [] => Some 0
  | c :: r =>
      if Ascii.eqb (lower_char c) "e"
      then let '(eneg, r1) := split_sign r in
           let ed := take_while is_digit r1 in
           match ed, drop_while is_digit r1 with
           | _ :: _, [] => Some (if eneg then - digits_val ed else digits_val ed)
           | _, _ => None
           end
      else None
  end.

Definition parse_float (l0 : list ascii) : option float :=
  l ← drop_underscores "000" (strip_with float_isspace l0);
  let '(neg, l1) := split_sign l in
  if String.eqb (lower_list l1) "inf" || String.eqb (lower_list l1) "infinity"
  then Some (if neg then neg_infinity else infinity)
  else if String.eqb (lower_list l1) "nan" then Some nan
  else
    let ip := take_while is_digit l1 in
    let l2 := drop_while is_digit l1 in
    let '(fp, l3) :=
      match l2 with
      | c :: r => if Ascii.eqb c "." then (take_while is_digit r, drop_while is_digit r)
                  else ([], l2)
      | [] => ([], [])
      end in
    match ip ++ fp with
    | [] => None
    | ds => e ← parse_exponent l3;
            Some (float_of_decimal neg (digits_val ds) (e - Z.of_nat (length fp)))
    end.

Definition py_float (s : string) : outcome float :=
  match parse_float (list_ascii_of_string s) with
  | Some f => Ok f
  | None => Raised (ValueError ("could not convert string to float: " ++ s))
  end.

(** ** [round(x, ndigits)] for [ndigits >= 0]

    A NaN or an infinity rounds to itself.  A finite [x = m * 2 ^ e] is
    rounded, on its exact value, to the nearest multiple of
    [10 ^ -ndigits] (ties to the even multiple), and that decimal is
    converted back to the nearest binary64; [OverflowError] when it is too
    large. *)
Definition round_half_even_div (a b : Z) : Z :=
  let q := a / b in
  let r := a mod b in
  if 2 * r <? b then q
  else if b <? 2 * r then q + 1
  else if Z.even q then q else q + 1.

Definition py_round (x : float) (ndigits : nat) : outcome float :=
  match Prim2SF x with
  | S754_finite s m e =>
      let scale := 10 ^ Z.of_nat ndigits in
      let q := if 0 <=? e then Z.pos m * 2 ^ e * scale
               else round_half_even_div (Z.pos m * scale) (2 ^ (- e)) in
      let r := match q with
               | Z.pos p => SF2Prim (SFdiv prec emax (S754_finite s p 0)
                                       (S754_finite false (Z.to_pos scale) 0))
               | _ => SF2Prim (S754_zero s)
               end in
      if PrimFloat.eqb (abs r) infinity
      then Raised (OverflowError "rounded value too large to represent")
      else Ok r
  | _ => Ok x
  end.

(** [a / b] for a float [a]; [b] may be [None]. *)
Definition py_div (a : float) (b : option float) : outcome float :=
  match b with
  | Some y => if PrimFloat.eqb y 0%float
              then Raised (ZeroDivisionError "float division by zero")
              else Ok (PrimFloat.div a y)
  | None => Raised (TypeError "unsupported operand type(s) for /")
  end.

(** ** The price pattern

    [re.search(pattern, text)] and [match.group(1)], for the pattern
    made of an optional [$] and the group: one or more characters of
    [[\d,]], an optional dot, any number of digits.  A match
    needs one character of [[\d,]]; the leftmost match therefore has its
    group start at the first such character of [text] (with or without a
    [$] before it).  The three parts of the group are greedy and the rest
    of the pattern is empty, so the group is the longest run of digits and
    commas from there, a dot when one follows, and the longest run of
    digits after the dot.  [None] when [text] has no digit and no comma. *)
Definition is_digit_or_comma (c : ascii) : bool := is_digit c || Ascii.eqb c ",".

Definition price_group (l : list ascii) : option (list ascii) :=
  match drop_while (fun c => negb (is_digit_or_comma c)) l with
  | [] => None
  | l1 =>
      let run := take_while is_digit_or_comma l1 in
      match drop_while is_digit_or_comma l1 with
      | c :: r => if Ascii.eqb c "."
                  then Some (run ++ c :: take_while is_digit r)
                  else Some run
      | [] => Some run
      end
  end.

Definition re_search_price (text : string) : option string :=
  string_of_list_ascii <$> price_group (list_ascii_of_string text).

(** ** Truth value and length of the other objects *)

(** Truth value of an [Optional[Dict]] in a condition: [None] and the
    empty dictionary are false. *)
Definition truthy_item (x : item) : bool :=
  match x with
  | IAtom a => truthy a
  | IDict d => negb (bool_decide (d = ∅))
  end.

(** [len(v)] on a value of [self.results]. *)
Definition py_len (v : field) : outcome Z :=
  match v with
  | FList l => Ok (Z.of_nat (length l))
  | FAtom (AStr s) => Ok (Z.of_nat (String.length s))
  | FAtom _ => Raised (TypeError "object has no len()")
  end.

End Python.

(* ===================================================================== *)
(** * The network and the parsed pages ([requests], [bs4])               *)
(* ===================================================================== *)

Module Web.
Import Python.

(** A parsed element.  [select q] lists, in document order, the elements
    below this one that match the query [q]: a CSS selector, or the
    selector that says the same as the arguments of a [find]/[find_all]
    call. *)
#[warnings="-register-all"]
Inductive tag : Type :=
| Tag (text : string) (stripped_text : string) (attrs : gmap string string)
      (select : string -> list tag).

(** [t.text] *)
Definition text (t : tag) : string := let 'Tag x _ _ _ := t in x.
(** [t.get_text(strip=True)] *)
Definition get_text_strip (t : tag) : string := let 'Tag _ x _ _ := t in x.
(** [t.get(key)] *)
Definition attr (t : tag) (key : string) : option string :=
  let 'Tag _ _ a _ := t in a !! key.
(** [t.select(q)], [t.find_all(...)] *)
Definition select (t : tag) (q : string) : list tag := let 'Tag _ _ _ f := t in f q.
(** [t.select_one(q)], [t.find(...)] *)
Definition select_one (t : tag) (q : string) : option tag := head (select t q).

(** What [requests.get] returns; [soup] is
    [BeautifulSoup(response.content, 'html.parser')]. *)
Record response : Type := {
  status_code : Z; reason : string; url : string; soup : tag
}.

(** [response.raise_for_status()] *)
Definition raise_for_status (r : response) : outcome unit :=
  if (400 <=? status_code r) && (status_code r <? 500)
  then Raised (HTTPError (status_code r)
                 (pretty (status_code r) ++ " Client Error: " ++ reason r
                    ++ " for url: " ++ url r))
  else if (500 <=? status_code r) && (status_code r <? 600)
  then Raised (HTTPError (status_code r)
                 (pretty (status_code r) ++ " Server Error: " ++ reason r
                    ++ " for url: " ++ url r))
  else Ok tt.

(** The URLs requested so far, oldest first. *)
Definition log : Type := list string.

(** The remote side: what a request for a URL yields, given the requests
    made before it. *)
Definition network : Type := log -> string -> outcome response.

(** [requests.get(url, headers=HEADERS, timeout=10)] *)
Definition requests_get (http : network) (url : string) (lg : log)
    : outcome response * log :=
  (http lg url, lg ++ [url]).

(** The three statements that open every scraper:
    [response = requests.get(...); response.raise_for_status();
     soup = BeautifulSoup(response.content, 'html.parser')]. *)
Definition fetch_soup (http : network) (url : string) (lg : log)
    : outcome tag * log :=
  let '(r, lg') := requests_get http url lg in
  (response ← r; _ ← raise_for_status response; Ok (soup response), lg').

(** [urllib.parse.quote_plus] on one character: letters, digits and
    [_.-~] stay, a space becomes [+], anything else is percent-encoded
    (the UTF-8 bytes of the code point). *)
Definition hex_digit (n : Z) : ascii :=
  ascii_of_N (Z.to_N (if n <? 10 then 48 + n else 55 + n)).

Definition percent_byte (b : Z) : string :=
  String "%" (String (hex_digit (b / 16)) (String (hex_digit (b mod 16)) EmptyString)).

Definition is_unreserved (c : ascii) : bool :=
  is_digit c
  || ((65 <=? code c) && (code c <=? 90)) || ((97 <=? code c) && (code c <=? 122))
  || Ascii.eqb c "_" || Ascii.eqb c "." || Ascii.eqb c "-" || Ascii.eqb c "~".

Definition quote_plus_char (c : ascii) : string :=
  if is_unreserved c then String c EmptyString
  else if Ascii.eqb c " " then "+"
  else if code c <? 128 then percent_byte (code c)
  else percent_byte (192 + code c / 64) ++ percent_byte (128 + code c mod 64).

Fixpoint quote_plus (s : string) : string :=
  match s with
  | EmptyString => EmptyString
  | String c r => quote_plus_char c ++ quote_plus r
  end.

(** [urlencode({'q': term})] *)
Definition urlencode_q (term : string) : string := "q=" ++ quote_plus term.

(** [s.replace(' ', '+')] *)
Fixpoint spaces_to_plus (s : string) : string :=
  match s with
  | EmptyString => EmptyString
  | String c r => String (if Ascii.eqb c " " then "+"%char else c) (spaces_to_plus r)
  end.

(** ** Code shared, word for word, by the three retailer modules *)

Definition atom_of_price (p : option float) : atom :=
  match p with Some f => AFloat f | None => ANone end.

Definition atom_of_str (s : option string) : atom :=
  match s with Some x => AStr x | None => ANone end.

(** [if price:] for an [Optional[float]]. *)
Definition price_truthy (p : option float) : bool := truthy (atom_of_price p).

(** [name = None
     for selector in selectors:
         tag = soup.select_one(selector)
         if tag:
             name = tag.get_text(strip=True)
             if name and len(name) > 5: break]
    started with the current value of [name]. *)
Fixpoint name_loop (page : tag) (selectors : list string) (name : option string)
    : option string :=
  match selectors with
  | [] => name
  | selector :: rest =>
      match select_one page selector with
      | Some t =>
          let name := get_text_strip t in
          if truthy (AStr name) && (5 <? Z.of_nat (String.length name))
          then Some name
          else name_loop page rest (Some name)
      | None => name_loop page rest name
      end
  end.

(** [name or 'Unknown'] *)
Definition name_or_unknown (name : option string) : string :=
  match name with
  | Some n => if truthy (AStr n) then n else "Unknown"
  | None => "Unknown"
  end.

(** [price = None
     for selector in selectors:
         tag = soup.select_one(selector)
         if tag:
             price_text = tag.get_text(strip=True)
             price = extract_price(price_text)
             if price: break]
    started with the current value of [price]. *)
Fixpoint price_loop (extract_price : string -> outcome (option float))
    (page : tag) (selectors : list string) (price : option float)
    : outcome (option float) :=
  match selectors with
  | [] => Ok price
  | selector :: rest =>
      match select_one page selector with
      | Some t =>
          price ← extract_price (get_text_strip t);
          if price_truthy price then Ok price
          else price_loop extract_price page rest price
      | None => price_loop extract_price page rest price
      end
  end.

(** The three-way match on the availability text. *)
Definition classify (avail_text dflt : string) : string :=
  if py_in "in stock" avail_text then "In Stock"
  else if py_in "out of stock" avail_text || py_in "unavailable" avail_text
       then "Out of Stock"
       else dflt.

(** [availability = 'Check Site'
     for selector in selectors:
         avail_tag = soup.select_one(selector)
         if avail_tag:
             ... availability = 'In Stock' / 'Out of Stock' ...
             break] *)
Fixpoint availability_loop (page : tag) (selectors : list string) : string :=
  match selectors with
  | [] => "Check Site"
  | selector :: rest =>
      match select_one page selector with
      | Some t => classify (py_lower (get_text_strip t)) "Check Site"
      | None => availability_loop page rest
      end
  end.

(** The handlers that close a product scraper:
    [except HTTPError as e: result['error'] = f"HTTP {e.response.status_code}: {e}"
     except Timeout:        result['error'] = "Request Timeout"
     except Exception as e: result['error'] = str(e)]
    applied to [result] as the body left it. *)
Definition record_error (result : gmap string atom) (e : exn) : gmap string atom :=
  match e with
  | HTTPError c m => <["error" := AStr ("HTTP " ++ pretty c ++ ": " ++ m)]> result
  | RequestsTimeout _ => <["error" := AStr "Request Timeout"]> result
  | _ => <["error" := AStr (str_of_exn e)]> result
  end.

(** [for i, link in enumerate(links, 1):
         product = scrape(link); products.append(product); time.sleep(2)] *)
Fixpoint scrape_each (scrape : string -> log -> gmap string atom * log)
    (links : list string) (lg : log) : list (gmap string atom) * log :=
  match links with
  | [] => ([], lg)
  | link :: rest =>
      let '(product, lg1) := scrape link lg in
      let '(products, lg2) := scrape_each scrape rest lg1 in
      (product :: products, lg2)
  end.

(** The selector [prefix[key='value']], written with double quotes. *)
Definition attr_is (prefix key value : string) : string :=
  (prefix ++ "[" ++ key ++ "=" ++ dq ++ value ++ dq ++ "]")%string.

(** [href if href.startswith('http') else base + href] *)
Definition absolute (base href : string) : string :=
  if startswith href "http" then href else base ++ href.

(** ** Code shared, word for word, by [Dockers_scraper.py] and
    [multi_scraper.py] *)

(** [for span in price_spans:
         price_text = span.text.strip()
         if price_text.startswith('$'):
             if not current_price:
                 current_price = extract_price(price_text)
             elif not original_price and original_price != current_price:
                 original_price = extract_price(price_text)] *)
Fixpoint span_loop (extract_price : string -> outcome (option float))
    (price_spans : list tag) (current_price original_price : option float)
    : outcome (option float * option float) :=
  match price_spans with
  | [] => Ok (current_price, original_price)
  | span :: rest =>
      let price_text := py_strip (text span) in
      if startswith price_text "$"
      then if negb (price_truthy current_price)
           then current_price ← extract_price price_text;
                span_loop extract_price rest current_price original_price
           else if negb (price_truthy original_price)
                   && py_ne original_price current_price
           then original_price ← extract_price price_text;
                span_loop extract_price rest current_price original_price
           else span_loop extract_price rest current_price original_price
      else span_loop extract_price rest current_price original_price
  end.

(** The prices of a product page: the spans of the price container, then
    the [meta] tag when no current price was found. *)
Definition page_prices (extract_price : string -> outcome (option float))
    (page : tag) : outcome (option float * option float) :=
  '(current_price, original_price) ←
    match select_one page (attr_is "div" "js-product-form" "priceElements") with
    | Some price_container =>
        span_loop extract_price (select price_container "span") None None
    | None => Ok (None, None)
    end;
  if negb (price_truthy current_price)
  then match select_one page (attr_is "meta" "itemprop" "price") with
       | Some price_meta =>
           current_price ← extract_price (default "" (attr price_meta "content"));
           Ok (current_price, original_price)
       | None => Ok (current_price, original_price)
       end
  else Ok (current_price, original_price).

(** [availability = "In Stock"], the out-of-stock button, then the
    [meta] tag. *)
Definition page_availability (page : tag) : string :=
  let availability := "In Stock" in
  let availability :=
    match select_one page
            ("button:contains(" ++ dq ++ "Out of Stock" ++ dq ++ "), "
               ++ attr_is "" "class*" "out-of-stock")%string with
    | Some oos_button => "Out of Stock"
    | None => availability
    end in
  match select_one page (attr_is "meta" "itemprop" "availability") with
  | Some availability_meta =>
      let availability_url := default "" (attr availability_meta "content") in
      if py_in "OutOfStock" availability_url then "Out of Stock"
      else if py_in "InStock" availability_url then "In Stock"
      else availability
  | None => availability
  end.

(** [product_data = { ... }] followed by
    [if product_data['is_on_sale']:
         discount = ((original_price - current_price) / original_price) * 100
         product_data['discount_percentage'] = round(discount, 2)] *)
Definition build_product_data (name : string) (subtitle : option string)
    (current_price original_price : option float) (url availability : string)
    : outcome (gmap string atom) :=
  let is_on_sale :=
    match original_price, current_price with
    | Some o, Some c => PrimFloat.ltb c o
    | _, _ => false
    end in
  let product_data : gmap string atom :=
    {[ "name" := AStr name;
       "subtitle" := atom_of_str subtitle;
       "current_price" := atom_of_price current_price;
       "original_price" := atom_of_price original_price;
       "discount_percentage" := ANone;
       "url" := AStr url;
       "availability" := AStr availability;
       "is_on_sale" := ABool is_on_sale ]} in
  if is_on_sale
  then difference ← py_sub original_price current_price;
       ratio ← py_div difference original_price;
       rounded ← py_round (PrimFloat.mul ratio 100%float) 2;
       Ok (<["discount_percentage" := AFloat rounded]> product_data)
  else Ok product_data.

End Web.

(* ===================================================================== *)
(** * amazon_scraper.py                                                  *)
(* ===================================================================== *)

Module amazon_scraper.
Import Python Web.

Definition extract_price (price_text : string) : outcome (option float) :=
  if negb (truthy (AStr price_text)) then Ok None
  else match re_search_price price_text with
       | Some group1 =>
           try_except (f ← py_float (py_remove "," group1); Ok (Some f))
             is_ValueError (fun _ => Ok None)
       | None => Ok None
       end.

(** [search_url = f"https://www.amazon.com/s?k={search_term.replace(' ', '+')}"] *)
Definition search_url (search_term : string) : string :=
  ("https://www.amazon.com/s?k=" ++ spaces_to_plus search_term)%string.

Section WithNetwork.
Variable http : network.

Definition scrape_amazon_product (url : string) (lg : log)
    : gmap string atom * log :=
  let result : gmap string atom :=
    {[ "retailer" := AStr "Amazon"; "name" := ANone; "price" := ANone;
       "original_price" := ANone; "availability" := AStr "Unknown";
       "url" := AStr url; "error" := ANone ]} in
  let '(fetched, lg') := fetch_soup http url lg in
  let body : gmap string atom * outcome unit :=
    match fetched with
    | Raised e => (result, Raised e)
    | Ok page =>
        let name :=
          name_loop page
            ["h1 span"; attr_is "span" "id*" "title"; ".product-title"; "h1"]
            None in
        let result := <["name" := AStr (name_or_unknown name)]> result in
        match price_loop extract_price page
                ["span.a-offscreen"; ".a-color-price";
                 attr_is "" "data-a-color" "price"] None with
        | Raised e => (result, Raised e)
        | Ok price =>
            let result := <["price" := atom_of_price price]> result in
            match price_loop extract_price page
                    [".a-price.a-text-price span.a-offscreen"; ".a-price-old"] None with
            | Raised e => (result, Raised e)
            | Ok original_price =>
                let result := <["original_price" := atom_of_price original_price]> result in
                let availability :=
                  match select_one page "#availability span" with
                  | Some avail_div =>
                      classify (py_lower (get_text_strip avail_div)) "Check Site"
                  | None => "Check Site"
                  end in
                (<["availability" := AStr availability]> result, Ok tt)
            end
        end
    end in
  (match body with
   | (result, Ok _) => result
   | (result, Raised e) => record_error result e
   end, lg').

(** The links collected from the search page, in page order (a list). *)
Fixpoint product_links (containers : list tag) : list string :=
  match containers with
  | [] => []
  | container :: rest =>
      match select_one container "h2.s-size-mini" with
      | None => product_links rest
      | Some h2 =>
          match select_one h2 "a" with
          | Some link =>
              match attr link "href" with
              | Some href =>
                  if truthy (AStr href)
                  then absolute "https://www.amazon.com" href :: product_links rest
                  else product_links rest
              | None => product_links rest
              end
          | None => product_links rest
          end
      end
  end.

Definition search_amazon_dockers (search_term : string) (lg : log)
    : list (gmap string atom) * log :=
  let '(fetched, lg') := fetch_soup http (search_url search_term) lg in
  match fetched with
  | Raised e => ([], lg')                    (* except Exception: logged *)
  | Ok page =>
      let links :=
        product_links
          (select page (attr_is "div" "data-component-type" "s-search-result")) in
      scrape_each scrape_amazon_product (take 3 links) lg'
  end.

End WithNetwork.
End amazon_scraper.

(* ===================================================================== *)
(** * jcpenney_scraper.py                                                  *)
(* ===================================================================== *)

Module jcpenney_scraper.
Import Python Web.

Definition extract_price (price_text : string) : outcome (option float) :=
  if negb (truthy (AStr price_text)) then Ok None
  else match re_search_price price_text with
       | Some group1 =>
           try_except (f ← py_float (py_remove "," group1); Ok (Some f))
             is_ValueError (fun _ => Ok None)
       | None => Ok None
       end.

(** [search_url = f"https://www.jcpenney.com/search?{urlencode({'q': search_term})}"] *)
Definition search_url (search_term : string) : string :=
  ("https://www.jcpenney.com/search?" ++ urlencode_q search_term)%string.

Section WithNetwork.
Variable http : network.
(** [list(product_links)]: the order in which Python lists a set of
    strings is not specified. *)
Variable list_of_set : gset string -> list string.

Definition scrape_jcpenney_product (url : string) (lg : log)
    : gmap string atom * log :=
  let result : gmap string atom :=
    {[ "retailer" := AStr "JCPenney"; "name" := ANone; "price" := ANone;
       "original_price" := ANone; "availability" := AStr "Unknown";
       "url" := AStr url; "error" := ANone ]} in
  let '(fetched, lg') := fetch_soup http url lg in
  let body : gmap string atom * outcome unit :=
    match fetched with
    | Raised e => (result, Raised e)
    | Ok page =>
        let name :=
          name_loop page
            ["h1"; "h1.productTitle"; attr_is "" "data-testid" "product-title"; ".product-name"]
            None in
        let result := <["name" := AStr (name_or_unknown name)]> result in
        match price_loop extract_price page
                [".selling-price"; attr_is "" "data-testid" "selling-price"; ".price"; ".productPrice"] None with
        | Raised e => (result, Raised e)
        | Ok price =>
            let result := <["price" := atom_of_price price]> result in
            match price_loop extract_price page
                    [".original-price"; ".was-price"; attr_is "" "data-testid" "original-price"] None with
            | Raised e => (result, Raised e)
            | Ok original_price =>
                let result := <["original_price" := atom_of_price original_price]> result in
                let availability :=
                  availability_loop page
                    [attr_is "" "data-testid" "availability"; ".availability"; "#availability"] in
                (<["availability" := AStr availability]> result, Ok tt)
            end
        end
    end in
  (match body with
   | (result, Ok _) => result
   | (result, Raised e) => record_error result e
   end, lg').

(** [for link in links:
         if link.get('href'):
             href = link['href']
             if not href.startswith('http'): href = base + href
             product_links.add(href)] *)
Fixpoint add_links (links : list tag) (product_links : gset string) : gset string :=
  match links with
  | [] => product_links
  | link :: rest =>
      match attr link "href" with
      | Some href =>
          if truthy (AStr href)
          then add_links rest ({[ absolute "https://www.jcpenney.com" href ]} ∪ product_links)
          else add_links rest product_links
      | None => add_links rest product_links
      end
  end.

(** The links collected from the search page (a set), with the fallback
    selector when the first one gave nothing. *)
Definition product_links (page : tag) : gset string :=
  let product_links := add_links (select page (attr_is "a" "data-testid" "productCardLink")) ∅ in
  if bool_decide (product_links = ∅)
  then add_links (select page "a.productCardLink") product_links
  else product_links.

Definition search_jcpenney_dockers (search_term : string) (lg : log)
    : list (gmap string atom) * log :=
  let '(fetched, lg') := fetch_soup http (search_url search_term) lg in
  match fetched with
  | Raised e => ([], lg')                    (* except Exception: logged *)
  | Ok page =>
      let links := list_of_set (product_links page) in
      scrape_each scrape_jcpenney_product (take 3 links) lg'
  end.

End WithNetwork.
End jcpenney_scraper.

(* ===================================================================== *)
(** * macys_scraper.py                                                  *)
(* ===================================================================== *)

Module macys_scraper.
Import Python Web.

Definition extract_price (price_text : string) : outcome (option float) :=
  if negb (truthy (AStr price_text)) then Ok None
  else match re_search_price price_text with
       | Some group1 =>
           try_except (f ← py_float (py_remove "," group1); Ok (Some f))
             is_ValueError (fun _ => Ok None)
       | None => Ok None
       end.

(** [search_url = f"https://www.macys.com/shop/search?{urlencode({'q': search_term})}"] *)
Definition search_url (search_term : string) : string :=
  ("https://www.macys.com/shop/search?" ++ urlencode_q search_term)%string.

Section WithNetwork.
Variable http : network.
(** [list(product_links)]: the order in which Python lists a set of
    strings is not specified. *)
Variable list_of_set : gset string -> list string.

Definition scrape_macys_product (url : string) (lg : log)
    : gmap string atom * log :=
  let result : gmap string atom :=
    {[ "retailer" := AStr "Macy's"; "name" := ANone; "price" := ANone;
       "original_price" := ANone; "availability" := AStr "Unknown";
       "url" := AStr url; "error" := ANone ]} in
  let '(fetched, lg') := fetch_soup http url lg in
  let body : gmap string atom * outcome unit :=
    match fetched with
    | Raised e => (result, Raised e)
    | Ok page =>
        let name :=
          name_loop page
            ["h1"; "h1.productTitle"; attr_is "" "data-testid" "product-title"; ".productTitle"]
            None in
        let result := <["name" := AStr (name_or_unknown name)]> result in
        match price_loop extract_price page
                [".pricingSummary__pricingGroup"; ".sale-price"; attr_is "" "data-testid" "sale-price"; ".currentPrice"] None with
        | Raised e => (result, Raised e)
        | Ok price =>
            let result := <["price" := atom_of_price price]> result in
            match price_loop extract_price page
                    [".original-price"; ".was-price"; ".regularPrice"] None with
            | Raised e => (result, Raised e)
            | Ok original_price =>
                let result := <["original_price" := atom_of_price original_price]> result in
                let availability :=
                  availability_loop page
                    [attr_is "" "data-testid" "availability"; ".availability-msg"; ".availabilityMessage"] in
                (<["availability" := AStr availability]> result, Ok tt)
            end
        end
    end in
  (match body with
   | (result, Ok _) => result
   | (result, Raised e) => record_error result e
   end, lg').

(** [for link in links:
         if link.get('href'):
             href = link['href']
             if not href.startswith('http'): href = base + href
             product_links.add(href)] *)
Fixpoint add_links (links : list tag) (product_links : gset string) : gset string :=
  match links with
  | [] => product_links
  | link :: rest =>
      match attr link "href" with
      | Some href =>
          if truthy (AStr href)
          then add_links rest ({[ absolute "https://www.macys.com" href ]} ∪ product_links)
          else add_links rest product_links
      | None => add_links rest product_links
      end
  end.

(** The links collected from the search page (a set), with the fallback
    selector when the first one gave nothing. *)
Definition product_links (page : tag) : gset string :=
  let product_links := add_links (select page (attr_is "a" "data-testid" "productCardLink")) ∅ in
  if bool_decide (product_links = ∅)
  then add_links (select page "a.productCardLink") product_links
  else product_links.

Definition search_macys_dockers (search_term : string) (lg : log)
    : list (gmap string atom) * log :=
  let '(fetched, lg') := fetch_soup http (search_url search_term) lg in
  match fetched with
  | Raised e => ([], lg')                    (* except Exception: logged *)
  | Ok page =>
      let links := list_of_set (product_links page) in
      scrape_each scrape_macys_product (take 3 links) lg'
  end.

End WithNetwork.
End macys_scraper.

(* ===================================================================== *)
(** * Dockers_scraper.py                                                 *)
(* ===================================================================== *)

Module Dockers_scraper.
Import Python Web.

Definition PRODUCT_URL : string :=
  "https://us.dockers.com/products/signature-iron-free-khakis-classic-fit-with-stain-defender-a31590022".

Definition extract_price (price_text : string) : outcome (option float) :=
  try_except
    (let cleaned := py_remove "," (py_remove "$" (py_strip price_text)) in
     f ← py_float cleaned; Ok (Some f))
    (fun e => is_ValueError e || is_AttributeError e)
    (fun _ => Ok None).

Section WithNetwork.
Variable http : network.

(** [def scrape_product() -> Optional[Dict]]: the function has no
    parameter and reads [PRODUCT_URL]. *)
Definition scrape_product (lg : log) : item * log :=
  let '(fetched, lg') := fetch_soup http PRODUCT_URL lg in
  let body : outcome item :=
    page ← fetched;
    let name :=
      match select_one page "h1.product-form_title" with
      | Some name_elem => py_strip (text name_elem)
      | None => "Signature Iron Free Khakis"
      end in
    let subtitle :=
      match select_one page "p.product-form_subtitle" with
      | Some subtitle_elem => Some (py_strip (text subtitle_elem))
      | None => None
      end in
    '(current_price, original_price) ← page_prices extract_price page;
    let availability := page_availability page in
    product_data ← build_product_data name subtitle current_price original_price
                      PRODUCT_URL availability;
    Ok (IDict product_data) in
  (match try_except body is_RequestException (fun _ => Ok (IAtom ANone)) with
   | Ok r => r
   | Raised _ => IAtom ANone                 (* except Exception: return None *)
   end, lg').

(** The name [scrape_product] as a callable: what
    [from Dockers_scraper import scrape_product] binds. *)
Definition scrape_product_callable (lg : log) (args : list atom) : outcome item :=
  call_def0 "scrape_product" (fst (scrape_product lg)) args.

End WithNetwork.
End Dockers_scraper.

(* ===================================================================== *)
(** * multi_scraper.py                                                   *)
(* ===================================================================== *)

Module multi_scraper.
Import Python Web.

Definition extract_price (price_text : string) : outcome (option float) :=
  try_except
    (let cleaned := py_remove "," (py_remove "$" (py_strip price_text)) in
     f ← py_float cleaned; Ok (Some f))
    (fun e => is_ValueError e || is_AttributeError e)
    (fun _ => Ok None).

Section WithNetwork.
Variable http : network.

Definition scrape_product (product_url : string) (lg : log) : item * log :=
  let '(fetched, lg') := fetch_soup http product_url lg in
  let body : outcome item :=
    page ← fetched;
    let name :=
      match select_one page "h1.product-form_title" with
      | Some name_elem => Some (py_strip (text name_elem))
      | None => None
      end in
    match name with
    | None => Ok (IAtom ANone)
    | Some name =>
        if negb (truthy (AStr name)) then Ok (IAtom ANone)
        else
          let subtitle :=
            match select_one page "p.product-form_subtitle" with
            | Some subtitle_elem => Some (py_strip (text subtitle_elem))
            | None => None
            end in
          '(current_price, original_price) ← page_prices extract_price page;
          let availability := page_availability page in
          product_data ← build_product_data name subtitle current_price
                            original_price product_url availability;
          Ok (IDict product_data)
    end in
  (match try_except body is_RequestException (fun _ => Ok (IAtom ANone)) with
   | Ok r => r
   | Raised _ => IAtom ANone                 (* except Exception: return None *)
   end, lg').

(** [for i, url in enumerate(product_urls):
         product = scrape_product(url)
         if product:
             products.append(product)] *)
Fixpoint scrape_multiple_products (product_urls : list string) (lg : log)
    : list item * log :=
  match product_urls with
  | [] => ([], lg)
  | url :: rest =>
      let '(product, lg1) := scrape_product url lg in
      let '(products, lg2) := scrape_multiple_products rest lg1 in
      (if truthy_item product then product :: products else products, lg2)
  end.

End WithNetwork.
End multi_scraper.

(* ===================================================================== *)
(** * scraper.py                                                         *)
(* ===================================================================== *)

Module scraper.
Import Python Web.

Definition BASE_URL : string := "https://www.dockers.com".
Definition PRODUCTS_ENDPOINT : string := "/en/shop/mens/pants".

Definition extract_price (price_text : string) : outcome (option float) :=
  try_except
    (let cleaned := py_remove "," (py_remove "$" (py_strip price_text)) in
     f ← py_float cleaned; Ok (Some f))
    (fun e => is_ValueError e || is_AttributeError e)
    (fun _ => Ok None).

Section WithNetwork.
Variable http : network.
(** [urllib.parse.urljoin] *)
Variable urljoin : string -> string -> string.

(** [fetch_page(url)]: the parsed page, or [None] when the request fails
    with a [RequestException]; any other exception leaves the function. *)
Definition fetch_page (url : string) (lg : log) : outcome (option tag) * log :=
  let '(fetched, lg') := fetch_soup http url lg in
  (try_except (page ← fetched; Ok (Some page)) is_RequestException (fun _ => Ok None), lg').

Definition extract_product_data (product_element : tag) : item :=
  let body : outcome item :=
    let link_elem :=
      select_one product_element (attr_is "a" "href*" "/products/") in
    (* name = link_elem.get('title') or link_elem.get_text(strip=True) *)
    let name : option string :=
      match link_elem with
      | Some link_elem =>
          match attr link_elem "title" with
          | Some title =>
              if truthy (AStr title) then Some title else Some (get_text_strip link_elem)
          | None => Some (get_text_strip link_elem)
          end
      | None => None
      end in
    (* if 'href' in link_elem.attrs: product_url = urljoin(BASE_URL, link_elem['href']) *)
    let product_url : option string :=
      match link_elem with
      | Some link_elem =>
          match attr link_elem "href" with
          | Some href => Some (urljoin BASE_URL href)
          | None => None
          end
      | None => None
      end in
    if negb (truthy (atom_of_str name)) then Ok (IAtom ANone)
    else
      current_price ←
        match select_one product_element
                (attr_is "" "data-testid*" "price" ++ ", .product-card_price, .price, "
                   ++ attr_is "span" "class*" "price")%string with
        | Some price_elem => extract_price (text price_elem)
        | None => Ok None
        end;
      original_price ←
        match select_one product_element
                (attr_is "" "class*" "original" ++ ", " ++ attr_is "" "class*" "regular"
                   ++ ", " ++ attr_is "" "class*" "was" ++ ", s")%string with
        | Some original_elem => extract_price (text original_elem)
        | None => Ok None
        end;
      let availability :=
        match select_one product_element
                (attr_is "" "class*" "availability" ++ ", " ++ attr_is "" "class*" "stock"
                   ++ ", " ++ attr_is "" "data-testid*" "availability")%string with
        | Some availability_elem =>
            let availability_text := py_lower (py_strip (text availability_elem)) in
            if py_in "out of stock" availability_text
               || py_in "unavailable" availability_text
            then "Out of Stock"
            else if py_in "in stock" availability_text
                    || py_in "available" availability_text
            then "In Stock"
            else "In Stock"
        | None =>
            match select_one product_element
                    (attr_is "" "class*" "out-of-stock" ++ ", "
                       ++ attr_is "" "class*" "unavailable"
                       ++ ", button:contains(" ++ dq ++ "Out" ++ dq ++ ")")%string with
            | Some _ => "Out of Stock"
            | None => "In Stock"
            end
        end in
      let is_on_sale :=
        match original_price, current_price with
        | Some o, Some c => PrimFloat.ltb c o
        | _, _ => false
        end in
      let product_data : gmap string atom :=
        {[ "name" := atom_of_str name;
           "current_price" := atom_of_price current_price;
           "original_price" := atom_of_price original_price;
           "discount_percentage" := ANone;
           "url" := atom_of_str product_url;
           "availability" := AStr availability;
           "is_on_sale" := ABool is_on_sale ]} in
      if is_on_sale
      then difference ← py_sub original_price current_price;
           ratio ← py_div difference original_price;
           rounded ← py_round (PrimFloat.mul ratio 100%float) 2;
           Ok (IDict (<["discount_percentage" := AFloat rounded]> product_data))
      else Ok (IDict product_data) in
  match body with
  | Ok r => r
  | Raised _ => IAtom ANone                   (* except Exception: return None *)
  end.

(** [get_next_page_url(soup, current_page)]; the page number is computed
    with, and not used. *)
Definition get_next_page_url (soup : tag) (current_page : Z) : option string :=
  match select_one soup
          (attr_is "a" "rel" "next" ++ ", .pagination a.next, "
             ++ attr_is "" "aria-label*" "next"
             ++ ", a:contains(" ++ dq ++ "Next" ++ dq ++ ")")%string with
  | Some next_button =>
      match attr next_button "href" with
      | Some href => Some (urljoin BASE_URL href)
      | None => None
      end
  | None => None
  end.

(** [while current_url and page_count < max_pages: ...], where
    [pages_left] is [max_pages - page_count]. *)
Fixpoint scrape_pages (pages_left : nat) (page_count : Z) (current_url : option string)
    (products : list item) (lg : log) : outcome (list item) * log :=
  match pages_left with
  | O => (Ok products, lg)
  | S pages_left =>
      if negb (truthy (atom_of_str current_url)) then (Ok products, lg)
      else
        let '(fetched, lg') := fetch_page (default "" current_url) lg in
        match fetched with
        | Raised e => (Raised e, lg')
        | Ok None => (Ok products, lg')                        (* if not soup: break *)
        | Ok (Some soup) =>
            match select soup "li.product-card_thumbnail-container" with
            | [] => (Ok products, lg')              (* if not product_elements: break *)
            | product_elements =>
                let products :=
                  products ++ filter (fun product_data => truthy_item product_data = true)
                                (extract_product_data <$> product_elements) in
                scrape_pages pages_left (page_count + 1)
                  (get_next_page_url soup page_count) products lg'
            end
        end
  end.

Definition scrape_dockers (max_pages : Z) (lg : log) : outcome (list item) * log :=
  scrape_pages (Z.to_nat max_pages) 0 (Some (urljoin BASE_URL PRODUCTS_ENDPOINT)) [] lg.

End WithNetwork.
End scraper.

(* ===================================================================== *)
(** * master_scraper.py                                                  *)
(* ===================================================================== *)

Module master_scraper.
Import Python Web.

(** The object [self]: [self.results] and [self.errors]
    ([self.threads] is never read). *)
Record MasterScraper : Type := {
  results : gmap string field;
  errors : list (string * string)
}.

Definition with_results (self : MasterScraper) (r : gmap string field) : MasterScraper :=
  {| results := r; errors := errors self |}.

Definition with_error (self : MasterScraper) (retailer : string) (e : exn) : MasterScraper :=
  {| results := results self; errors := errors self ++ [(retailer, str_of_exn e)] |}.

(** [MasterScraper()] *)
Definition init : MasterScraper :=
  {| results := {[ "dockers" := FList []; "amazon" := FList [];
                   "jcpenney" := FList []; "macys" := FList [];
                   "timestamp" := FAtom ANone; "search_term" := FAtom ANone ]};
     errors := [] |}.

(** [lst.append(x)] and [lst.extend(xs)] on a value of [self.results]. *)
Definition list_append (v : field) (x : item) : outcome field :=
  match v with
  | FList l => Ok (FList (l ++ [x]))
  | FAtom _ => Raised (AttributeError "object has no attribute 'append'")
  end.

Definition list_extend (v : field) (xs : list item) : outcome field :=
  match v with
  | FList l => Ok (FList (l ++ xs))
  | FAtom _ => Raised (AttributeError "object has no attribute 'extend'")
  end.

(** [for x in v]: the elements of a list, the characters of a string. *)
Fixpoint chars (s : string) : list item :=
  match s with
  | EmptyString => []
  | String c r => IAtom (AStr (String c EmptyString)) :: chars r
  end.

Definition iterate (v : field) : outcome (list item) :=
  match v with
  | FList l => Ok l
  | FAtom (AStr s) => Ok (chars s)
  | FAtom _ => Raised (TypeError "object is not iterable")
  end.

Section WithScrapers.
(** The four imported names.  [scrape_product] is applied to its
    positional arguments; the search functions are applied to the search
    term.  Each stands for what the call does in the run at hand. *)
Variable scrape_product : list atom -> outcome item.
Variable search_amazon_dockers : string -> outcome (list item).
Variable search_jcpenney_dockers : string -> outcome (list item).
Variable search_macys_dockers : string -> outcome (list item).

Definition scrape_dockers (url : string) (self : MasterScraper) : outcome MasterScraper :=
  try_except
    (product ← scrape_product [AStr url];
     lst ← getitem (results self) "dockers";
     lst ← list_append lst product;
     Ok (with_results self (<["dockers" := lst]> (results self))))
    is_Exception
    (fun e => Ok (with_error self "Dockers" e)).

Definition scrape_amazon (search_term : string) (self : MasterScraper) : outcome MasterScraper :=
  try_except
    (products ← search_amazon_dockers search_term;
     lst ← getitem (results self) "amazon";
     lst ← list_extend lst products;
     Ok (with_results self (<["amazon" := lst]> (results self))))
    is_Exception
    (fun e => Ok (with_error self "Amazon" e)).

Definition scrape_jcpenney (search_term : string) (self : MasterScraper) : outcome MasterScraper :=
  try_except
    (products ← search_jcpenney_dockers search_term;
     lst ← getitem (results self) "jcpenney";
     lst ← list_extend lst products;
     Ok (with_results self (<["jcpenney" := lst]> (results self))))
    is_Exception
    (fun e => Ok (with_error self "JCPenney" e)).

Definition scrape_macys (search_term : string) (self : MasterScraper) : outcome MasterScraper :=
  try_except
    (products ← search_macys_dockers search_term;
     lst ← getitem (results self) "macys";
     lst ← list_extend lst products;
     Ok (with_results self (<["macys" := lst]> (results self))))
    is_Exception
    (fun e => Ok (with_error self "Macy's" e)).

(** The four threads of [run_all_scrapers], by their [name]. *)
Inductive thread : Type :=
| DockersScraper | AmazonScraper | JCPenneyScraper | MacysScraper.

Definition threads : list thread :=
  [DockersScraper; AmazonScraper; JCPenneyScraper; MacysScraper].

Definition target (dockers_url search_term : string) (t : thread)
    : MasterScraper -> outcome MasterScraper :=
  match t with
  | DockersScraper => scrape_dockers dockers_url
  | AmazonScraper => scrape_amazon search_term
  | JCPenneyScraper => scrape_jcpenney search_term
  | MacysScraper => scrape_macys search_term
  end.

(** One thread run to its end: an exception that leaves the target ends
    that thread only, and [self] stays as it was. *)
Definition run_thread (f : MasterScraper -> outcome MasterScraper)
    (self : MasterScraper) : MasterScraper :=
  match f self with
  | Ok self' => self'
  | Raised _ => self
  end.

(** [run_all_scrapers(dockers_url, search_term)].  [now] is
    [datetime.now().isoformat()].  Each target changes [self] in its last
    statement only; [schedule] lists the threads in the order in which
    they reach it.  The function returns when all threads are joined. *)
Definition run_all_scrapers (dockers_url search_term now : string)
    (schedule : list thread) (self : MasterScraper) : MasterScraper :=
  let self := with_results self (<["search_term" := FAtom (AStr search_term)]> (results self)) in
  let self := with_results self (<["timestamp" := FAtom (AStr now)]> (results self)) in
  foldl (fun self t => run_thread (target dockers_url search_term t) self) self schedule.

End WithScrapers.

Definition retailers : list string := ["dockers"; "amazon"; "jcpenney"; "macys"].

(** [min(xs, key=key)]: the first element whose key no other element's
    key is less than ([<] on the keys, left to right). *)
Fixpoint min_loop {A} (key : A -> outcome atom) (xs : list A) (best : A) (best_key : atom)
    : outcome A :=
  match xs with
  | [] => Ok best
  | x :: rest =>
      k ← key x;
      lt ← py_lt k best_key;
      if lt : bool then min_loop key rest x k else min_loop key rest best best_key
  end.

Definition py_min {A} (key : A -> outcome atom) (xs : list A) : outcome A :=
  match xs with
  | [] => Raised (ValueError "min() arg is an empty sequence")
  | x :: rest => k ← key x; min_loop key rest x k
  end.

(** [sorted(xs, key=key)]: the keys are computed first, left to right, and
    the list is sorted by [<] on the keys, stably.  The model is insertion
    sort; every stable sort returns the same list when [<] is a strict
    weak order on the keys. *)
Fixpoint decorate {A} (key : A -> outcome atom) (xs : list A) : outcome (list (atom * A)) :=
  match xs with
  | [] => Ok []
  | x :: rest => k ← key x; ks ← decorate key rest; Ok ((k, x) :: ks)
  end.

Fixpoint insert_sorted {A} (kx : atom * A) (sorted : list (atom * A))
    : outcome (list (atom * A)) :=
  match sorted with
  | [] => Ok [kx]
  | ky :: rest =>
      lt ← py_lt (fst ky) (fst kx);
      if lt : bool then (r ← insert_sorted kx rest; Ok (ky :: r))
      else Ok (kx :: ky :: rest)
  end.

Fixpoint sort_decorated {A} (l : list (atom * A)) : outcome (list (atom * A)) :=
  match l with
  | [] => Ok []
  | kx :: rest => s ← sort_decorated rest; insert_sorted kx s
  end.

Definition py_sorted {A} (key : A -> outcome atom) (xs : list A) : outcome (list A) :=
  d ← decorate key xs; s ← sort_decorated d; Ok (s.*2).

(** [for product in products:
         if product.get('price'):
             all_products.append(wrap(product))]
    where [wrap] is [{**product, 'retailer_key': retailer}] in
    [get_lowest_price] and the product itself in [get_price_comparison]. *)
Fixpoint collect {A} (wrap : item -> outcome A) (products : list item) (all_products : list A)
    : outcome (list A) :=
  match products with
  | [] => Ok all_products
  | product :: rest =>
      price ← py_get product "price" ANone;
      if truthy price
      then (w ← wrap product; collect wrap rest (all_products ++ [w]))
      else collect wrap rest all_products
  end.

(** [for retailer in ['dockers', 'amazon', 'jcpenney', 'macys']:
         for product in self.results[retailer]: ...] *)
Fixpoint collect_all {A} (wrap : string -> item -> outcome A) (self : MasterScraper)
    (names : list string) (all_products : list A) : outcome (list A) :=
  match names with
  | [] => Ok all_products
  | retailer :: rest =>
      v ← getitem (results self) retailer;
      products ← iterate v;
      all_products ← collect (wrap retailer) products all_products;
      collect_all wrap self rest all_products
  end.

(** [lambda x: x.get('price', float('inf'))] *)
Definition price_key (x : item) : outcome atom := py_get x "price" (AFloat infinity).

(** Returns the product found, or [None]. *)
Definition get_lowest_price (self : MasterScraper) : outcome (option (gmap string atom)) :=
  all_products ←
    collect_all (fun retailer product => dict_with product "retailer_key" (AStr retailer))
      self retailers [];
  match all_products with
  | [] => Ok None
  | _ => lowest ← py_min (fun x => price_key (IDict x)) all_products; Ok (Some lowest)
  end.

Definition get_price_comparison (self : MasterScraper) : outcome (list item) :=
  all_products ← collect_all (fun _ product => Ok product) self retailers [];
  py_sorted price_key all_products.

(** The first statement of [print_summary]:
    [total_products = sum(len(v) for k, v in self.results.items()
                          if k != 'timestamp' and k != 'search_term')],
    over the entries [items] of the dictionary. *)
Fixpoint sum_len (items : list (string * field)) (total : Z) : outcome Z :=
  match items with
  | [] => Ok total
  | (k, v) :: rest =>
      if negb (String.eqb k "timestamp") && negb (String.eqb k "search_term")
      then n ← py_len v; sum_len rest (total + n)
      else sum_len rest total
  end.

(** [dict_items] lists the entries of a dictionary in the order of their
    insertion, which the map does not record. *)
Definition total_products (dict_items : gmap string field -> list (string * field))
    (self : MasterScraper) : outcome Z :=
  sum_len (dict_items (results self)) 0.

(** ** The module as it is loaded

    [from Dockers_scraper import scrape_product],
    [from amazon_scraper import search_amazon_dockers], and so on: the four
    names of [WithScrapers] bound to the functions of the other modules.
    Every thread talks to its own site, and starts with an empty log. *)
Record world : Type := {
  dockers_site : network;
  amazon_site : network;
  jcpenney_site : network;
  macys_site : network;
  jcpenney_set_order : gset string -> list string;
  macys_set_order : gset string -> list string
}.

Definition imported_scrape_product (w : world) : list atom -> outcome item :=
  Dockers_scraper.scrape_product_callable (dockers_site w) [].

Definition imported_search_amazon_dockers (w : world) (search_term : string)
    : outcome (list item) :=
  Ok (IDict <$> (amazon_scraper.search_amazon_dockers (amazon_site w) search_term []).1).

Definition imported_search_jcpenney_dockers (w : world) (search_term : string)
    : outcome (list item) :=
  Ok (IDict <$> (jcpenney_scraper.search_jcpenney_dockers (jcpenney_site w)
                   (jcpenney_set_order w) search_term []).1).

Definition imported_search_macys_dockers (w : world) (search_term : string)
    : outcome (list item) :=
  Ok (IDict <$> (macys_scraper.search_macys_dockers (macys_site w)
                   (macys_set_order w) search_term []).1).

Definition imported_run_all_scrapers (w : world) (dockers_url search_term now : string)
    (schedule : list thread) (self : MasterScraper) : MasterScraper :=
  run_all_scrapers (imported_scrape_product w) (imported_search_amazon_dockers w)
    (imported_search_jcpenney_dockers w) (imported_search_macys_dockers w)
    dockers_url search_term now schedule self.

End master_scraper.

(* ===================================================================== *)
(** * Vocabulary of the properties                                       *)
(* ===================================================================== *)

Import Python Web master_scraper.

(** ** Threads and what their adapters hand over *)

Definition source_key (t : thread) : string :=
  match t with
  | DockersScraper => "dockers"
  | AmazonScraper => "amazon"
  | JCPenneyScraper => "jcpenney"
  | MacysScraper => "macys"
  end.

(** The name under which a thread files its failure in [self.errors]. *)
Definition retailer_label (t : thread) : string :=
  match t with
  | DockersScraper => "Dockers"
  | AmazonScraper => "Amazon"
  | JCPenneyScraper => "JCPenney"
  | MacysScraper => "Macy's"
  end.

#[global] Instance thread_eq_dec : EqDecision thread.
Proof. solve_decision. Defined.

Section Adapters.
Variable scrape_product : list atom -> outcome item.
Variable search_amazon_dockers search_jcpenney_dockers search_macys_dockers
  : string -> outcome (list item).
Variables dockers_url search_term : string.

(** The records the adapter of thread [t] returns in this run, or the
    exception its call raises.  The Dockers adapter returns one product;
    [scrape_dockers] appends it, so it counts as a list of one. *)
Definition delivery (t : thread) : outcome (list item) :=
  match t with
  | DockersScraper =>
      match scrape_product [AStr dockers_url] with
      | Ok product => Ok [product]
      | Raised e => Raised e
      end
  | AmazonScraper => search_amazon_dockers search_term
  | JCPenneyScraper => search_jcpenney_dockers search_term
  | MacysScraper => search_macys_dockers search_term
  end.

Definition delivered (t : thread) : list item :=
  match delivery t with
  | Ok records => records
  | Raised _ => []
  end.

Definition failure (t : thread) : option (string * string) :=
  match delivery t with
  | Ok _ => None
  | Raised e => Some (retailer_label t, str_of_exn e)
  end.

End Adapters.

(** Every source key of [self.results] holds a list. *)
Definition lists_at_sources (self : MasterScraper) : Prop :=
  forall t, exists l, results self !! source_key t = Some (FList l).

(** [self] after the first two statements of [run_all_scrapers], before
    any thread has changed it. *)
Definition started (search_term now : string) : MasterScraper :=
  with_results
    (with_results init (<["search_term" := FAtom (AStr search_term)]> (results init)))
    (<["timestamp" := FAtom (AStr now)]>
       (<["search_term" := FAtom (AStr search_term)]> (results init))).

(** A record names its retailer and its URL: both keys hold a string. *)
Definition identified (x : item) : Prop :=
  exists d retailer url,
    x = IDict d /\ d !! "retailer" = Some (AStr retailer) /\ d !! "url" = Some (AStr url).

(** ** Prices *)

(** [product.get('price')] is true in a condition. *)
Definition has_price (d : gmap string atom) : bool :=
  truthy (default ANone (d !! "price")).

Definition price_of (d : gmap string atom) : float :=
  match d !! "price" with
  | Some (AFloat f) => f
  | _ => nan
  end.

Definition item_price (x : item) : float :=
  match x with
  | IDict d => price_of d
  | IAtom _ => nan
  end.

(** The price of a record, when it has the key and the value is not
    [None], is a number. *)
Definition price_ok (d : gmap string atom) : Prop :=
  match d !! "price" with
  | Some (AFloat f) => is_nan f = false
  | Some ANone | None => True
  | Some _ => False
  end.

(** A populated result set: the four source keys hold the lists of
    records [ld], [la], [lj], [lm], and every price is well formed. *)
Definition populated (self : MasterScraper) (ld la lj lm : list (gmap string atom)) : Prop :=
  results self !! "dockers" = Some (FList (IDict <$> ld))
  /\ results self !! "amazon" = Some (FList (IDict <$> la))
  /\ results self !! "jcpenney" = Some (FList (IDict <$> lj))
  /\ results self !! "macys" = Some (FList (IDict <$> lm))
  /\ Forall price_ok (ld ++ la ++ lj ++ lm).

Definition tagged (retailer : string) (l : list (gmap string atom))
    : list (string * gmap string atom) :=
  (fun d => (retailer, d)) <$> l.

(** The flatten order: sources in the order dockers, amazon, jcpenney,
    macys, and the records of a source in the order of its list. *)
Definition flatten (ld la lj lm : list (gmap string atom)) : list (string * gmap string atom) :=
  tagged "dockers" ld ++ tagged "amazon" la ++ tagged "jcpenney" lj ++ tagged "macys" lm.

(** The records both aggregators keep, in flatten order. *)
Definition candidates (ld la lj lm : list (gmap string atom)) : list (string * gmap string atom) :=
  filter (fun p => has_price p.2 = true) (flatten ld la lj lm).

Definition priced_items (ld la lj lm : list (gmap string atom)) : list item :=
  (fun p => IDict p.2) <$> candidates ld la lj lm.

Definition priced (l : list (gmap string atom)) : list (gmap string atom) :=
  filter (fun d => has_price d = true) l.

(** [m], at index [i] of [l], is the first element of least key: no key
    of [l] is below its key, and every key before index [i] is above. *)
Definition first_min {A} (kf : A -> float) (l : list A) (i : nat) (m : A) : Prop :=
  l !! i = Some m
  /\ (forall j y, l !! j = Some y -> PrimFloat.leb (kf m) (kf y) = true)
  /\ (forall j y, (j < i)%nat -> l !! j = Some y -> PrimFloat.ltb (kf m) (kf y) = true).

(** [key x] is the number [kf x]. *)
Definition float_keyed {A} (key : A -> outcome atom) (kf : A -> float) (x : A) : Prop :=
  key x = Ok (AFloat (kf x)) /\ is_nan (kf x) = false.

(** A pair of [decorate]: the key is the number [kf] of the element. *)
Definition decorated {A} (kf : A -> float) (kx : atom * A) : Prop :=
  kx.1 = AFloat (kf kx.2) /\ is_nan (kf kx.2) = false.

Definition same_price {A} (kf : A -> float) (p : float) (x : A) : Prop :=
  PrimFloat.eqb (kf x) p = true.

Definition ascending {A} (kf : A -> float) (x y : A) : Prop :=
  PrimFloat.leb (kf x) (kf y) = true.

(** The discount of a product on sale before it is rounded:
    [((original_price - current_price) / original_price) * 100]. *)
Definition unrounded_discount (current_price original_price : float) : float :=
  PrimFloat.mul (PrimFloat.div (PrimFloat.sub original_price current_price)
                   original_price) 100%float.

(** [100 * (m * 2 ^ e)] as a fraction of two integers. *)
Definition hundred_times (m : positive) (e : Z) : Z * Z :=
  if 0 <=? e then (100 * Z.pos m * 2 ^ e, 1) else (100 * Z.pos m, 2 ^ (- e)).

(** [k] is the integer nearest to the fraction [ab.1 / ab.2], the even one
    when two integers are equally near. *)
Definition nearest_integer (ab : Z * Z) (k : Z) : Prop :=
  2 * Z.abs (ab.1 - k * ab.2) <= ab.2
  /\ (2 * Z.abs (ab.1 - k * ab.2) = ab.2 -> Z.even k = true).

(** [r] is [x] rounded to two decimal digits: for a finite [x] that is not
    zero, the float that Python reads in the decimal [k / 100] with the sign
    of [x], where [k] is the integer nearest to [100 * |x|]; a zero, an
    infinity and NaN are left as they are. *)
Definition two_decimals (x : float) (k : Z) (r : float) : Prop :=
  match Prim2SF x with
  | S754_finite s m e =>
      nearest_integer (hundred_times m e) k /\ r = float_of_decimal s k (-2)
  | _ => r = x
  end.

(** [x] is finite and the rounded [r] is not. *)
Definition rounds_to_infinity (x r : float) : Prop :=
  match Prim2SF x with
  | S754_finite _ _ _ => PrimFloat.eqb (abs r) infinity = true
  | _ => False
  end.

(** A character of a decimal number without sign or exponent. *)
Definition numeric (c : ascii) : bool := is_digit c || Ascii.eqb c ".".

(** An optional price that is not NaN. *)
Definition good_price (p : option float) : Prop :=
  match p with
  | Some f => is_nan f = false
  | None => True
  end.

(** ** Concrete inputs *)

(** A record as the three retailer modules build it. *)
Definition sample_product (retailer name : string) (price : atom) (url : string)
    : gmap string atom :=
  {[ "retailer" := AStr retailer; "name" := AStr name; "price" := price;
     "original_price" := ANone; "availability" := AStr "In Stock";
     "url" := AStr url; "error" := ANone ]}.

(** A result set with the given per-source lists. *)
Definition with_lists (ld la lj lm : list (gmap string atom)) : MasterScraper :=
  {| results := {[ "dockers" := FList (IDict <$> ld); "amazon" := FList (IDict <$> la);
                   "jcpenney" := FList (IDict <$> lj); "macys" := FList (IDict <$> lm);
                   "timestamp" := FAtom (AStr "2026-01-01T00:00:00");
                   "search_term" := FAtom (AStr "Dockers Khakis") ]};
     errors := [] |}.

Definition free_sample : gmap string atom :=
  sample_product "Amazon" "Dockers Sample" (AFloat 0) "https://www.amazon.com/dp/A".
Definition khaki_10 : gmap string atom :=
  sample_product "Amazon" "Dockers Khaki" (AFloat 10) "https://www.amazon.com/dp/B".
Definition khaki_30 : gmap string atom :=
  sample_product "Amazon" "Dockers Signature" (AFloat 30) "https://www.amazon.com/dp/C".
Definition jcp_10 : gmap string atom :=
  sample_product "JCPenney" "Dockers Easy Khaki" (AFloat 10) "https://www.jcpenney.com/p/1".
Definition macys_20 : gmap string atom :=
  sample_product "Macy's" "Dockers Classic" (AFloat 20) "https://www.macys.com/shop/product/2".

(** Adapters for a run in which the Dockers call fails and the others
    return records. *)
Definition failing_scrape_product (args : list atom) : outcome item :=
  Raised (OtherException "connection reset").
Definition amazon_two (search_term : string) : outcome (list item) :=
  Ok [IDict khaki_30; IDict khaki_10].
Definition jcpenney_one (search_term : string) : outcome (list item) :=
  Ok [IDict jcp_10].
Definition macys_none (search_term : string) : outcome (list item) :=
  Ok [].

(** An Amazon search page whose two results link to the same product. *)
Definition leaf (attrs : gmap string string) : tag := Tag "" "" attrs (fun _ => []).

Definition node (query : string) (children : list tag) : tag :=
  Tag "" "" ∅ (fun q => if String.eqb q query then children else []).

Definition search_result (href : string) : tag :=
  node "h2.s-size-mini" [node "a" [leaf {[ "href" := href ]}]].

Definition duplicate_page : tag :=
  node (attr_is "div" "data-component-type" "s-search-result")
    [search_result "/dp/B0TEST"; search_result "/dp/B0TEST"].

(** A site that serves [duplicate_page] for the search and answers 404
    to every other request. *)
Definition duplicate_site : network := fun lg url =>
  if String.eqb url (amazon_scraper.search_url "Dockers Khakis")
  then Ok {| status_code := 200; reason := "OK"; url := url; soup := duplicate_page |}
  else Ok {| status_code := 404; reason := "Not Found"; url := url; soup := leaf ∅ |}.

(** A product page that shows the price [$0.00] and nothing else. *)
Definition zero_price_page : tag :=
  node "span.a-offscreen" [Tag "$0.00" "$0.00" ∅ (fun _ => [])].

Definition zero_price_site : network := fun lg url =>
  Ok {| status_code := 200; reason := "OK"; url := url; soup := zero_price_page |}.

Definition not_found_site : network := fun lg url =>
  Ok {| status_code := 404; reason := "Not Found"; url := url; soup := leaf ∅ |}.

Definition sample_world : world :=
  {| dockers_site := not_found_site; amazon_site := duplicate_site;
     jcpenney_site := not_found_site; macys_site := not_found_site;
     jcpenney_set_order := elements; macys_set_order := elements |}.

(* ===================================================================== *)
(** * Vocabulary of the further properties                               *)
(* ===================================================================== *)

(** ** Records of the three retailer modules *)

Definition record_keys : gset string :=
  {[ "retailer"; "name"; "price"; "original_price"; "availability"; "url"; "error" ]}.

(** What a record says about the request that was made for it: after a
    page was fetched, no error, a name that is not empty and one of the
    three availabilities; after a failure, the error text and the fields
    as they were initialised. *)
Definition reports_fetch (fetched : outcome tag) (r : gmap string atom) : Prop :=
  dom r = record_keys
  /\ match fetched with
     | Ok _ =>
         r !! "error" = Some ANone
         /\ (exists name, r !! "name" = Some (AStr name) /\ name <> "")
         /\ (exists availability,
               r !! "availability" = Some (AStr availability)
               /\ availability ∈ ["In Stock"; "Out of Stock"; "Check Site"])
     | Raised _ =>
         (exists msg, r !! "error" = Some (AStr msg))
         /\ r !! "name" = Some ANone /\ r !! "price" = Some ANone
         /\ r !! "original_price" = Some ANone
         /\ r !! "availability" = Some (AStr "Unknown")
     end.

(** A binary64 value that is zero, positive or plus infinity. *)
Definition nonneg_sf (x : spec_float) : Prop :=
  match x with
  | S754_zero false | S754_infinity false | S754_finite false _ _ => True
  | _ => False
  end.

(** [None], or a number that is not below zero (and so not NaN). *)
Definition nonneg_price (a : atom) : Prop :=
  match a with
  | ANone => True
  | AFloat f => PrimFloat.leb 0 f = true
  | _ => False
  end.

Definition nonneg_prices (r : gmap string atom) : Prop :=
  exists price original_price,
    r !! "price" = Some price /\ r !! "original_price" = Some original_price
    /\ nonneg_price price /\ nonneg_price original_price.

(** What the regular-expression [extract_price] reads in a text. *)
Definition price_in (price_text : string) : option float :=
  match amazon_scraper.extract_price price_text with
  | Ok price => price
  | Raised _ => None
  end.

(** The stripped texts of the elements that the selectors find, in the
    order of the selectors; a selector that finds nothing gives none. *)
Definition found_texts (page : tag) (selectors : list string) : list string :=
  omap (fun selector => get_text_strip <$> select_one page selector) selectors.

(** [name and len(name) > 5] *)
Definition long_name (name : string) : Prop :=
  truthy (AStr name) && (5 <? Z.of_nat (String.length name)) = true.

#[global] Instance long_name_dec name : Decision (long_name name).
Proof. unfold long_name. apply _. Defined.

Definition truthy_price (p : option float) : Prop := price_truthy p = true.

#[global] Instance truthy_price_dec p : Decision (truthy_price p).
Proof. unfold truthy_price. apply _. Defined.

(** ** Search URLs *)

Definition hex_val (c : ascii) : Z := if is_digit c then code c - 48 else code c - 55.

(** The character whose encoding by [quote_plus_char] opens [s]. *)
Definition first_quoted (s : string) : option ascii :=
  match s with
  | EmptyString => None
  | String c rest =>
      if Ascii.eqb c "%"
      then match rest with
           | String h1 (String h2 rest) =>
               let b := 16 * hex_val h1 + hex_val h2 in
               if b <? 128 then Some (ascii_of_N (Z.to_N b))
               else match rest with
                    | String _ (String h3 (String h4 _)) =>
                        Some (ascii_of_N (Z.to_N (64 * (b - 192)
                                                  + (16 * hex_val h3 + hex_val h4 - 128))))
                    | _ => None
                    end
           | _ => None
           end
      else if Ascii.eqb c "+" then Some " "%char else Some c
  end.

(** The characters of an encoded query: letters, digits, [_.-~], [+]
    and [%]. *)
Definition url_safe (c : ascii) : bool :=
  is_unreserved c || Ascii.eqb c "+" || Ascii.eqb c "%".

(** ** Price texts *)

(** A price as a shop prints it: an optional [$], then digits and commas,
    then, optionally, a dot and digits. *)
Definition plain_price (price_text : string) : Prop :=
  exists (dollar : bool) (whole : list ascii) (cents : option (list ascii)),
    price_text
    = string_of_list_ascii
        ((if dollar then ["$"%char] else [])
           ++ whole ++ match cents with Some ds => "."%char :: ds | None => [] end)
    /\ whole <> []
    /\ Forall (fun c => is_digit_or_comma c = true) whole
    /\ Forall (fun c => is_digit c = true) (default [] cents).

(** ** Records of the Dockers modules *)

Definition product_keys : gset string :=
  {[ "name"; "subtitle"; "current_price"; "original_price"; "discount_percentage";
     "url"; "availability"; "is_on_sale" ]}.

(** A record of [Dockers_scraper.py] or [multi_scraper.py] for the page
    at [url]: the eight keys, a name, one of the two availabilities, and
    a discount exactly when [is_on_sale] is [True]. *)
Definition dockers_product (url : string) (d : gmap string atom) : Prop :=
  dom d = product_keys
  /\ d !! "url" = Some (AStr url)
  /\ (exists name, d !! "name" = Some (AStr name))
  /\ (exists availability,
        d !! "availability" = Some (AStr availability)
        /\ availability ∈ ["In Stock"; "Out of Stock"])
  /\ (d !! "is_on_sale" = Some (ABool true)
      /\ (exists discount, d !! "discount_percentage" = Some (AFloat discount))
      \/ d !! "is_on_sale" = Some (ABool false)
         /\ d !! "discount_percentage" = Some ANone).

(** [product['url']], when the product is a dictionary and the value a
    string. *)
Definition item_url (x : item) : option string :=
  match x with
  | IDict d => match d !! "url" with Some (AStr url) => Some url | _ => None end
  | IAtom _ => None
  end.

Definition listing_keys : gset string :=
  {[ "name"; "current_price"; "original_price"; "discount_percentage";
     "url"; "availability"; "is_on_sale" ]}.

(** A product of [scraper.py]: the seven keys, a name that is not empty,
    one of the two availabilities, and a discount exactly when
    [is_on_sale] is [True]. *)
Definition listed_product (x : item) : Prop :=
  exists d name,
    x = IDict d /\ dom d = listing_keys
    /\ d !! "name" = Some (AStr name) /\ name <> ""
    /\ (exists availability,
          d !! "availability" = Some (AStr availability)
          /\ availability ∈ ["In Stock"; "Out of Stock"])
    /\ (d !! "is_on_sale" = Some (ABool true)
        /\ (exists discount, d !! "discount_percentage" = Some (AFloat discount))
        \/ d !! "is_on_sale" = Some (ABool false)
           /\ d !! "discount_percentage" = Some ANone).

(** ** The master scraper *)

(** The number of records under an entry of [self.results]. *)
Definition listed (p : string * field) : nat :=
  match p.2 with
  | FList l => length l
  | FAtom _ => 0
  end.

(** What [x.get] raises when [x] is no dictionary. *)
Definition no_get : exn := AttributeError "object has no attribute 'get'".

(** ** Further concrete inputs *)

(** A result set whose Dockers list holds the [None] that
    [Dockers_scraper.scrape_product] returns on failure. *)
Definition unchecked_dockers : MasterScraper :=
  {| results := <["dockers" := FList [IAtom ANone]]> (results init); errors := [] |}.

(** A Dockers product page with the sale price [$40.00] and the regular
    price [$50.00]. *)
Definition price_span (price_text : string) : tag := Tag price_text price_text ∅ (fun _ => []).

Definition sale_page : tag :=
  node (attr_is "div" "js-product-form" "priceElements")
    [node "span" [price_span "$40.00"; price_span "$50.00"]].

Definition sale_site : network := fun lg url =>
  Ok {| status_code := 200; reason := "OK"; url := url; soup := sale_page |}.

(** The record that [Dockers_scraper.scrape_product] returns for it. *)
Definition sale_record : gmap string atom :=
  {[ "name" := AStr "Signature Iron Free Khakis"; "subtitle" := ANone;
     "current_price" := AFloat 40; "original_price" := AFloat 50;
     "discount_percentage" := AFloat 20; "url" := AStr Dockers_scraper.PRODUCT_URL;
     "availability" := AStr "In Stock"; "is_on_sale" := ABool true ]}.

(** A JCPenney search page that lists one product twice. *)
Definition jcpenney_duplicate_page : tag :=
  node (attr_is "a" "data-testid" "productCardLink")
    [leaf {[ "href" := "/p/1" ]}; leaf {[ "href" := "/p/1" ]}].

Definition jcpenney_duplicate_site : network := fun lg url =>
  if String.eqb url (jcpenney_scraper.search_url "Dockers Khakis")
  then Ok {| status_code := 200; reason := "OK"; url := url; soup := jcpenney_duplicate_page |}
  else Ok {| status_code := 404; reason := "Not Found"; url := url; soup := leaf ∅ |}.

(** A product listing whose every page shows one product and links to a
    next page. *)
Definition listing_card : tag :=
  node (attr_is "a" "href*" "/products/")
    [Tag "Khakis" "Khakis" {[ "href" := "/products/khakis" ]} (fun _ => [])].

Definition endless_page : tag :=
  Tag "" "" ∅ (fun q =>
    if String.eqb q "li.product-card_thumbnail-container" then [listing_card]
    else if String.prefix "a[rel=" q then [leaf {[ "href" := "/en/shop/mens/pants?page=2" ]}]
    else []).

Definition endless_site : network := fun lg url =>
  Ok {| status_code := 200; reason := "OK"; url := url; soup := endless_page |}.

(* ===================================================================== *)
(** * Properties                                                         *)
(* ===================================================================== *)

(** ** The order of the floats *)

Section FloatOrder.

Lemma SFcompare_antisym a b : SFcompare b a = CompOpp <$> SFcompare a b.
Proof.
  destruct a as [[]|[]| |[] m1 e1], b as [[]|[]| |[] m2 e2]; simpl; try reflexivity.
  all: rewrite (Z.compare_antisym e1 e2); destruct (e1 ?= e2)%Z; simpl; try reflexivity.
  all: change (PosDef.Pos.compare_cont Eq) with Pos.compare.
  all: rewrite (Pos.compare_antisym m1 m2); destruct (m1 ?= m2)%positive; reflexivity.
Qed.

Lemma SFcompare_lt_trans a b c :
  SFcompare a b = Some Lt -> SFcompare b c = Some Lt -> SFcompare a c = Some Lt.
Proof.
  destruct a as [[]|[]| |[] m1 e1], b as [[]|[]| |[] m2 e2], c as [[]|[]| |[] m3 e3];
    simpl; try congruence.
  all: change (PosDef.Pos.compare_cont Eq) with Pos.compare.
  all: destruct (Z.compare_spec e1 e2), (Z.compare_spec e2 e3); simpl; try congruence;
    subst; rewrite ?Z.compare_refl.
  all: try (destruct (Z.compare_spec e1 e3); try lia; try congruence).
  all: try (destruct (Z.compare_spec e2 e3); try lia; try congruence).
  all: destruct (Pos.compare_spec m1 m2), (Pos.compare_spec m2 m3); simpl; try congruence.
  all: intros _ _; destruct (Pos.compare_spec m1 m3); simpl; try reflexivity; lia.
Qed.

Lemma SFcompare_eq_l a b c :
  SFcompare a b = Some Eq -> SFcompare a c = SFcompare b c.
Proof.
  destruct a as [[]|[]| |[] m1 e1], b as [[]|[]| |[] m2 e2], c as [[]|[]| |[] m3 e3];
    simpl; try congruence.
  all: change (PosDef.Pos.compare_cont Eq) with Pos.compare.
  all: destruct (Z.compare_spec e1 e2); simpl; try congruence; subst.
  all: destruct (Pos.compare_spec m1 m2); simpl; try congruence; subst; reflexivity.
Qed.

Lemma SFcompare_defined a b :
  a <> S754_nan -> b <> S754_nan -> exists c, SFcompare a b = Some c.
Proof. destruct a, b; simpl; try congruence; eauto. Qed.

Lemma is_nan_Prim2SF x : is_nan x = false <-> Prim2SF x <> S754_nan.
Proof.
  unfold is_nan. rewrite FloatAxioms.eqb_spec. unfold SFeqb.
  destruct (Prim2SF x) as [[]|[]| |[] m e]; simpl; try (split; congruence).
  all: rewrite Z.compare_refl; change (PosDef.Pos.compare_cont Eq) with Pos.compare;
    rewrite Pos.compare_refl; simpl; split; congruence.
Qed.

Lemma ltb_Lt x y : PrimFloat.ltb x y = true <-> SFcompare (Prim2SF x) (Prim2SF y) = Some Lt.
Proof.
  rewrite ltb_spec. unfold SFltb.
  destruct (SFcompare _ _) as [[]|]; split; congruence.
Qed.

Lemma float_ltb_trans x y z :
  PrimFloat.ltb x y = true -> PrimFloat.ltb y z = true -> PrimFloat.ltb x z = true.
Proof. rewrite !ltb_Lt. apply SFcompare_lt_trans. Qed.

Lemma float_ltb_asym x y : PrimFloat.ltb x y = true -> PrimFloat.ltb y x = false.
Proof.
  intros H. apply ltb_Lt in H. apply not_true_is_false. rewrite ltb_Lt.
  rewrite SFcompare_antisym, H. discriminate.
Qed.

(** Between numbers, [<] is negatively transitive. *)
Lemma float_ltb_cotrans x y z :
  is_nan y = false ->
  PrimFloat.ltb x z = true -> PrimFloat.ltb x y = true \/ PrimFloat.ltb y z = true.
Proof.
  intros Hy H. apply ltb_Lt in H. rewrite !ltb_Lt.
  assert (Hx : Prim2SF x <> S754_nan) by (intros E; rewrite E in H; discriminate).
  apply is_nan_Prim2SF in Hy.
  destruct (SFcompare_defined _ _ Hx Hy) as [[] Hc]; [right|left; done|right].
  - rewrite <- (SFcompare_eq_l _ _ _ Hc). done.
  - eapply SFcompare_lt_trans; [|done]. rewrite SFcompare_antisym, Hc. done.
Qed.

(** Between numbers, [x <= y] says that [y < x] fails. *)
Lemma float_leb_ltb x y :
  is_nan x = false -> is_nan y = false ->
  PrimFloat.leb x y = negb (PrimFloat.ltb y x).
Proof.
  intros Hx%is_nan_Prim2SF Hy%is_nan_Prim2SF.
  rewrite leb_spec, ltb_spec. unfold SFleb, SFltb.
  rewrite (SFcompare_antisym (Prim2SF x) (Prim2SF y)).
  destruct (SFcompare_defined _ _ Hx Hy) as [[] ->]; reflexivity.
Qed.

Lemma float_ltb_eqb x y p :
  PrimFloat.ltb x y = true -> PrimFloat.eqb y p = true -> PrimFloat.eqb x p = false.
Proof.
  rewrite ltb_Lt, !FloatAxioms.eqb_spec. unfold SFeqb. intros H1 H2.
  destruct (SFcompare (Prim2SF y) (Prim2SF p)) as [[]|] eqn:E; try discriminate.
  assert (Hpy : SFcompare (Prim2SF p) (Prim2SF y) = Some Eq)
    by (rewrite SFcompare_antisym, E; done).
  rewrite (SFcompare_antisym (Prim2SF p) (Prim2SF x)),
    (SFcompare_eq_l _ _ _ Hpy), (SFcompare_antisym (Prim2SF x) (Prim2SF y)), H1.
  done.
Qed.

Lemma float_leb_refl x : is_nan x = false -> PrimFloat.leb x x = true.
Proof.
  intros Hx. rewrite float_leb_ltb by done.
  destruct (PrimFloat.ltb x x) eqn:E; [|done].
  by rewrite (float_ltb_asym _ _ E) in E.
Qed.

End FloatOrder.

(** ** Price texts *)

Lemma py_float_raises s e : py_float s = Raised e -> is_ValueError e = true.
Proof. unfold py_float. destruct (parse_float _); [done|]. by intros [= <-]. Qed.

Lemma strip_extract_price price_text :
  exists r, Dockers_scraper.extract_price price_text = Ok r
    /\ forall f, r = Some f
         <-> py_float (py_remove "," (py_remove "$" (py_strip price_text))) = Ok f.
Proof.
  unfold Dockers_scraper.extract_price.
  destruct (py_float _) as [f|e] eqn:E; simpl.
  - exists (Some f). split; [done|]. intros f'. split; congruence.
  - rewrite (py_float_raises _ _ E). simpl. exists None. split; [done|].
    intros f'. split; congruence.
Qed.

Lemma regex_extract_price price_text :
  exists r, amazon_scraper.extract_price price_text = Ok r
    /\ forall f, r = Some f
         <-> price_text <> ""
             /\ exists group1, re_search_price price_text = Some group1
                  /\ py_float (py_remove "," group1) = Ok f.
Proof.
  unfold amazon_scraper.extract_price. simpl.
  destruct price_text as [|c s]; simpl.
  { exists None. split; [done|]. intros f. split; [done|]. by intros [? _]. }
  destruct (re_search_price (String c s)) as [g|].
  - destruct (py_float _) as [f|e] eqn:E; simpl.
    + exists (Some f). split; [done|]. intros f'. split.
      * intros [= <-]. split; [done|]. eauto.
      * intros (_ & g' & [= <-] & Hf). congruence.
    + rewrite (py_float_raises _ _ E). simpl. exists None. split; [done|].
      intros f'. split; [done|]. intros (_ & g' & [= <-] & Hf). congruence.
  - exists None. split; [done|]. intros f. split; [done|]. by intros (_ & g' & ? & _).
Qed.

(** C7.  [extract_price] returns on every string, and never raises.  The
    version of [Dockers_scraper.py] (and [multi_scraper.py]) returns the
    float that [float] reads in the text stripped of white space, [$] and
    commas, and [None] when [float] rejects it.  The version of
    [amazon_scraper.py] (and [jcpenney_scraper.py], [macys_scraper.py])
    returns the float read in the first run of digits and commas, less
    the commas, and [None] when the text is empty, has no such run, or
    [float] rejects the run. *)
Theorem extract_price_never_raises price_text :
  (exists r, Dockers_scraper.extract_price price_text = Ok r
     /\ forall f, r = Some f
          <-> py_float (py_remove "," (py_remove "$" (py_strip price_text))) = Ok f)
  /\ (exists r, amazon_scraper.extract_price price_text = Ok r
        /\ forall f, r = Some f
             <-> price_text <> ""
                 /\ exists group1, re_search_price price_text = Some group1
                      /\ py_float (py_remove "," group1) = Ok f)
  /\ jcpenney_scraper.extract_price price_text = amazon_scraper.extract_price price_text
  /\ macys_scraper.extract_price price_text = amazon_scraper.extract_price price_text
  /\ multi_scraper.extract_price price_text = Dockers_scraper.extract_price price_text.
Proof.
  split; [apply strip_extract_price|]. split; [apply regex_extract_price|]. done.
Qed.

Example extract_price_samples :
  Dockers_scraper.extract_price " $1,234.50 " = Ok (Some 1234.5%float)
  /\ Dockers_scraper.extract_price "" = Ok None
  /\ Dockers_scraper.extract_price "N/A" = Ok None
  /\ Dockers_scraper.extract_price "$12.3.4" = Ok None
  /\ amazon_scraper.extract_price "Now $1,234.50 (was $2,000)" = Ok (Some 1234.5%float)
  /\ amazon_scraper.extract_price "" = Ok None
  /\ amazon_scraper.extract_price "call us" = Ok None
  /\ amazon_scraper.extract_price "," = Ok None
  /\ amazon_scraper.extract_price "$0.00" = Ok (Some 0%float).
Proof. repeat split; vm_compute; reflexivity. Qed.

(** ** The discount of a Dockers product *)

Lemma round_half_even_div_nearest a b :
  0 < b -> nearest_integer (a, b) (round_half_even_div a b).
Proof.
  intros Hb. unfold nearest_integer, round_half_even_div. simpl.
  pose proof (Z.div_mod a b ltac:(lia)) as Hd.
  pose proof (Z.mod_pos_bound a b Hb) as Hm.
  set (q := a / b) in *. set (r := a mod b) in *.
  assert (Ha : a - q * b = r) by lia.
  assert (Ha1 : a - (q + 1) * b = r - b) by lia.
  destruct (Z.ltb_spec (2 * r) b) as [H1|H1].
  { rewrite Ha. split; [lia|lia]. }
  destruct (Z.ltb_spec b (2 * r)) as [H2|H2].
  { rewrite Ha1. split; [lia|lia]. }
  destruct (Z.even q) eqn:E.
  { rewrite Ha. split; [lia|done]. }
  rewrite Ha1. split; [lia|]. intros _.
  rewrite Z.even_add, E. done.
Qed.

Lemma nearest_integer_unique ab k k' :
  0 < ab.2 -> nearest_integer ab k -> nearest_integer ab k' -> k = k'.
Proof.
  destruct ab as [a b]. simpl. intros Hb [H1 E1] [H2 E2]. simpl in *.
  assert (Hk : k = k' \/ k = k' + 1 \/ k' = k + 1) by nia.
  destruct Hk as [?|[->| ->]]; [done|exfalso..].
  - assert (T1 : 2 * Z.abs (a - (k' + 1) * b) = b) by nia.
    assert (T2 : 2 * Z.abs (a - k' * b) = b) by nia.
    specialize (E1 T1). specialize (E2 T2).
    rewrite Z.even_add, E2 in E1. done.
  - assert (T1 : 2 * Z.abs (a - (k + 1) * b) = b) by nia.
    assert (T2 : 2 * Z.abs (a - k * b) = b) by nia.
    specialize (E1 T2). specialize (E2 T1).
    rewrite Z.even_add, E1 in E2. done.
Qed.

Lemma hundred_times_pos m e : 0 < (hundred_times m e).2.
Proof.
  unfold hundred_times. destruct (0 <=? e) eqn:E; simpl; [lia|].
  apply Z.leb_gt in E. apply Z.pow_pos_nonneg; lia.
Qed.

(** What [round(x, 2)] returns, and when it raises. *)
Lemma py_round_two_decimals x :
  match py_round x 2 with
  | Ok r => exists k, two_decimals x k r
  | Raised e => exists k r, two_decimals x k r /\ rounds_to_infinity x r
  end.
Proof.
  unfold py_round, rounds_to_infinity, two_decimals.
  destruct (Prim2SF x) as [s|s| |s m e] eqn:Ex; try (by exists 0).
  set (q := if 0 <=? e then _ else _).
  assert (Hq : nearest_integer (hundred_times m e) q).
  { unfold q, hundred_times. change (10 ^ Z.of_nat 2) with 100.
    destruct (0 <=? e) eqn:E.
    - unfold nearest_integer. simpl.
      replace (100 * Z.pos m * 2 ^ e - Z.pos m * 2 ^ e * 100 * 1) with 0 by lia.
      simpl. split; [lia|lia].
    - apply Z.leb_gt in E.
      assert (Hb : 0 < 2 ^ (- e)) by (apply Z.pow_pos_nonneg; lia).
      replace (Z.pos m * 100) with (100 * Z.pos m) by lia.
      by apply round_half_even_div_nearest. }
  assert (Hr : (match q with
                | Z.pos p => SF2Prim (SFdiv prec emax (S754_finite s p 0)
                                        (S754_finite false (Z.to_pos (10 ^ Z.of_nat 2)) 0))
                | _ => SF2Prim (S754_zero s)
                end) = float_of_decimal s q (-2)).
  { unfold float_of_decimal. destruct q; try done. }
  rewrite Hr. clearbody q.
  destruct (PrimFloat.eqb (abs (float_of_decimal s q (-2))) infinity) eqn:Ei.
  - exists q, (float_of_decimal s q (-2)). done.
  - exists q. done.
Qed.

Lemma two_decimals_unique x k k' r r' :
  two_decimals x k r -> two_decimals x k' r' -> r = r'.
Proof.
  unfold two_decimals. destruct (Prim2SF x) as [s|s| |s m e]; try congruence.
  intros [Hk ->] [Hk' ->].
  by rewrite (nearest_integer_unique _ k k' (hundred_times_pos m e) Hk Hk').
Qed.

(** C6.  Of the record that [scrape_product] builds from a current and an
    original price.  When both are present and the current price is below
    the original one, [discount_percentage] is
    [(original - current) / original * 100] rounded to two decimal digits:
    the float that Python reads in the decimal [k / 100], where [k] is the
    integer nearest to a hundred times that number (the even one of two
    equally near), and no other float; an infinite discount and NaN stay
    as they are.  No record is built when the original price is zero or
    the rounded number is too large for a float.  In every other case the
    record is built and its [discount_percentage] is [None].  With 40 and
    50 the discount is 20.0, with 50 and 40 it is [None], and with 19.99
    and 29.99 it is 33.34. *)
Theorem discount_percentage_defined :
  (forall name subtitle current_price original_price url availability,
     match current_price, original_price with
     | Some price, Some original =>
         if PrimFloat.ltb price original
         then match build_product_data name subtitle current_price original_price
                      url availability with
              | Ok product_data =>
                  exists k discount,
                    two_decimals (unrounded_discount price original) k discount
                    /\ product_data !! "discount_percentage" = Some (AFloat discount)
              | Raised e =>
                  PrimFloat.eqb original 0 = true
                  \/ exists k r,
                       two_decimals (unrounded_discount price original) k r
                       /\ rounds_to_infinity (unrounded_discount price original) r
              end
         else exists product_data,
                build_product_data name subtitle current_price original_price
                  url availability = Ok product_data
                /\ product_data !! "discount_percentage" = Some ANone
     | _, _ =>
         exists product_data,
           build_product_data name subtitle current_price original_price
             url availability = Ok product_data
           /\ product_data !! "discount_percentage" = Some ANone
     end)
  /\ (forall x k k' r r', two_decimals x k r -> two_decimals x k' r' -> r = r')
  /\ (exists product_data,
        build_product_data "Khakis" None (Some 40%float) (Some 50%float)
          Dockers_scraper.PRODUCT_URL "In Stock" = Ok product_data
        /\ product_data !! "discount_percentage" = Some (AFloat 20))
  /\ (exists product_data,
        build_product_data "Khakis" None (Some 50%float) (Some 40%float)
          Dockers_scraper.PRODUCT_URL "In Stock" = Ok product_data
        /\ product_data !! "discount_percentage" = Some ANone)
  /\ (exists product_data,
        build_product_data "Khakis" None (Some (float_of_decimal false 1999 (-2)))
          (Some (float_of_decimal false 2999 (-2)))
          Dockers_scraper.PRODUCT_URL "In Stock" = Ok product_data
        /\ product_data !! "discount_percentage"
           = Some (AFloat (float_of_decimal false 3334 (-2)))
        /\ two_decimals (unrounded_discount (float_of_decimal false 1999 (-2))
                           (float_of_decimal false 2999 (-2)))
             3334 (float_of_decimal false 3334 (-2))).
Proof.
  split; [|split; [exact two_decimals_unique|]].
  2:{ split; [|split]; eexists; (split; [reflexivity|]); [reflexivity..|].
      split; [reflexivity|]. vm_compute. repeat split; try lia; done. }
  intros name subtitle current_price original_price url availability.
  unfold build_product_data.
  destruct current_price as [c|], original_price as [o|]; simpl;
    try (eexists; split; reflexivity).
  destruct (PrimFloat.ltb c o); simpl; [|eexists; split; reflexivity].
  destruct (PrimFloat.eqb o 0); simpl; [by left|].
  pose proof (py_round_two_decimals (unrounded_discount c o)) as H.
  unfold unrounded_discount in *.
  destruct (py_round _ _) as [d|]; simpl.
  - destruct H as [k H]. exists k, d. split; [done|]. by rewrite lookup_insert_eq.
  - by right.
Qed.

(** The record of a Dockers product has no ["retailer"] key. *)
Lemma build_product_data_no_retailer name subtitle current_price original_price url
    availability product_data :
  build_product_data name subtitle current_price original_price url availability
    = Ok product_data ->
  product_data !! "retailer" = None.
Proof.
  unfold build_product_data.
  destruct (match original_price with Some _ => _ | None => _ end); simpl.
  - destruct (py_sub _ _); simpl; [|done].
    destruct (py_div _ _); simpl; [|done].
    destruct (py_round _ _); simpl; [|done].
    intros [= <-]. by rewrite lookup_insert_ne.
  - by intros [= <-].
Qed.

(** ** The records and the requests of the retailer modules *)

Lemma record_error_other result e k :
  k <> "error" -> record_error result e !! k = result !! k.
Proof. intros Hk. destruct e; simpl; by rewrite lookup_insert_ne. Qed.

Ltac product_fields :=
  intros; cbv beta delta [amazon_scraper.scrape_amazon_product
    jcpenney_scraper.scrape_jcpenney_product macys_scraper.scrape_macys_product];
  destruct (fetch_soup _ _ _) as [[page|e] lg'];
  repeat match goal with
    | |- context [price_loop ?f ?p ?s ?i] => destruct (price_loop f p s i)
    end;
  cbn [fst snd]; rewrite ?record_error_other by done;
  rewrite ?lookup_insert_ne by done; split; reflexivity.

Lemma scrape_amazon_product_fields http url lg :
  (amazon_scraper.scrape_amazon_product http url lg).1 !! "retailer" = Some (AStr "Amazon")
  /\ (amazon_scraper.scrape_amazon_product http url lg).1 !! "url" = Some (AStr url).
Proof. product_fields. Qed.

Lemma scrape_jcpenney_product_fields http url lg :
  (jcpenney_scraper.scrape_jcpenney_product http url lg).1 !! "retailer"
    = Some (AStr "JCPenney")
  /\ (jcpenney_scraper.scrape_jcpenney_product http url lg).1 !! "url" = Some (AStr url).
Proof. product_fields. Qed.

Lemma scrape_macys_product_fields http url lg :
  (macys_scraper.scrape_macys_product http url lg).1 !! "retailer" = Some (AStr "Macy's")
  /\ (macys_scraper.scrape_macys_product http url lg).1 !! "url" = Some (AStr url).
Proof. product_fields. Qed.

Lemma scrape_each_Forall (P : gmap string atom -> Prop) scrape links lg :
  (forall link lg, P (scrape link lg).1) ->
  Forall P (scrape_each scrape links lg).1.
Proof.
  intros Hs. revert lg. induction links as [|link links IH]; intros lg; simpl.
  - constructor.
  - pose proof (Hs link lg) as H. destruct (scrape link lg) as [p lg1].
    pose proof (IH lg1) as H'. destruct (scrape_each scrape links lg1) as [ps lg2].
    by constructor.
Qed.

Lemma scrape_each_log scrape links lg :
  (forall link lg, (scrape link lg).2 = lg ++ [link]) ->
  (scrape_each scrape links lg).2 = lg ++ links.
Proof.
  intros Hs. revert lg. induction links as [|link links IH]; intros lg; simpl.
  - by rewrite app_nil_r.
  - pose proof (Hs link lg) as H. destruct (scrape link lg) as [p lg1].
    pose proof (IH lg1) as H'. destruct (scrape_each scrape links lg1) as [ps lg2].
    simpl in *. subst. by rewrite <- app_assoc.
Qed.

Lemma fetch_soup_log http url lg : (fetch_soup http url lg).2 = lg ++ [url].
Proof. reflexivity. Qed.

Ltac product_log :=
  intros; cbv beta delta [amazon_scraper.scrape_amazon_product
    jcpenney_scraper.scrape_jcpenney_product macys_scraper.scrape_macys_product];
  match goal with |- context [fetch_soup ?h ?u ?l] =>
    let Hlog := fresh "Hlog" in
    pose proof (fetch_soup_log h u l) as Hlog; destruct (fetch_soup h u l);
    exact Hlog
  end.

Lemma scrape_amazon_product_log http url lg :
  (amazon_scraper.scrape_amazon_product http url lg).2 = lg ++ [url].
Proof. product_log. Qed.

Lemma scrape_jcpenney_product_log http url lg :
  (jcpenney_scraper.scrape_jcpenney_product http url lg).2 = lg ++ [url].
Proof. product_log. Qed.

Lemma scrape_macys_product_log http url lg :
  (macys_scraper.scrape_macys_product http url lg).2 = lg ++ [url].
Proof. product_log. Qed.

Lemma search_amazon_identified http term lg :
  Forall identified (IDict <$> (amazon_scraper.search_amazon_dockers http term lg).1).
Proof.
  unfold amazon_scraper.search_amazon_dockers.
  destruct (fetch_soup _ _ _) as [[page|e] lg']; [|constructor].
  rewrite Forall_fmap. apply scrape_each_Forall. intros link lg0.
  destruct (scrape_amazon_product_fields http link lg0). unfold identified. simpl. eauto 6.
Qed.

Lemma search_jcpenney_identified http order term lg :
  Forall identified
    (IDict <$> (jcpenney_scraper.search_jcpenney_dockers http order term lg).1).
Proof.
  unfold jcpenney_scraper.search_jcpenney_dockers.
  destruct (fetch_soup _ _ _) as [[page|e] lg']; [|constructor].
  rewrite Forall_fmap. apply scrape_each_Forall. intros link lg0.
  destruct (scrape_jcpenney_product_fields http link lg0). unfold identified. simpl. eauto 6.
Qed.

Lemma search_macys_identified http order term lg :
  Forall identified (IDict <$> (macys_scraper.search_macys_dockers http order term lg).1).
Proof.
  unfold macys_scraper.search_macys_dockers.
  destruct (fetch_soup _ _ _) as [[page|e] lg']; [|constructor].
  rewrite Forall_fmap. apply scrape_each_Forall. intros link lg0.
  destruct (scrape_macys_product_fields http link lg0). unfold identified. simpl. eauto 6.
Qed.

(** Every search requests its search page and then at most three product
    pages. *)
Lemma amazon_detail_fetches http term lg :
  exists links : list string,
    (amazon_scraper.search_amazon_dockers http term lg).2
      = lg ++ [amazon_scraper.search_url term] ++ links
    /\ (length links <= 3)%nat.
Proof.
  unfold amazon_scraper.search_amazon_dockers.
  pose proof (fetch_soup_log http (amazon_scraper.search_url term) lg) as Hl.
  destruct (fetch_soup _ _ _) as [[page|e] lg']; simpl in Hl; subst.
  - eexists. rewrite scrape_each_log by apply scrape_amazon_product_log.
    rewrite <- app_assoc. split; [done|]. rewrite length_take. lia.
  - exists []. split; [by rewrite app_nil_r|]. simpl. lia.
Qed.

(** The product pages that the JCPenney and the Macy's search request are
    pairwise distinct, whatever the order in which the set is listed. *)
Lemma jcpenney_detail_fetches http list_of_set term lg :
  (forall s, list_of_set s ≡ₚ elements s) ->
  exists links : list string,
    (jcpenney_scraper.search_jcpenney_dockers http list_of_set term lg).2
      = lg ++ [jcpenney_scraper.search_url term] ++ links
    /\ (length links <= 3)%nat /\ NoDup links.
Proof.
  intros Hset. unfold jcpenney_scraper.search_jcpenney_dockers.
  pose proof (fetch_soup_log http (jcpenney_scraper.search_url term) lg) as Hl.
  destruct (fetch_soup _ _ _) as [[page|e] lg']; simpl in Hl; subst.
  - eexists. rewrite scrape_each_log by apply scrape_jcpenney_product_log.
    rewrite <- app_assoc. split; [done|]. split; [rewrite length_take; lia|].
    eapply sublist_NoDup; [|apply sublist_take]. rewrite Hset. apply NoDup_elements.
  - exists []. split; [by rewrite app_nil_r|]. split; [simpl; lia|constructor].
Qed.

Lemma macys_detail_fetches http list_of_set term lg :
  (forall s, list_of_set s ≡ₚ elements s) ->
  exists links : list string,
    (macys_scraper.search_macys_dockers http list_of_set term lg).2
      = lg ++ [macys_scraper.search_url term] ++ links
    /\ (length links <= 3)%nat /\ NoDup links.
Proof.
  intros Hset. unfold macys_scraper.search_macys_dockers.
  pose proof (fetch_soup_log http (macys_scraper.search_url term) lg) as Hl.
  destruct (fetch_soup _ _ _) as [[page|e] lg']; simpl in Hl; subst.
  - eexists. rewrite scrape_each_log by apply scrape_macys_product_log.
    rewrite <- app_assoc. split; [done|]. split; [rewrite length_take; lia|].
    eapply sublist_NoDup; [|apply sublist_take]. rewrite Hset. apply NoDup_elements.
  - exists []. split; [by rewrite app_nil_r|]. split; [simpl; lia|constructor].
Qed.

(** C8, on the input that separates the Amazon module from the other
    two.  The search page [duplicate_page] lists one product twice;
    [search_amazon_dockers] keeps its links in a list, requests the
    product page twice and returns two records for the one URL. *)
Theorem amazon_search_fetches_duplicate_link_twice :
  amazon_scraper.product_links
    (select duplicate_page (attr_is "div" "data-component-type" "s-search-result"))
  = ["https://www.amazon.com/dp/B0TEST"; "https://www.amazon.com/dp/B0TEST"]
  /\ (amazon_scraper.search_amazon_dockers duplicate_site "Dockers Khakis" []).2
     = [amazon_scraper.search_url "Dockers Khakis";
        "https://www.amazon.com/dp/B0TEST"; "https://www.amazon.com/dp/B0TEST"]
  /\ (fun d => d !! "url") <$>
       (amazon_scraper.search_amazon_dockers duplicate_site "Dockers Khakis" []).1
     = [Some (AStr "https://www.amazon.com/dp/B0TEST");
        Some (AStr "https://www.amazon.com/dp/B0TEST")].
Proof. repeat split; vm_compute; reflexivity. Qed.

(** ** The threads of [run_all_scrapers] *)

Section Run.
Variable scrape_product : list atom -> outcome item.
Variable search_amazon_dockers search_jcpenney_dockers search_macys_dockers
  : string -> outcome (list item).
Variables dockers_url search_term now : string.

Abbreviation target' :=
  (target scrape_product search_amazon_dockers search_jcpenney_dockers
     search_macys_dockers dockers_url search_term).
Abbreviation run' :=
  (run_all_scrapers scrape_product search_amazon_dockers search_jcpenney_dockers
     search_macys_dockers dockers_url search_term now).
Abbreviation delivery' :=
  (delivery scrape_product search_amazon_dockers search_jcpenney_dockers
     search_macys_dockers dockers_url search_term).
Abbreviation delivered' :=
  (delivered scrape_product search_amazon_dockers search_jcpenney_dockers
     search_macys_dockers dockers_url search_term).
Abbreviation failure' :=
  (failure scrape_product search_amazon_dockers search_jcpenney_dockers
     search_macys_dockers dockers_url search_term).

(** A target returns normally: it extends its list, or files the failure
    of its adapter. *)
Lemma target_step t self l :
  results self !! source_key t = Some (FList l) ->
  target' t self
  = Ok {| results := match delivery' t with
                     | Ok xs => <[source_key t := FList (l ++ xs)]> (results self)
                     | Raised _ => results self
                     end;
          errors := errors self ++ match failure' t with Some p => [p] | None => [] end |}.
Proof.
  intros Hl. unfold failure.
  destruct t; simpl in *; unfold scrape_dockers, scrape_amazon, scrape_jcpenney,
    scrape_macys, getitem, with_results, with_error; rewrite Hl; simpl.
  - destruct (scrape_product _); simpl; by rewrite ?app_nil_r.
  - destruct (search_amazon_dockers _); simpl; by rewrite ?app_nil_r.
  - destruct (search_jcpenney_dockers _); simpl; by rewrite ?app_nil_r.
  - destruct (search_macys_dockers _); simpl; by rewrite ?app_nil_r.
Qed.

Lemma source_key_inj t u : source_key t = source_key u -> t = u.
Proof. by destruct t, u. Qed.

Lemma run_threads_spec schedule self :
  lists_at_sources self ->
  let final := foldl (fun self t => run_thread (target' t) self) self schedule in
  lists_at_sources final
  /\ (forall t l, results self !! source_key t = Some (FList l) ->
        results final !! source_key t
        = Some (FList (l ++ concat (delivered' <$> filter (eq t) schedule))))
  /\ (forall k, (forall t, k <> source_key t) -> results final !! k = results self !! k)
  /\ errors final = errors self ++ omap failure' schedule.
Proof.
  revert self. induction schedule as [|t schedule IH]; intros self Hself; simpl.
  - repeat split; [done| |by rewrite app_nil_r].
    intros t l ->. by rewrite app_nil_r.
  - destruct (Hself t) as [lt Hlt].
    assert (Hstep : run_thread (target' t) self = _)
      by (unfold run_thread; rewrite (target_step t self lt Hlt); reflexivity).
    rewrite Hstep. clear Hstep. set (self1 := {| results := _ |}).
    assert (H1 : forall u l, results self !! source_key u = Some (FList l) ->
              results self1 !! source_key u
              = Some (FList (l ++ if decide (t = u) then delivered' t else []))).
    { intros u l Hu. unfold self1, delivered. simpl.
      destruct (delivery' t) as [xs|e]; case_decide as Htu; subst;
        rewrite ?app_nil_r; simplify_map_eq; try done.
      rewrite lookup_insert_ne; [done|]. intros ?%source_key_inj. done. }
    assert (Hs1 : lists_at_sources self1).
    { intros u. destruct (Hself u) as [l Hl]. rewrite (H1 u l Hl). eauto. }
    destruct (IH self1 Hs1) as (Hf & Hr & Ho & He).
    split; [done|]. split; [|split].
    + intros u l Hu. rewrite (Hr u _ (H1 u l Hu)). rewrite filter_cons.
      do 2 f_equal. rewrite <- app_assoc. f_equal.
      case_decide as Htu; [subst; by rewrite decide_True|by rewrite decide_False].
    + intros k Hk. rewrite (Ho k Hk). unfold self1. simpl.
      destruct (delivery' t); [|done]. apply lookup_insert_ne. apply not_eq_sym, Hk.
    + rewrite He. unfold self1. simpl. rewrite <- app_assoc.
      by destruct (failure' t).
Qed.

Lemma run_unfold schedule :
  run' schedule init
  = foldl (fun self t => run_thread (target' t) self) (started search_term now) schedule.
Proof. reflexivity. Qed.

Lemma started_sources t : results (started search_term now) !! source_key t = Some (FList []).
Proof. by destruct t. Qed.

Lemma started_lists : lists_at_sources (started search_term now).
Proof. intros t. exists []. apply started_sources. Qed.

Lemma filter_thread_schedule schedule t :
  schedule ≡ₚ threads -> filter (eq t) schedule = [t].
Proof.
  intros Hp. apply Permutation_singleton_r.
  rewrite Hp. by destruct t.
Qed.

Lemma failures_of_threads t :
  filter (fun p => p.1 = retailer_label t) (omap failure' threads)
  = match failure' t with Some p => [p] | None => [] end.
Proof.
  unfold threads, failure. simpl.
  destruct t; simpl;
    destruct (scrape_product _), (search_amazon_dockers _),
      (search_jcpenney_dockers _), (search_macys_dockers _); done.
Qed.

(** During a run every target returns normally. *)
Lemma run_targets_return schedule k t :
  exists self', target' t (run' (take k schedule) init) = Ok self'.
Proof.
  rewrite run_unfold.
  destruct (run_threads_spec (take k schedule) _ started_lists) as (Hl & _).
  destruct (Hl t) as [l Hlt]. erewrite target_step by done. eauto.
Qed.

(** After a run the list of a source holds what its adapter delivered,
    and [self.errors] holds the failures, one for each adapter that
    raised. *)
Lemma run_results schedule t :
  schedule ≡ₚ threads ->
  results (run' schedule init) !! source_key t = Some (FList (delivered' t))
  /\ filter (fun p => p.1 = retailer_label t) (errors (run' schedule init))
     = match failure' t with Some p => [p] | None => [] end.
Proof.
  intros Hp. rewrite run_unfold.
  destruct (run_threads_spec schedule _ started_lists) as (_ & Hr & _ & He).
  rewrite (Hr t [] (started_sources t)), He, (filter_thread_schedule _ _ Hp).
  simpl. rewrite app_nil_r. split; [done|].
  assert (Hf : filter (fun p : string * string => p.1 = retailer_label t)
                 (omap failure' schedule)
               ≡ₚ match failure' t with Some p => [p] | None => [] end).
  { rewrite <- failures_of_threads. by rewrite Hp. }
  destruct (failure' t).
  - by apply Permutation_singleton_r.
  - by apply Permutation_nil_r.
Qed.

Lemma retailers_source_key retailer :
  retailer ∈ retailers -> exists t, retailer = source_key t.
Proof.
  unfold retailers. rewrite !elem_of_cons.
  intros [->|[->|[->|[->|Hr]]]];
    [by exists DockersScraper|by exists AmazonScraper|by exists JCPenneyScraper
    |by exists MacysScraper|by apply elem_of_nil in Hr].
Qed.

(** C1.  Whatever the four adapters do, and in whatever order the threads
    finish: every target returns normally, so no exception leaves a thread
    and [run_all_scrapers] returns; the list of a source whose adapter
    raised [e] is empty and [self.errors] has exactly one entry under its
    name, [(retailer, str(e))]; the list of a source whose adapter
    returned holds exactly the records it returned, and [self.errors] has
    no entry under its name. *)
Theorem run_all_scrapers_isolates_failures schedule :
  schedule ≡ₚ threads ->
  (forall k t, schedule !! k = Some t ->
     exists self', target' t (run' (take k schedule) init) = Ok self')
  /\ forall t,
       match delivery' t with
       | Ok records =>
           results (run' schedule init) !! source_key t = Some (FList records)
           /\ filter (fun p => p.1 = retailer_label t) (errors (run' schedule init)) = []
       | Raised e =>
           results (run' schedule init) !! source_key t = Some (FList [])
           /\ filter (fun p => p.1 = retailer_label t) (errors (run' schedule init))
              = [(retailer_label t, str_of_exn e)]
       end.
Proof.
  intros Hp. split.
  - intros k t _. apply run_targets_return.
  - intros t. destruct (run_results schedule t Hp) as [Hr He].
    unfold delivered, failure in *. by destruct (delivery' t).
Qed.

(** C4.  After a run every configured source has its key in
    [self.results], bound to a list. *)
Theorem every_source_key_is_bound schedule :
  schedule ≡ₚ threads ->
  forall retailer, retailer ∈ retailers ->
    exists records, results (run' schedule init) !! retailer = Some (FList records).
Proof.
  intros Hp r [t ->]%retailers_source_key.
  destruct (run_results schedule t Hp) as [-> _]. eauto.
Qed.

End Run.

Lemma run_all_scrapers_isolates_failures_witness :
  results (run_all_scrapers failing_scrape_product amazon_two jcpenney_one macys_none
             Dockers_scraper.PRODUCT_URL "Dockers Khakis" "2026-01-01T00:00:00"
             (reverse threads) init) !! "dockers" = Some (FList [])
  /\ filter (fun p => p.1 = "Dockers")
       (errors (run_all_scrapers failing_scrape_product amazon_two jcpenney_one macys_none
                  Dockers_scraper.PRODUCT_URL "Dockers Khakis" "2026-01-01T00:00:00"
                  (reverse threads) init))
     = [("Dockers", "connection reset")].
Proof.
  exact (proj2 (run_all_scrapers_isolates_failures failing_scrape_product amazon_two
                  jcpenney_one macys_none Dockers_scraper.PRODUCT_URL "Dockers Khakis"
                  "2026-01-01T00:00:00" (reverse threads) (reverse_Permutation threads))
           DockersScraper).
Defined.

Lemma every_source_key_is_bound_witness :
  exists records,
    results (run_all_scrapers failing_scrape_product amazon_two jcpenney_one macys_none
               Dockers_scraper.PRODUCT_URL "Dockers Khakis" "2026-01-01T00:00:00"
               (reverse threads) init) !! "dockers" = Some (FList records).
Proof.
  apply (every_source_key_is_bound failing_scrape_product amazon_two jcpenney_one
           macys_none Dockers_scraper.PRODUCT_URL "Dockers Khakis" "2026-01-01T00:00:00"
           (reverse threads) (reverse_Permutation threads) "dockers").
  unfold retailers. apply elem_of_cons. by left.
Defined.

Example run_example :
  let final := run_all_scrapers failing_scrape_product amazon_two jcpenney_one macys_none
                 Dockers_scraper.PRODUCT_URL "Dockers Khakis" "2026-01-01T00:00:00"
                 (reverse threads) init in
  results final !! "amazon" = Some (FList [IDict khaki_30; IDict khaki_10])
  /\ results final !! "jcpenney" = Some (FList [IDict jcp_10])
  /\ results final !! "macys" = Some (FList [])
  /\ errors final = [("Dockers", "connection reset")].
Proof. repeat split; vm_compute; reflexivity. Qed.

(** ** The records of a run of the module as it is loaded *)

(** [scrape_product] is defined without a parameter; [scrape_dockers]
    calls it with the URL, so the call raises [TypeError] before the
    function runs. *)
Lemma imported_scrape_product_raises w url :
  imported_scrape_product w [AStr url]
  = Raised (TypeError "scrape_product() takes 0 positional arguments but 1 was given").
Proof. reflexivity. Qed.

Lemma imported_delivered_identified w dockers_url search_term t :
  Forall identified
    (delivered (imported_scrape_product w) (imported_search_amazon_dockers w)
       (imported_search_jcpenney_dockers w) (imported_search_macys_dockers w)
       dockers_url search_term t).
Proof.
  unfold delivered, delivery. destruct t.
  - rewrite imported_scrape_product_raises. constructor.
  - apply search_amazon_identified.
  - apply search_jcpenney_identified.
  - apply search_macys_identified.
Qed.

(** C5.  After a run of the module as it is loaded, every record in a
    per-source list is a dictionary whose ["retailer"] and ["url"] hold
    strings, whatever the sites answer.  The records come from the three
    search modules, which set both keys before the request is made and
    never overwrite them; the Dockers list stays empty, since its call
    raises. *)
Theorem every_record_names_retailer_and_url w dockers_url search_term now schedule :
  schedule ≡ₚ threads ->
  forall retailer records x,
    retailer ∈ retailers ->
    results (imported_run_all_scrapers w dockers_url search_term now schedule init)
      !! retailer = Some (FList records) ->
    x ∈ records ->
    identified x.
Proof.
  intros Hp r records x [t ->]%retailers_source_key Hr Hx.
  unfold imported_run_all_scrapers in Hr.
  destruct (run_results (imported_scrape_product w) (imported_search_amazon_dockers w)
              (imported_search_jcpenney_dockers w) (imported_search_macys_dockers w)
              dockers_url search_term now schedule t Hp) as [Hd _].
  rewrite Hd in Hr. injection Hr as <-.
  pose proof (imported_delivered_identified w dockers_url search_term t) as Hall.
  rewrite Forall_forall in Hall. by apply Hall.
Qed.

Lemma every_record_names_retailer_and_url_witness :
  Forall identified
    (IDict <$> (amazon_scraper.search_amazon_dockers duplicate_site "Dockers Khakis" []).1).
Proof.
  apply Forall_forall. intros x Hx.
  apply (every_record_names_retailer_and_url sample_world Dockers_scraper.PRODUCT_URL
           "Dockers Khakis" "2026-01-01T00:00:00" (reverse threads)
           (reverse_Permutation threads) "amazon"
           (IDict <$> (amazon_scraper.search_amazon_dockers duplicate_site
                         "Dockers Khakis" []).1) x).
  - unfold retailers. apply elem_of_cons. right. apply elem_of_cons. by left.
  - vm_compute. reflexivity.
  - exact Hx.
Defined.

(** ** The prices of a run are numbers

    [float] rounds a decimal to a binary64 number, never to NaN; the only
    text it reads as NaN is [nan], which the price pattern cannot
    match. *)

Section NotNan.

Lemma shr_1_nonneg mrs : 0 <= shr_m mrs -> 0 <= shr_m (shr_1 mrs).
Proof. destruct mrs as [[|[p|p|]|p] r s]; simpl; lia. Qed.

Lemma iter_pos_shr_1_nonneg p mrs :
  0 <= shr_m mrs -> 0 <= shr_m (SpecFloat.iter_pos shr_1 p mrs).
Proof.
  revert mrs. induction p as [p IH|p IH|]; intros mrs H; simpl;
    auto using shr_1_nonneg.
Qed.

Lemma shr_fexp_nonneg m e l :
  0 <= m -> 0 <= shr_m (shr_fexp prec emax m e l).1.
Proof.
  intros H. unfold shr_fexp, shr.
  assert (H0 : 0 <= shr_m (shr_record_of_loc m l)) by (by destruct l as [|[]]).
  destruct (fexp prec emax (Zdigits2 m + e) - e); simpl; auto using iter_pos_shr_1_nonneg.
Qed.

Lemma round_nearest_even_nonneg m l : 0 <= m -> 0 <= round_nearest_even m l.
Proof. intros H. destruct l as [|[]]; simpl; try lia. destruct (IntDef.Z.even m); lia. Qed.

Lemma binary_round_aux_not_nan sx mx ex lx :
  0 <= mx -> binary_round_aux prec emax sx mx ex lx <> S754_nan.
Proof.
  intros H. unfold binary_round_aux.
  pose proof (shr_fexp_nonneg mx ex lx H) as H1.
  destruct (shr_fexp prec emax mx ex lx) as [mrs' e']. simpl in H1.
  pose proof (shr_fexp_nonneg _ e' loc_Exact
                (round_nearest_even_nonneg _ (loc_of_shr_record mrs') H1)) as H2.
  destruct (shr_fexp prec emax _ e' loc_Exact) as [mrs'' e'']. simpl in H2.
  destruct (shr_m mrs''); [done| |lia].
  by destruct (e'' <=? emax - prec).
Qed.

Lemma binary_round_not_nan sx mx ex : binary_round prec emax sx mx ex <> S754_nan.
Proof.
  unfold binary_round. destruct (shl_align _ _ _) as [mz ez].
  apply binary_round_aux_not_nan. lia.
Qed.

Lemma binary_normalize_not_nan m e szero : binary_normalize prec emax m e szero <> S754_nan.
Proof. destruct m; simpl; [done|apply binary_round_not_nan..]. Qed.

Lemma SFdiv_finite_not_nan s1 m1 e1 s2 m2 e2 :
  SFdiv prec emax (S754_finite s1 m1 e1) (S754_finite s2 m2 e2) <> S754_nan.
Proof.
  simpl. unfold SFdiv_core_binary.
  set (m' := match _ with 0 => Z.pos m1 | Z.pos _ => _ | Z.neg _ => 0 end).
  assert (Hm : 0 <= m').
  { unfold m'. destruct (_ - _ - _); [lia| |lia]. apply Z.shiftl_nonneg. lia. }
  pose proof (Z.div_pos m' (Z.pos m2) Hm eq_refl) as Hq.
  change IntDef.Z.div_eucl with Z.div_eucl.
  unfold Z.div in Hq. destruct (Z.div_eucl m' (Z.pos m2)) as [q r]. simpl in Hq.
  by apply binary_round_aux_not_nan.
Qed.

Lemma SF2Prim_not_nan x : x <> S754_nan -> is_nan (SF2Prim x) = false.
Proof.
  intros Hx. destruct x as [[]|[]| |s m e]; try done; try reflexivity.
  apply is_nan_Prim2SF. unfold SF2Prim.
  assert (H : Prim2SF (Z.ldexp (of_uint63 (Uint63Axioms.of_Z (Z.pos m))) e) <> S754_nan).
  { rewrite Z_ldexp_spec, of_uint63_spec. unfold SFldexp.
    pose proof (binary_normalize_not_nan
                  (Uint63Axioms.to_Z (Uint63Axioms.of_Z (Z.pos m))) 0 false) as Hn.
    destruct (binary_normalize _ _ _ _ _); try done. apply binary_round_not_nan. }
  destruct s; [|done]. rewrite opp_spec.
  by destruct (Prim2SF _).
Qed.

Lemma float_of_decimal_not_nan neg m e10 : is_nan (float_of_decimal neg m e10) = false.
Proof.
  unfold float_of_decimal. destruct m as [|p|p]; try (by destruct neg).
  destruct (0 <=? e10); apply SF2Prim_not_nan.
  - apply binary_normalize_not_nan.
  - apply SFdiv_finite_not_nan.
Qed.

End NotNan.

Lemma drop_while_elem_of p l x : x ∈ drop_while p l -> x ∈ l.
Proof.
  induction l as [|c l IH]; simpl; [done|].
  destruct (p c); [|done]. intros H%IH. by right.
Qed.

Lemma take_while_Forall p l : Forall (fun c => p c = true) (take_while p l).
Proof.
  induction l as [|c l IH]; simpl; [constructor|].
  destruct (p c) eqn:E; by constructor.
Qed.

Lemma rev_elem_of (l : list ascii) x : x ∈ rev l <-> x ∈ l.
Proof. rewrite !list_elem_of_In. symmetry. apply in_rev. Qed.

Lemma strip_list_elem_of space l x : x ∈ strip_with space l -> x ∈ l.
Proof.
  unfold strip_with. rewrite rev_elem_of. intros H%drop_while_elem_of.
  rewrite rev_elem_of in H. by apply drop_while_elem_of in H.
Qed.

Lemma drop_underscores_elem_of prev l l' x :
  drop_underscores prev l = Some l' -> x ∈ l' -> x ∈ l.
Proof.
  revert prev l'. induction l as [|c l IH]; intros prev l'; simpl.
  - destruct (Ascii.eqb prev "_"); [done|]. by intros [= <-].
  - destruct (Ascii.eqb c "_").
    + destruct (is_digit prev); [|done]. intros H Hx. right. eauto.
    + destruct (Ascii.eqb prev "_" && negb (is_digit c)); [done|].
      destruct (drop_underscores c l) as [r|] eqn:E; [|done].
      intros [= <-]. rewrite !elem_of_cons. intros [->|Hx]; [by left|right; eauto].
Qed.

Lemma split_sign_elem_of l x : x ∈ (split_sign l).2 -> x ∈ l.
Proof.
  destruct l as [|c l]; simpl; [done|].
  destruct (Ascii.eqb c "-"); [by right|]. destruct (Ascii.eqb c "+"); [by right|done].
Qed.

Lemma numeric_lower_char c : numeric c = true -> lower_char c = c.
Proof.
  unfold numeric, lower_char, is_digit. intros H.
  destruct (Ascii.eqb_spec c "."); [by subst|].
  rewrite orb_false_r in H. apply andb_prop in H as [H1%Z.leb_le H2%Z.leb_le].
  replace (65 <=? code c) with false by (symmetry; apply Z.leb_gt; lia).
  replace (192 <=? code c) with false by (symmetry; apply Z.leb_gt; lia). done.
Qed.

(** [float] reads NaN only in the text [nan]. *)
Lemma parse_float_nan l f :
  parse_float l = Some f -> is_nan f = true ->
  exists l', drop_underscores "000" (strip_with float_isspace l) = Some l'
             /\ lower_list (split_sign l').2 = "nan".
Proof.
  unfold parse_float. destruct (drop_underscores _ _) as [l'|]; [|done]. simpl.
  destruct (split_sign l') as [neg l1] eqn:E. simpl.
  destruct (String.eqb (lower_list l1) "inf" || String.eqb (lower_list l1) "infinity").
  { intros [= <-]. by destruct neg. }
  destruct (String.eqb_spec (lower_list l1) "nan") as [Hn|_].
  { intros _ _. exists l'. by rewrite E. }
  destruct (match drop_while is_digit l1 with [] => _ | _ => _ end) as [fp l3].
  destruct (take_while is_digit l1 ++ fp); [done|].
  destruct (parse_exponent l3); simpl; [|done].
  intros [= <-]. by rewrite float_of_decimal_not_nan.
Qed.

Lemma parse_float_numeric l f :
  Forall (fun c => numeric c = true) l -> parse_float l = Some f -> is_nan f = false.
Proof.
  intros Hl Hf. destruct (is_nan f) eqn:E; [|done].
  destruct (parse_float_nan l f Hf E) as (l' & Hl' & Hn).
  destruct (split_sign l').2 as [|c r] eqn:Hs; [done|].
  assert (Hc : c ∈ l).
  { apply (strip_list_elem_of float_isspace). eapply drop_underscores_elem_of; [done|].
    apply split_sign_elem_of. rewrite Hs. by left. }
  rewrite Forall_forall in Hl. specialize (Hl c Hc).
  unfold lower_list in Hn. simpl in Hn. injection Hn as Hn _.
  rewrite (numeric_lower_char c Hl) in Hn. by subst.
Qed.

Lemma price_group_chars l g :
  price_group l = Some g -> Forall (fun c => numeric c = true \/ c = ","%char) g.
Proof.
  unfold price_group. destruct (drop_while _ l) as [|c0 l1]; [done|].
  set (l2 := c0 :: l1).
  assert (Hrun : Forall (fun c => numeric c = true \/ c = ","%char)
                   (take_while is_digit_or_comma l2)).
  { eapply Forall_impl; [apply take_while_Forall|]. intros c. unfold is_digit_or_comma, numeric.
    intros [H|H%Ascii.eqb_eq]%orb_prop; [left; by rewrite H|by right]. }
  destruct (drop_while is_digit_or_comma l2) as [|c r]; [by intros [= <-]|].
  destruct (Ascii.eqb_spec c "."); [|by intros [= <-]].
  intros [= <-]. apply Forall_app. split; [done|]. constructor.
  - left. subst. done.
  - eapply Forall_impl; [apply take_while_Forall|]. intros c' H. left.
    unfold numeric. by rewrite H.
Qed.

Lemma py_remove_comma_chars s :
  Forall (fun c => numeric c = true \/ c = ","%char) (list_ascii_of_string s) ->
  Forall (fun c => numeric c = true) (list_ascii_of_string (py_remove "," s)).
Proof.
  induction s as [|c s IH]; simpl; [constructor|].
  intros [Hc Hs]%Forall_cons. destruct (Ascii.eqb_spec c ","); [auto|].
  simpl. constructor; [|auto]. by destruct Hc.
Qed.

(** The prices that the three retailer modules read are numbers. *)
Lemma regex_extract_price_not_nan text f :
  amazon_scraper.extract_price text = Ok (Some f) -> is_nan f = false.
Proof.
  unfold amazon_scraper.extract_price, re_search_price.
  destruct (negb _); [done|].
  destruct (price_group _) as [g|] eqn:Hg; simpl; [|done].
  unfold py_float.
  destruct (parse_float _) as [f'|] eqn:Hf; simpl; [|done].
  intros [= <-]. eapply parse_float_numeric; [|done].
  apply py_remove_comma_chars. rewrite list_ascii_of_string_of_list_ascii.
  by eapply price_group_chars.
Qed.

Lemma price_loop_good extract_price page selectors p0 p :
  (forall text f, extract_price text = Ok (Some f) -> is_nan f = false) ->
  good_price p0 ->
  price_loop extract_price page selectors p0 = Ok p -> good_price p.
Proof.
  intros He. revert p0. induction selectors as [|s selectors IH]; intros p0 H0; simpl.
  - by intros [= <-].
  - destruct (select_one page s) as [t|]; [|by apply IH].
    destruct (extract_price (get_text_strip t)) as [p1|] eqn:E; simpl; [|done].
    assert (H1 : good_price p1) by (destruct p1; simpl; eauto).
    destruct (price_truthy p1); [by intros [= <-]|by apply IH].
Qed.

Lemma price_ok_atom_of_price (d : gmap string atom) p :
  good_price p -> d !! "price" = Some (atom_of_price p) -> price_ok d.
Proof. intros Hp Hd. unfold price_ok. rewrite Hd. by destruct p. Qed.

Ltac product_price_ok :=
  intros; cbv beta delta [amazon_scraper.scrape_amazon_product
    jcpenney_scraper.scrape_jcpenney_product macys_scraper.scrape_macys_product];
  destruct (fetch_soup _ _ _) as [[page|e] lg']; cbn [fst snd];
  [|unfold price_ok; by rewrite record_error_other by done];
  match goal with
  | |- context [price_loop ?f page ?s None] =>
      let Hp := fresh "Hp" in
      pose proof (price_loop_good f page s None) as Hp;
      destruct (price_loop f page s None) as [price|];
      [specialize (Hp price regex_extract_price_not_nan I eq_refl)|clear Hp]
  end;
  [|unfold price_ok; rewrite record_error_other by done;
    by rewrite lookup_insert_ne by done];
  match goal with
  | |- context [price_loop ?f page ?s None] => destruct (price_loop f page s None)
  end;
  (eapply price_ok_atom_of_price; [done|]);
  rewrite ?record_error_other by done;
  rewrite ?lookup_insert_ne by done; by rewrite lookup_insert_eq.

Lemma scrape_amazon_product_price_ok http url lg :
  price_ok (amazon_scraper.scrape_amazon_product http url lg).1.
Proof. product_price_ok. Qed.

Lemma scrape_jcpenney_product_price_ok http url lg :
  price_ok (jcpenney_scraper.scrape_jcpenney_product http url lg).1.
Proof. product_price_ok. Qed.

Lemma scrape_macys_product_price_ok http url lg :
  price_ok (macys_scraper.scrape_macys_product http url lg).1.
Proof. product_price_ok. Qed.

Lemma search_amazon_price_ok http term lg :
  Forall price_ok (amazon_scraper.search_amazon_dockers http term lg).1.
Proof.
  unfold amazon_scraper.search_amazon_dockers.
  destruct (fetch_soup _ _ _) as [[page|e] lg']; [|constructor].
  apply scrape_each_Forall. intros. apply scrape_amazon_product_price_ok.
Qed.

Lemma search_jcpenney_price_ok http order term lg :
  Forall price_ok (jcpenney_scraper.search_jcpenney_dockers http order term lg).1.
Proof.
  unfold jcpenney_scraper.search_jcpenney_dockers.
  destruct (fetch_soup _ _ _) as [[page|e] lg']; [|constructor].
  apply scrape_each_Forall. intros. apply scrape_jcpenney_product_price_ok.
Qed.

Lemma search_macys_price_ok http order term lg :
  Forall price_ok (macys_scraper.search_macys_dockers http order term lg).1.
Proof.
  unfold macys_scraper.search_macys_dockers.
  destruct (fetch_soup _ _ _) as [[page|e] lg']; [|constructor].
  apply scrape_each_Forall. intros. apply scrape_macys_product_price_ok.
Qed.

(** Every run of the module as it is loaded leaves a populated result
    set: the lists hold the records of the three searches, and the
    Dockers list is empty. *)
Lemma run_is_populated w dockers_url search_term now schedule :
  schedule ≡ₚ threads ->
  populated (imported_run_all_scrapers w dockers_url search_term now schedule init)
    []
    (amazon_scraper.search_amazon_dockers (amazon_site w) search_term []).1
    (jcpenney_scraper.search_jcpenney_dockers (jcpenney_site w) (jcpenney_set_order w)
       search_term []).1
    (macys_scraper.search_macys_dockers (macys_site w) (macys_set_order w)
       search_term []).1.
Proof.
  intros Hp. unfold populated, imported_run_all_scrapers.
  pose proof (fun t => proj1 (run_results (imported_scrape_product w)
                (imported_search_amazon_dockers w) (imported_search_jcpenney_dockers w)
                (imported_search_macys_dockers w) dockers_url search_term now schedule
                t Hp)) as Hr.
  split; [exact (Hr DockersScraper)|]. split; [exact (Hr AmazonScraper)|].
  split; [exact (Hr JCPenneyScraper)|]. split; [exact (Hr MacysScraper)|].
  simpl. rewrite !Forall_app.
  auto using search_amazon_price_ok, search_jcpenney_price_ok, search_macys_price_ok.
Qed.

(** A price of 0.0 reaches a record: the page gives [$0.00] under the
    first price selector and nothing under the others. *)
Example zero_price_reaches_record :
  (amazon_scraper.scrape_amazon_product zero_price_site
     "https://www.amazon.com/dp/B0FREE" []).1 !! "price" = Some (AFloat 0).
Proof. vm_compute. reflexivity. Qed.

(** ** The aggregators: collecting the priced records *)

Section Collect.
Context {A : Type}.

Lemma collect_dicts (wrap : item -> outcome A) (g : gmap string atom -> A) l acc :
  (forall d, wrap (IDict d) = Ok (g d)) ->
  collect wrap (IDict <$> l) acc = Ok (acc ++ (g <$> priced l)).
Proof.
  intros Hw. revert acc. unfold priced. induction l as [|d l IH]; intros acc; simpl.
  - by rewrite app_nil_r.
  - rewrite filter_cons. fold (has_price d).
    destruct (has_price d) eqn:E.
    + rewrite Hw. simpl. rewrite IH. by rewrite <- app_assoc.
    + simpl. apply IH.
Qed.

Lemma fmap_filter_tagged (g : string -> gmap string atom -> A) r l :
  (fun p => g p.1 p.2) <$> filter (fun p => has_price p.2 = true) (tagged r l)
  = g r <$> priced l.
Proof.
  unfold tagged, priced. induction l as [|d l IH]; [done|].
  rewrite fmap_cons, !filter_cons. cbn [fst snd].
  case_decide; rewrite ?fmap_cons; cbn [fst snd]; by rewrite IH.
Qed.

Lemma collect_all_populated (wrap : string -> item -> outcome A)
    (g : string -> gmap string atom -> A) self ld la lj lm :
  (forall r d, wrap r (IDict d) = Ok (g r d)) ->
  populated self ld la lj lm ->
  collect_all wrap self retailers []
  = Ok ((fun p => g p.1 p.2) <$> candidates ld la lj lm).
Proof.
  intros Hw (Hd & Ha & Hj & Hm & _). unfold retailers, candidates, flatten. simpl.
  unfold getitem. rewrite Hd, Ha, Hj, Hm. simpl.
  repeat (rewrite (collect_dicts _ (g _)) by auto; simpl).
  rewrite !filter_app, !fmap_app, !fmap_filter_tagged.
  by rewrite <- !app_assoc.
Qed.
End Collect.

Lemma has_price_float d :
  price_ok d -> has_price d = true ->
  d !! "price" = Some (AFloat (price_of d)) /\ is_nan (price_of d) = false.
Proof.
  unfold price_ok, has_price, price_of.
  destruct (d !! "price") as [[| | |]|]; simpl; try done.
Qed.

Lemma price_of_retailer_key r d : price_of (<["retailer_key" := r]> d) = price_of d.
Proof. unfold price_of. by rewrite lookup_insert_ne. Qed.

Lemma has_price_retailer_key r d : has_price (<["retailer_key" := r]> d) = has_price d.
Proof. unfold has_price. by rewrite lookup_insert_ne. Qed.

Lemma candidates_price_ok self ld la lj lm :
  populated self ld la lj lm ->
  Forall (fun p => price_ok p.2 /\ has_price p.2 = true) (candidates ld la lj lm).
Proof.
  intros (_ & _ & _ & _ & H). unfold candidates, flatten, tagged.
  rewrite Forall_forall in H. rewrite Forall_forall.
  intros [r d] [Hp Hin]%list_elem_of_filter.
  split; [|done]. apply H. simpl.
  rewrite !elem_of_app in Hin. rewrite !elem_of_app. rewrite !list_elem_of_fmap in Hin.
  destruct Hin as [(?&[= _ <-]&?)|[(?&[= _ <-]&?)|[(?&[= _ <-]&?)|(?&[= _ <-]&?)]]]; auto.
Qed.

Lemma price_key_float d :
  price_ok d -> has_price d = true -> float_keyed price_key item_price (IDict d).
Proof.
  intros Hok Hp. destruct (has_price_float d Hok Hp) as [Hl Hn].
  split; [|done]. unfold price_key. simpl. by rewrite Hl.
Qed.

Lemma candidates_priced ld la lj lm :
  candidates (priced ld) (priced la) (priced lj) (priced lm) = candidates ld la lj lm.
Proof.
  unfold candidates, flatten, priced, tagged. rewrite !filter_app.
  assert (H : forall (r : string) (l : list (gmap string atom)),
    filter (fun p : string * gmap string atom => has_price p.2 = true)
      ((fun d => (r, d)) <$> filter (fun d => has_price d = true) l)
    = filter (fun p : string * gmap string atom => has_price p.2 = true)
        ((fun d => (r, d)) <$> l)).
  { intros r l. induction l as [|d l IH]; [done|].
    rewrite fmap_cons, !filter_cons. cbn [snd].
    case_decide; [|done]. rewrite fmap_cons, filter_cons. cbn [snd].
    rewrite decide_True by done. by rewrite IH. }
  by rewrite !H.
Qed.

(** ** [min] on numbers *)

Section Min.
Context {A : Type} (key : A -> outcome atom) (kf : A -> float).

Lemma min_loop_first_min pre best xs i :
  Forall (float_keyed key kf) (pre ++ xs) ->
  first_min kf pre i best ->
  exists i' m, min_loop key xs best (AFloat (kf best)) = Ok m
               /\ first_min kf (pre ++ xs) i' m.
Proof.
  revert pre best i. induction xs as [|x xs IH]; intros pre best i Hk Hm.
  - exists i, best. rewrite app_nil_r. done.
  - assert (Hx : float_keyed key kf x).
    { rewrite Forall_app, Forall_cons in Hk. tauto. }
    destruct Hx as [Hkx Hnx]. simpl. rewrite Hkx. simpl.
    assert (Hpre : Forall (float_keyed key kf) pre) by (rewrite Forall_app in Hk; tauto).
    destruct Hm as (Hi & Hle & Hlt).
    assert (Hnb : is_nan (kf best) = false).
    { eapply Forall_lookup_1 in Hi; [|done]. apply Hi. }
    replace (pre ++ x :: xs) with ((pre ++ [x]) ++ xs) in * by (by rewrite <- app_assoc).
    destruct (PrimFloat.ltb (kf x) (kf best)) eqn:E.
    + apply (IH (pre ++ [x]) x (length pre)); [done|].
      split; [|split].
      * by rewrite lookup_app_r, Nat.sub_diag.
      * intros j y Hj. apply lookup_app_Some in Hj as [Hj|[_ Hj]].
        -- assert (Hny : is_nan (kf y) = false)
             by (eapply Forall_lookup_1 in Hj; [|done]; apply Hj).
           rewrite float_leb_ltb by done. apply negb_true_iff, not_true_is_false.
           intros Hyx. specialize (Hle j y Hj).
           rewrite float_leb_ltb in Hle by done.
           rewrite (float_ltb_trans _ _ _ Hyx E) in Hle. done.
        -- apply list_lookup_singleton_Some in Hj as [_ <-].
           by apply float_leb_refl.
      * intros j y Hj Hy. rewrite lookup_app_l in Hy by done.
        assert (Hny : is_nan (kf y) = false)
          by (eapply Forall_lookup_1 in Hy; [|done]; apply Hy).
        destruct (float_ltb_cotrans _ (kf y) _ Hny E) as [H|H]; [done|].
        specialize (Hle j y Hy). rewrite float_leb_ltb in Hle by done.
        rewrite H in Hle. done.
    + apply (IH (pre ++ [x]) best i); [done|].
      split; [|split].
      * apply lookup_app_l_Some. done.
      * intros j y Hj. apply lookup_app_Some in Hj as [Hj|[_ Hj]]; [eauto|].
        apply list_lookup_singleton_Some in Hj as [_ <-].
        rewrite float_leb_ltb by done. by rewrite E.
      * intros j y Hj Hy. assert (j < length pre)%nat.
        { apply lookup_lt_Some in Hi. lia. }
        rewrite lookup_app_l in Hy by done. eauto.
Qed.

Lemma py_min_first_min x xs :
  Forall (float_keyed key kf) (x :: xs) ->
  exists i m, py_min key (x :: xs) = Ok m /\ first_min kf (x :: xs) i m.
Proof.
  intros Hk. pose proof Hk as Hk'. apply Forall_cons in Hk' as [[Hkx Hnx] _].
  simpl. rewrite Hkx. simpl.
  apply (min_loop_first_min [x] x xs 0%nat); [done|].
  split; [done|split].
  - intros [|j] y Hj; simplify_eq/=. by apply float_leb_refl.
  - intros; lia.
Qed.
End Min.

(** ** [sorted] on numbers *)

Section Sort.
Context {A : Type} (key : A -> outcome atom) (kf : A -> float).

#[local] Instance same_price_dec p x : Decision (same_price kf p x).
Proof. unfold same_price. apply _. Defined.

Lemma decorate_float_keyed xs :
  Forall (float_keyed key kf) xs ->
  decorate key xs = Ok ((fun x => (AFloat (kf x), x)) <$> xs).
Proof.
  induction 1 as [|x xs [Hk _] _ IH]; [done|].
  simpl. rewrite Hk. simpl. by rewrite IH.
Qed.

(** [insert_sorted] puts the pair behind the pairs of smaller key that
    open the list, and before the first pair whose key is not smaller. *)
Lemma insert_sorted_decorated kx s :
  decorated kf kx -> Forall (decorated kf) s ->
  exists s1 s2, s = s1 ++ s2
    /\ insert_sorted kx s = Ok (s1 ++ kx :: s2)
    /\ Forall (fun y => PrimFloat.ltb (kf y.2) (kf kx.2) = true) s1
    /\ (forall y, head s2 = Some y -> PrimFloat.ltb (kf y.2) (kf kx.2) = false).
Proof.
  intros [Hk Hn]. induction 1 as [|y s [Hy Hny] Hs IH].
  - exists [], []. simpl. repeat split; [constructor|discriminate].
  - simpl. rewrite Hy, Hk. simpl.
    destruct (PrimFloat.ltb (kf y.2) (kf kx.2)) eqn:E.
    + destruct IH as (s1 & s2 & -> & -> & H1 & H2).
      exists (y :: s1), s2. simpl. repeat split; [by constructor|done].
    + exists [], (y :: s). simpl. repeat split; [constructor|].
      intros ? [= <-]. done.
Qed.

Lemma sort_decorated_spec l :
  Forall (decorated kf) l ->
  exists s, sort_decorated l = Ok s
    /\ s ≡ₚ l
    /\ StronglySorted (fun a b => ascending kf a.2 b.2) s
    /\ forall p, filter (fun y => same_price kf p y.2) s
                 = filter (fun y => same_price kf p y.2) l.
Proof.
  induction 1 as [|kx l Hkx Hl IH].
  - exists []. repeat split; constructor.
  - destruct IH as (s & Hs & Hperm & Hsorted & Hstable). simpl. rewrite Hs. simpl.
    assert (Hds : Forall (decorated kf) s) by (by rewrite Hperm).
    destruct (insert_sorted_decorated kx s Hkx Hds) as (s1 & s2 & -> & -> & H1 & H2).
    exists (s1 ++ kx :: s2). split; [reflexivity|].
    apply Forall_app in Hds as [Hd1 Hd2].
    apply StronglySorted_app in Hsorted as (H12 & Hs1 & Hs2).
    destruct Hkx as [Hkx Hnx].
    split; [|split].
    + rewrite <- Hperm. by rewrite Permutation_middle.
    + apply StronglySorted_app. split; [|split; [done|]].
      * intros a b Ha Hb. apply elem_of_cons in Hb as [->|Hb]; [|by apply H12].
        rewrite Forall_forall in H1, Hd1. destruct (Hd1 a Ha) as [_ Hna].
        unfold ascending. rewrite float_leb_ltb by done.
        by rewrite (float_ltb_asym _ _ (H1 a Ha)).
      * constructor; [done|].
        destruct s2 as [|y s2]; [constructor|].
        specialize (H2 y eq_refl).
        apply StronglySorted_inv in Hs2 as [Hs2 Hy].
        apply Forall_cons in Hd2 as [[_ Hny] Hd2].
        constructor.
        -- unfold ascending. rewrite float_leb_ltb by done. by rewrite H2.
        -- rewrite Forall_forall in Hy, Hd2 |- *. intros z Hz.
           destruct (Hd2 z Hz) as [_ Hnz].
           unfold ascending. rewrite float_leb_ltb by done.
           apply negb_true_iff, not_true_is_false. intros Hzx.
           destruct (float_ltb_cotrans _ (kf y.2) _ Hny Hzx) as [H|H].
           ++ specialize (Hy z Hz). unfold ascending in Hy.
              rewrite float_leb_ltb in Hy by done. by rewrite H in Hy.
           ++ congruence.
    + intros p. rewrite filter_app, (filter_cons _ kx s2), (filter_cons _ kx l),
        <- Hstable, filter_app.
      case_decide as Hp; [|done].
      replace (filter (fun y => same_price kf p y.2) s1) with (@nil (atom * A)); [done|].
      symmetry. clear -H1 Hp. induction H1 as [|y s1 Hy _ IH]; [done|].
      rewrite filter_cons_False; [done|].
      unfold same_price in *. by rewrite (float_ltb_eqb _ _ _ Hy Hp).
Qed.

Lemma filter_fmap_snd (P : A -> Prop) `{!forall x, Decision (P x)} (s : list (atom * A)) :
  filter P (s.*2) = (filter (fun y => P y.2) s).*2.
Proof.
  induction s as [|y s IH]; [done|].
  rewrite fmap_cons, !filter_cons. case_decide; rewrite ?fmap_cons; by rewrite IH.
Qed.

(** On keys that are numbers [sorted] returns a permutation of its
    argument, in ascending order of the keys, in which the elements of
    equal key keep their order. *)
Lemma py_sorted_spec xs :
  Forall (float_keyed key kf) xs ->
  exists out, py_sorted key xs = Ok out
    /\ out ≡ₚ xs
    /\ StronglySorted (ascending kf) out
    /\ forall p, filter (same_price kf p) out = filter (same_price kf p) xs.
Proof.
  intros Hk. unfold py_sorted. rewrite (decorate_float_keyed _ Hk). simpl.
  set (d := (fun x => (AFloat (kf x), x)) <$> xs).
  assert (Hd : Forall (decorated kf) d).
  { unfold d. rewrite Forall_fmap. eapply Forall_impl; [done|]. by intros x [_ ?]. }
  assert (Hd2 : d.*2 = xs).
  { unfold d. rewrite <- list_fmap_compose. apply list_fmap_id. }
  destruct (sort_decorated_spec d Hd) as (s & -> & Hperm & Hsorted & Hstable). simpl.
  exists (s.*2). split; [done|]. split; [|split].
  - by rewrite Hperm, Hd2.
  - eapply StronglySorted_fmap; [|done]. done.
  - intros p. rewrite <- Hd2, !filter_fmap_snd. by rewrite Hstable.
Qed.
End Sort.

(** ** [get_lowest_price] and [get_price_comparison] *)

Abbreviation with_retailer_key :=
  (fun p : string * gmap string atom => <["retailer_key" := AStr p.1]> p.2).

Lemma get_lowest_price_unfold self ld la lj lm :
  populated self ld la lj lm ->
  get_lowest_price self
  = match with_retailer_key <$> candidates ld la lj lm with
    | [] => Ok None
    | all_products =>
        lowest ← py_min (fun x => price_key (IDict x)) all_products; Ok (Some lowest)
    end.
Proof.
  intros Hpop. unfold get_lowest_price.
  rewrite (collect_all_populated _ (fun r d => <["retailer_key" := AStr r]> d) _ _ _ _ _
             (fun _ _ => eq_refl) Hpop).
  simpl. by destruct (candidates ld la lj lm).
Qed.

Lemma get_price_comparison_unfold self ld la lj lm :
  populated self ld la lj lm ->
  get_price_comparison self = py_sorted price_key (priced_items ld la lj lm).
Proof.
  intros Hpop. unfold get_price_comparison.
  by rewrite (collect_all_populated _ (fun _ d => IDict d) _ _ _ _ _ (fun _ _ => eq_refl) Hpop).
Qed.

Lemma priced_items_float_keyed self ld la lj lm :
  populated self ld la lj lm ->
  Forall (float_keyed price_key item_price) (priced_items ld la lj lm).
Proof.
  intros Hpop. unfold priced_items. rewrite Forall_fmap.
  eapply Forall_impl; [by eapply candidates_price_ok|].
  intros [r d] [H1 H2]. by apply price_key_float.
Qed.

Lemma lowest_of_candidates c cs :
  Forall (fun p : string * gmap string atom => price_ok p.2 /\ has_price p.2 = true)
    (c :: cs) ->
  exists i retailer d,
    py_min (fun x => price_key (IDict x)) (with_retailer_key <$> c :: cs)
      = Ok (<["retailer_key" := AStr retailer]> d)
    /\ first_min (fun p => price_of p.2) (c :: cs) i (retailer, d).
Proof.
  intros Hc. set (w := with_retailer_key).
  destruct (py_min_first_min (fun x => price_key (IDict x)) price_of (w c) (w <$> cs))
    as (i & m & Hmin & Hi & Hle & Hlt).
  { change (w c :: (w <$> cs)) with (w <$> c :: cs). rewrite Forall_fmap.
    eapply Forall_impl; [done|]. intros [r d] [H1 H2]. simpl in *.
    apply (price_key_float (w (r, d))).
    - unfold w, price_ok. simpl. by rewrite lookup_insert_ne.
    - unfold w. simpl. by rewrite has_price_retailer_key. }
  change (w c :: (w <$> cs)) with (w <$> c :: cs) in *.
  apply list_lookup_fmap_Some in Hi as ([r d] & -> & Hi).
  exists i, r, d. split; [done|]. split; [done|]. split.
  - intros j [r' d'] Hj.
    assert (Hw : (w <$> c :: cs) !! j = Some (w (r', d')))
      by (by rewrite list_lookup_fmap, Hj).
    specialize (Hle j _ Hw). unfold w in Hle. simpl in *.
    by rewrite !price_of_retailer_key in Hle.
  - intros j [r' d'] Hji Hj.
    assert (Hw : (w <$> c :: cs) !! j = Some (w (r', d')))
      by (by rewrite list_lookup_fmap, Hj).
    specialize (Hlt j _ Hji Hw). unfold w in Hlt. simpl in *.
    by rewrite !price_of_retailer_key in Hlt.
Qed.

(** C2, amended.  On a populated result set [get_lowest_price] keeps, in
    flatten order, the records whose price is true in a condition (neither
    missing, nor [None], nor zero).  When there is none it returns [None].
    Otherwise it returns a copy, with the added key ["retailer_key"], of a
    kept record whose price is the least of the kept prices, and of the
    first such record in flatten order. *)
Theorem get_lowest_price_first_minimum self ld la lj lm :
  populated self ld la lj lm ->
  match candidates ld la lj lm with
  | [] => get_lowest_price self = Ok None
  | _ :: _ =>
      exists i retailer d,
        get_lowest_price self = Ok (Some (<["retailer_key" := AStr retailer]> d))
        /\ first_min (fun p => price_of p.2) (candidates ld la lj lm) i (retailer, d)
  end.
Proof.
  intros Hpop. rewrite (get_lowest_price_unfold _ _ _ _ _ Hpop).
  pose proof (candidates_price_ok _ _ _ _ _ Hpop) as Hc.
  destruct (candidates ld la lj lm) as [|c cs]; [done|].
  destruct (lowest_of_candidates c cs Hc) as (i & r & d & Hmin & Hfirst).
  exists i, r, d. split; [|done].
  rewrite fmap_cons in *. by rewrite Hmin.
Qed.

Lemma populated_with_lists ld la lj lm :
  Forall price_ok (ld ++ la ++ lj ++ lm) -> populated (with_lists ld la lj lm) ld la lj lm.
Proof. intros H. by repeat split. Qed.

Lemma get_lowest_price_first_minimum_witness :
  exists i retailer d,
    get_lowest_price (with_lists [] [khaki_30; khaki_10] [jcp_10] [macys_20])
      = Ok (Some (<["retailer_key" := AStr retailer]> d))
    /\ first_min (fun p => price_of p.2)
         (candidates [] [khaki_30; khaki_10] [jcp_10] [macys_20]) i (retailer, d).
Proof.
  apply (get_lowest_price_first_minimum
           (with_lists [] [khaki_30; khaki_10] [jcp_10] [macys_20])
           [] [khaki_30; khaki_10] [jcp_10] [macys_20]).
  apply populated_with_lists. repeat constructor.
Defined.

(** C2 as stated fails: [free_sample] has a defined price, 0.0, the least
    of the result set, and [get_lowest_price] returns the record priced
    10.0. *)
Lemma lowest_price_skips_zero_price :
  populated (with_lists [] [free_sample; khaki_10] [] []) [] [free_sample; khaki_10] [] []
  /\ free_sample !! "price" = Some (AFloat 0)
  /\ get_lowest_price (with_lists [] [free_sample; khaki_10] [] [])
     = Ok (Some (<["retailer_key" := AStr "amazon"]> khaki_10))
  /\ PrimFloat.ltb (price_of free_sample) (price_of khaki_10) = true.
Proof.
  split; [apply populated_with_lists; repeat constructor|].
  repeat split; vm_compute; reflexivity.
Qed.

Example lowest_price_example :
  get_lowest_price (with_lists [] [khaki_30; khaki_10] [jcp_10] [macys_20])
  = Ok (Some (<["retailer_key" := AStr "amazon"]> khaki_10))
  /\ get_lowest_price (with_lists [] [] [] []) = Ok None
  /\ get_lowest_price (with_lists [] [free_sample] [] []) = Ok None.
Proof. repeat split; vm_compute; reflexivity. Qed.

(** C3.  On a populated result set [get_price_comparison] returns the
    records that [get_lowest_price] keeps: a permutation of them, in
    ascending order of price, in which the records of equal price keep
    their flatten order. *)
Theorem get_price_comparison_stable_sort self ld la lj lm :
  populated self ld la lj lm ->
  exists out,
    get_price_comparison self = Ok out
    /\ out ≡ₚ priced_items ld la lj lm
    /\ StronglySorted (fun a b => PrimFloat.leb (item_price a) (item_price b) = true) out
    /\ forall p, filter (fun x => PrimFloat.eqb (item_price x) p = true) out
                 = filter (fun x => PrimFloat.eqb (item_price x) p = true)
                     (priced_items ld la lj lm).
Proof.
  intros Hpop. rewrite (get_price_comparison_unfold _ _ _ _ _ Hpop).
  apply (py_sorted_spec price_key item_price).
  by eapply priced_items_float_keyed.
Qed.

Lemma get_price_comparison_stable_sort_witness :
  exists out,
    get_price_comparison (with_lists [] [khaki_30; khaki_10] [jcp_10] [macys_20]) = Ok out
    /\ out ≡ₚ priced_items [] [khaki_30; khaki_10] [jcp_10] [macys_20]
    /\ StronglySorted (fun a b => PrimFloat.leb (item_price a) (item_price b) = true) out
    /\ forall p, filter (fun x => PrimFloat.eqb (item_price x) p = true) out
                 = filter (fun x => PrimFloat.eqb (item_price x) p = true)
                     (priced_items [] [khaki_30; khaki_10] [jcp_10] [macys_20]).
Proof.
  apply (get_price_comparison_stable_sort
           (with_lists [] [khaki_30; khaki_10] [jcp_10] [macys_20])).
  apply populated_with_lists. repeat constructor.
Defined.

(** The prices 30, 10, 10, 20 in flatten order come out as the first 10,
    the second 10, 20, 30. *)
Example price_comparison_example :
  get_price_comparison (with_lists [] [khaki_30; khaki_10] [jcp_10] [macys_20])
  = Ok [IDict khaki_10; IDict jcp_10; IDict macys_20; IDict khaki_30].
Proof. vm_compute. reflexivity. Qed.

(** C10.  On a populated result set both aggregators return, and a record
    whose price is false in a condition (zero, [None], or no price at all)
    is neither the record [get_lowest_price] returns nor among those
    [get_price_comparison] returns; a price of 0.0 is such a price; and both
    results are those of the result set from which these records have been
    removed. *)
Theorem falsy_price_excluded self ld la lj lm :
  populated self ld la lj lm ->
  exists lowest comparison,
    get_lowest_price self = Ok lowest
    /\ get_price_comparison self = Ok comparison
    /\ (forall d retailer, has_price d = false ->
          lowest <> Some (<["retailer_key" := AStr retailer]> d)
          /\ IDict d ∉ comparison)
    /\ (forall d f, d !! "price" = Some (AFloat f) -> PrimFloat.eqb f 0 = true ->
          has_price d = false)
    /\ (forall self',
          populated self' (priced ld) (priced la) (priced lj) (priced lm) ->
          get_lowest_price self' = Ok lowest
          /\ get_price_comparison self' = Ok comparison).
Proof.
  intros Hpop.
  destruct (py_sorted_spec price_key item_price _
              (priced_items_float_keyed _ _ _ _ _ Hpop))
    as (comparison & Hc & Hperm & _).
  assert (Hl : exists lowest,
            match with_retailer_key <$> candidates ld la lj lm with
            | [] => Ok None
            | all_products =>
                lowest ← py_min (fun x => price_key (IDict x)) all_products;
                Ok (Some lowest)
            end = Ok lowest
            /\ forall x, lowest = Some x -> has_price x = true).
  { pose proof (candidates_price_ok _ _ _ _ _ Hpop) as Hcs.
    destruct (candidates ld la lj lm) as [|c cs] eqn:E.
    - exists None. done.
    - destruct (lowest_of_candidates c cs Hcs) as (i & r & d & Hmin & Hi & _).
      exists (Some (<["retailer_key" := AStr r]> d)). split.
      + rewrite fmap_cons in *. by rewrite Hmin.
      + intros x [= <-]. rewrite has_price_retailer_key.
        rewrite Forall_forall in Hcs. apply list_elem_of_lookup_2 in Hi.
        by destruct (Hcs _ Hi). }
  destruct Hl as (lowest & Hl & Hlp).
  exists lowest, comparison.
  rewrite (get_lowest_price_unfold _ _ _ _ _ Hpop),
    (get_price_comparison_unfold _ _ _ _ _ Hpop).
  split; [done|]. split; [done|]. split; [|split].
  - intros d r Hd. split.
    + intros ->. specialize (Hlp _ eq_refl).
      rewrite has_price_retailer_key in Hlp. congruence.
    + rewrite Hperm. unfold priced_items, candidates.
      intros ([r' d'] & [= ->] & [Hp _]%list_elem_of_filter)%list_elem_of_fmap.
      simpl in Hp. congruence.
  - intros d f Hd Hf. unfold has_price. rewrite Hd. simpl. by rewrite Hf.
  - intros self' Hpop'.
    rewrite (get_lowest_price_unfold _ _ _ _ _ Hpop'),
      (get_price_comparison_unfold _ _ _ _ _ Hpop').
    unfold priced_items. by rewrite candidates_priced.
Qed.

Lemma falsy_price_excluded_witness :
  exists lowest comparison,
    get_lowest_price (with_lists [] [free_sample; khaki_10] [] []) = Ok lowest
    /\ get_price_comparison (with_lists [] [free_sample; khaki_10] [] []) = Ok comparison
    /\ (forall d retailer, has_price d = false ->
          lowest <> Some (<["retailer_key" := AStr retailer]> d)
          /\ IDict d ∉ comparison)
    /\ (forall d f, d !! "price" = Some (AFloat f) -> PrimFloat.eqb f 0 = true ->
          has_price d = false)
    /\ (forall self',
          populated self' (priced []) (priced [free_sample; khaki_10]) (priced [])
            (priced []) ->
          get_lowest_price self' = Ok lowest
          /\ get_price_comparison self' = Ok comparison).
Proof.
  apply (falsy_price_excluded (with_lists [] [free_sample; khaki_10] [] [])).
  apply populated_with_lists. repeat constructor.
Defined.

Example zero_price_example :
  has_price free_sample = false
  /\ get_price_comparison (with_lists [] [free_sample; khaki_10] [] [])
     = Ok [IDict khaki_10].
Proof. split; vm_compute; reflexivity. Qed.

(* ===================================================================== *)
(** * Further properties                                                 *)
(* ===================================================================== *)

(** ** More on the order of the floats *)

Lemma float_eqb_ltb x y :
  is_nan x = false -> is_nan y = false ->
  PrimFloat.eqb x y = negb (PrimFloat.ltb x y) && negb (PrimFloat.ltb y x).
Proof.
  intros Hx%is_nan_Prim2SF Hy%is_nan_Prim2SF.
  rewrite FloatAxioms.eqb_spec, !ltb_spec. unfold SFeqb, SFltb.
  rewrite (SFcompare_antisym (Prim2SF x) (Prim2SF y)).
  destruct (SFcompare_defined _ _ Hx Hy) as [[] ->]; reflexivity.
Qed.

Lemma float_eqb_refl x : is_nan x = false -> PrimFloat.eqb x x = true.
Proof.
  intros Hx. rewrite float_eqb_ltb by done.
  destruct (PrimFloat.ltb x x) eqn:E; [|done].
  by rewrite (float_ltb_asym _ _ E) in E.
Qed.

Lemma float_leb_antisym x y :
  is_nan x = false -> is_nan y = false ->
  PrimFloat.leb x y = true -> PrimFloat.leb y x = true -> PrimFloat.eqb x y = true.
Proof.
  intros Hx Hy. rewrite (float_leb_ltb x y), (float_leb_ltb y x), float_eqb_ltb by done.
  intros ->%negb_true_iff ->%negb_true_iff. done.
Qed.

(** ** The Dockers thread of the module as it is loaded *)

(** X1.  In the module as it is loaded the Dockers thread fails in every
    run: [scrape_dockers] calls [scrape_product(url)], the function is
    defined without a parameter, and the [TypeError] of the call is filed
    under ["Dockers"].  Whatever the sites answer and in whatever order the
    threads finish, the Dockers list is empty after the run and
    [self.errors] holds exactly this entry for Dockers. *)
Theorem dockers_thread_always_fails w dockers_url search_term now schedule :
  schedule ≡ₚ threads ->
  results (imported_run_all_scrapers w dockers_url search_term now schedule init)
    !! "dockers" = Some (FList [])
  /\ filter (fun p => p.1 = "Dockers")
       (errors (imported_run_all_scrapers w dockers_url search_term now schedule init))
     = [("Dockers", "scrape_product() takes 0 positional arguments but 1 was given")].
Proof.
  intros Hp. unfold imported_run_all_scrapers.
  destruct (run_results (imported_scrape_product w) (imported_search_amazon_dockers w)
              (imported_search_jcpenney_dockers w) (imported_search_macys_dockers w)
              dockers_url search_term now schedule DockersScraper Hp) as [Hr He].
  split; [exact Hr|exact He].
Qed.

Lemma dockers_thread_always_fails_witness :
  results (imported_run_all_scrapers sample_world Dockers_scraper.PRODUCT_URL
             "Dockers Khakis" "2026-01-01T00:00:00" (reverse threads) init)
    !! "dockers" = Some (FList [])
  /\ filter (fun p => p.1 = "Dockers")
       (errors (imported_run_all_scrapers sample_world Dockers_scraper.PRODUCT_URL
                  "Dockers Khakis" "2026-01-01T00:00:00" (reverse threads) init))
     = [("Dockers", "scrape_product() takes 0 positional arguments but 1 was given")].
Proof.
  exact (dockers_thread_always_fails sample_world Dockers_scraper.PRODUCT_URL
           "Dockers Khakis" "2026-01-01T00:00:00" (reverse threads)
           (reverse_Permutation threads)).
Defined.

(** ** A run on an object that already holds results *)

Lemma source_key_retailers t : source_key t ∈ retailers.
Proof. unfold retailers. destruct t; simpl; rewrite !elem_of_cons; auto. Qed.

Section Rerun.
Variable scrape_product : list atom -> outcome item.
Variable search_amazon_dockers search_jcpenney_dockers search_macys_dockers
  : string -> outcome (list item).
Variables dockers_url search_term now : string.

Abbreviation run' :=
  (run_all_scrapers scrape_product search_amazon_dockers search_jcpenney_dockers
     search_macys_dockers dockers_url search_term now).
Abbreviation delivered' :=
  (delivered scrape_product search_amazon_dockers search_jcpenney_dockers
     search_macys_dockers dockers_url search_term).
Abbreviation failure' :=
  (failure scrape_product search_amazon_dockers search_jcpenney_dockers
     search_macys_dockers dockers_url search_term).

Lemma source_key_not_field t : source_key t <> "search_term" /\ source_key t <> "timestamp".
Proof. by destruct t. Qed.

(** X2.  [run_all_scrapers] never clears what [self] holds: on an object
    whose source keys hold lists, and in whatever order the threads
    finish, the list of a source after the run is its list before the run
    followed by what its adapter returned; [search_term] and [timestamp]
    are overwritten; every other key keeps its value; and [self.errors]
    is the list before the run followed by the failures of this run, in
    the order in which the threads finished. *)
Theorem run_all_scrapers_appends schedule self :
  lists_at_sources self ->
  schedule ≡ₚ threads ->
  (forall t l, results self !! source_key t = Some (FList l) ->
     results (run' schedule self) !! source_key t = Some (FList (l ++ delivered' t)))
  /\ results (run' schedule self) !! "search_term" = Some (FAtom (AStr search_term))
  /\ results (run' schedule self) !! "timestamp" = Some (FAtom (AStr now))
  /\ (forall k, k ∉ retailers -> k <> "search_term" -> k <> "timestamp" ->
        results (run' schedule self) !! k = results self !! k)
  /\ errors (run' schedule self) = errors self ++ omap failure' schedule.
Proof.
  intros Hself Hp. unfold run_all_scrapers.
  set (self1 := with_results (with_results self _) _).
  assert (H1 : forall t, results self1 !! source_key t = results self !! source_key t).
  { intros t. destruct (source_key_not_field t). unfold self1. simpl.
    by rewrite !lookup_insert_ne. }
  assert (Hs1 : lists_at_sources self1).
  { intros t. rewrite H1. apply Hself. }
  destruct (run_threads_spec scrape_product search_amazon_dockers search_jcpenney_dockers
              search_macys_dockers dockers_url search_term schedule self1 Hs1)
    as (_ & Hr & Ho & He).
  split; [|split; [|split; [|split]]].
  - intros t l Hl. rewrite <- H1 in Hl. rewrite (Hr t l Hl).
    rewrite (filter_thread_schedule _ _ Hp). simpl. by rewrite app_nil_r.
  - rewrite Ho; [|by intros []]. unfold self1. simpl.
    rewrite lookup_insert_ne by done. by rewrite lookup_insert_eq.
  - rewrite Ho; [|by intros []]. unfold self1. simpl. by rewrite lookup_insert_eq.
  - intros k Hk H2 H3. rewrite (Ho k).
    + unfold self1. simpl. by rewrite !lookup_insert_ne.
    + intros t ->. apply Hk, source_key_retailers.
  - rewrite He. done.
Qed.

Lemma fresh_run_results schedule :
  schedule ≡ₚ threads ->
  results (run' schedule init)
  = {[ "dockers" := FList (delivered' DockersScraper);
       "amazon" := FList (delivered' AmazonScraper);
       "jcpenney" := FList (delivered' JCPenneyScraper);
       "macys" := FList (delivered' MacysScraper);
       "timestamp" := FAtom (AStr now);
       "search_term" := FAtom (AStr search_term) ]}.
Proof.
  intros Hp. apply map_eq. intros k.
  pose proof (fun t => proj1 (run_results scrape_product search_amazon_dockers
                search_jcpenney_dockers search_macys_dockers dockers_url search_term now
                schedule t Hp)) as Hr.
  destruct (decide (k = "dockers")) as [->|H1].
  { etrans; [exact (Hr DockersScraper)|]. by simplify_map_eq. }
  destruct (decide (k = "amazon")) as [->|H2].
  { etrans; [exact (Hr AmazonScraper)|]. by simplify_map_eq. }
  destruct (decide (k = "jcpenney")) as [->|H3].
  { etrans; [exact (Hr JCPenneyScraper)|]. by simplify_map_eq. }
  destruct (decide (k = "macys")) as [->|H4].
  { etrans; [exact (Hr MacysScraper)|]. by simplify_map_eq. }
  rewrite run_unfold.
  destruct (run_threads_spec scrape_product search_amazon_dockers search_jcpenney_dockers
              search_macys_dockers dockers_url search_term schedule _
              (started_lists search_term now)) as (_ & _ & Ho & _).
  rewrite Ho by (by intros []).
  unfold started, init. simpl.
  destruct (decide (k = "timestamp")) as [->|H5]; [by simplify_map_eq|].
  destruct (decide (k = "search_term")) as [->|H6]; [by simplify_map_eq|].
  by simplify_map_eq.
Qed.

Lemma sum_len_lists items total :
  Forall (fun p : string * field =>
            match p.2 with
            | FList _ => p.1 <> "timestamp" /\ p.1 <> "search_term"
            | FAtom _ => p.1 = "timestamp" \/ p.1 = "search_term"
            end) items ->
  sum_len items total = Ok (total + Z.of_nat (sum_list_with listed items)).
Proof.
  intros H. revert total.
  induction H as [|[k v] items Hp _ IH]; intros total; simpl.
  - f_equal. lia.
  - simpl in Hp. unfold listed at 1. simpl. destruct v as [a|l].
    + destruct Hp as [->| ->]; simpl; rewrite IH; f_equal; lia.
    + destruct Hp as [Hk1 Hk2].
      apply String.eqb_neq in Hk1, Hk2. rewrite Hk1, Hk2. simpl.
      rewrite IH. f_equal. lia.
Qed.

(** After a run on a fresh object [total_products] is the number of
    records that the adapters returned. *)
Lemma fresh_run_total dict_items schedule :
  (forall m, dict_items m ≡ₚ map_to_list m) ->
  schedule ≡ₚ threads ->
  total_products dict_items (run' schedule init)
  = Ok (Z.of_nat (length (delivered' DockersScraper) + length (delivered' AmazonScraper)
                  + length (delivered' JCPenneyScraper) + length (delivered' MacysScraper))).
Proof.
  intros Hitems Hp. unfold total_products.
  rewrite sum_len_lists.
  - f_equal. rewrite Z.add_0_l. f_equal.
    rewrite Hitems, (fresh_run_results _ Hp).
    rewrite !map_to_list_insert by (by simplify_map_eq).
    rewrite map_to_list_singleton. simpl. unfold listed. simpl. lia.
  - apply Forall_forall. intros [k v].
    rewrite Hitems, elem_of_map_to_list, (fresh_run_results _ Hp).
    intros H. simpl.
    repeat (apply lookup_insert_Some in H as [[<- <-]|[? H]]; [by auto|]).
    apply lookup_singleton_Some in H as [<- <-]. auto.
Qed.

End Rerun.

Lemma run_all_scrapers_appends_witness :
  results (run_all_scrapers failing_scrape_product amazon_two jcpenney_one macys_none
             Dockers_scraper.PRODUCT_URL "Dockers Khakis" "2026-01-01T00:00:00"
             (reverse threads) (with_lists [] [khaki_30] [] []))
    !! "amazon"
  = Some (FList ([IDict khaki_30] ++ [IDict khaki_30; IDict khaki_10])).
Proof.
  refine (proj1 (run_all_scrapers_appends failing_scrape_product amazon_two jcpenney_one
                   macys_none Dockers_scraper.PRODUCT_URL "Dockers Khakis"
                   "2026-01-01T00:00:00" (reverse threads) (with_lists [] [khaki_30] [] [])
                   _ (reverse_Permutation threads))
            AmazonScraper [IDict khaki_30] eq_refl).
  intros t. destruct t; eexists; reflexivity.
Defined.

(** ** The count of [print_summary] *)

Lemma scrape_each_length scrape links lg :
  length (scrape_each scrape links lg).1 = length links.
Proof.
  revert lg. induction links as [|link links IH]; intros lg; simpl; [done|].
  destruct (scrape link lg) as [p lg1].
  specialize (IH lg1). destruct (scrape_each scrape links lg1) as [ps lg2].
  simpl in *. by rewrite IH.
Qed.

Lemma search_lengths http list_of_set search_term lg :
  (length (amazon_scraper.search_amazon_dockers http search_term lg).1 <= 3)%nat
  /\ (length (jcpenney_scraper.search_jcpenney_dockers http list_of_set search_term lg).1
      <= 3)%nat
  /\ (length (macys_scraper.search_macys_dockers http list_of_set search_term lg).1
      <= 3)%nat.
Proof.
  unfold amazon_scraper.search_amazon_dockers, jcpenney_scraper.search_jcpenney_dockers,
    macys_scraper.search_macys_dockers.
  split; [|split].
  - destruct (fetch_soup _ _ _) as [[page|e] lg']; [|simpl; lia].
    rewrite scrape_each_length, length_take. lia.
  - destruct (fetch_soup _ _ _) as [[page|e] lg']; [|simpl; lia].
    rewrite scrape_each_length, length_take. lia.
  - destruct (fetch_soup _ _ _) as [[page|e] lg']; [|simpl; lia].
    rewrite scrape_each_length, length_take. lia.
Qed.

(** X3.  The total that [print_summary] computes, after a run of the
    module as it is loaded on a fresh object: the sum never raises, it
    counts the records of the three searches (the Dockers list is empty),
    and it is at most 9, three for each search, whatever the sites answer,
    in whatever order the threads finish and in whatever order the
    dictionary lists its entries. *)
Theorem total_products_is_at_most_nine w dict_items dockers_url search_term now schedule :
  (forall m, dict_items m ≡ₚ map_to_list m) ->
  schedule ≡ₚ threads ->
  exists total,
    total_products dict_items
      (imported_run_all_scrapers w dockers_url search_term now schedule init) = Ok total
    /\ total
       = Z.of_nat
           (length (amazon_scraper.search_amazon_dockers (amazon_site w) search_term []).1
            + length (jcpenney_scraper.search_jcpenney_dockers (jcpenney_site w)
                        (jcpenney_set_order w) search_term []).1
            + length (macys_scraper.search_macys_dockers (macys_site w)
                        (macys_set_order w) search_term []).1)
    /\ 0 <= total <= 9.
Proof.
  intros Hitems Hp. unfold imported_run_all_scrapers.
  rewrite (fresh_run_total _ _ _ _ _ _ _ _ _ Hitems Hp).
  eexists. split; [reflexivity|].
  unfold delivered, delivery. rewrite imported_scrape_product_raises.
  unfold imported_search_amazon_dockers, imported_search_jcpenney_dockers,
    imported_search_macys_dockers.
  rewrite !length_fmap. simpl.
  pose proof (search_lengths (amazon_site w) (jcpenney_set_order w) search_term []) as (Ha&_&_).
  pose proof (search_lengths (jcpenney_site w) (jcpenney_set_order w) search_term [])
    as (_&Hj&_).
  pose proof (search_lengths (macys_site w) (macys_set_order w) search_term []) as (_&_&Hm).
  split; [done|]. lia.
Qed.

Lemma total_products_is_at_most_nine_witness :
  exists total,
    total_products map_to_list
      (imported_run_all_scrapers sample_world Dockers_scraper.PRODUCT_URL "Dockers Khakis"
         "2026-01-01T00:00:00" (reverse threads) init) = Ok total
    /\ total
       = Z.of_nat
           (length (amazon_scraper.search_amazon_dockers (amazon_site sample_world)
                      "Dockers Khakis" []).1
            + length (jcpenney_scraper.search_jcpenney_dockers (jcpenney_site sample_world)
                        (jcpenney_set_order sample_world) "Dockers Khakis" []).1
            + length (macys_scraper.search_macys_dockers (macys_site sample_world)
                        (macys_set_order sample_world) "Dockers Khakis" []).1)
    /\ 0 <= total <= 9.
Proof.
  apply (total_products_is_at_most_nine sample_world map_to_list
           Dockers_scraper.PRODUCT_URL "Dockers Khakis" "2026-01-01T00:00:00"
           (reverse threads)).
  - intros m. reflexivity.
  - apply reverse_Permutation.
Defined.

Example total_products_example :
  total_products map_to_list
    (imported_run_all_scrapers sample_world Dockers_scraper.PRODUCT_URL "Dockers Khakis"
       "2026-01-01T00:00:00" (reverse threads) init) = Ok 2.
Proof. vm_compute. reflexivity. Qed.

(** ** The two aggregators together *)

Section FirstOfSorted.
#[local] Existing Instance same_price_dec.

Lemma filter_head_first {A} (P : A -> Prop) `{!forall x, Decision (P x)} (l : list A) i m :
  l !! i = Some m -> P m -> (forall j y, (j < i)%nat -> l !! j = Some y -> ~ P y) ->
  head (filter P l) = Some m.
Proof.
  revert i. induction l as [|x l IH]; intros i Hi Hm Hlt; [done|].
  destruct i as [|i]; simpl in Hi.
  - injection Hi as ->. by rewrite filter_cons_True.
  - rewrite filter_cons_False; [|apply (Hlt 0%nat); [lia|done]].
    apply (IH i); [done..|]. intros j y Hj Hy. apply (Hlt (S j)); [lia|done].
Qed.

(** A stable ascending arrangement of a list opens with the first of
    its least elements. *)
Lemma sorted_head_first_min {A} (kf : A -> float) (xs out : list A) i m :
  Forall (fun x => is_nan (kf x) = false) xs ->
  out ≡ₚ xs ->
  StronglySorted (ascending kf) out ->
  (forall p, filter (same_price kf p) out = filter (same_price kf p) xs) ->
  first_min kf xs i m ->
  head out = Some m.
Proof.
  intros Hn Hperm Hsorted Hstable (Hi & Hle & Hlt).
  rewrite Forall_forall in Hn.
  assert (Hm : m ∈ xs) by (by eapply list_elem_of_lookup_2).
  destruct out as [|h out'].
  { apply Permutation_nil_l in Hperm. subst. by apply elem_of_nil in Hm. }
  assert (Hh : h ∈ xs) by (rewrite <- Hperm; by left).
  assert (Heq : PrimFloat.eqb (kf h) (kf m) = true).
  { apply float_leb_antisym; [by apply Hn|by apply Hn| |].
    - rewrite <- Hperm in Hm. apply elem_of_cons in Hm as [->|Hm].
      + apply float_leb_refl. by apply Hn.
      + apply StronglySorted_inv in Hsorted as [_ Hall].
        rewrite Forall_forall in Hall. by apply Hall.
    - apply list_elem_of_lookup_1 in Hh as [j Hj]. by eapply Hle. }
  specialize (Hstable (kf m)).
  rewrite filter_cons_True in Hstable by done.
  assert (Hf : head (filter (same_price kf (kf m)) xs) = Some m).
  { apply (filter_head_first _ xs i); [done| |].
    - apply float_eqb_refl. by apply Hn.
    - intros j y Hj Hy Hsame. unfold same_price in Hsame.
      specialize (Hlt j y Hj Hy).
      pose proof (float_ltb_eqb _ _ _ Hlt Hsame) as Hc.
      rewrite float_eqb_refl in Hc; [done|by apply Hn]. }
  rewrite <- Hstable in Hf. done.
Qed.

End FirstOfSorted.

Lemma candidates_retailer ld la lj lm p :
  p ∈ candidates ld la lj lm -> p.1 ∈ retailers.
Proof.
  unfold candidates, flatten, tagged, retailers.
  intros [_ Hin]%list_elem_of_filter.
  rewrite !elem_of_app, !list_elem_of_fmap in Hin.
  destruct Hin as [(?&->&?)|[(?&->&?)|[(?&->&?)|(?&->&?)]]]; simpl;
    rewrite !elem_of_cons; auto.
Qed.

(** X4.  On a populated result set the two aggregators agree: the record
    that [get_lowest_price] returns is the first record of the list that
    [get_price_comparison] returns, copied and given the key
    ["retailer_key"]; and [get_lowest_price] returns [None] exactly when
    that list is empty. *)
Theorem lowest_price_heads_price_comparison self ld la lj lm :
  populated self ld la lj lm ->
  exists comparison,
    get_price_comparison self = Ok comparison
    /\ match comparison with
       | [] => get_lowest_price self = Ok None
       | x :: _ =>
           exists retailer d,
             x = IDict d /\ retailer ∈ retailers
             /\ get_lowest_price self = Ok (Some (<["retailer_key" := AStr retailer]> d))
       end.
Proof.
  intros Hpop.
  pose proof (priced_items_float_keyed _ _ _ _ _ Hpop) as Hk.
  destruct (py_sorted_spec price_key item_price _ Hk)
    as (out & Hout & Hperm & Hsorted & Hstable).
  exists out. rewrite (get_price_comparison_unfold _ _ _ _ _ Hpop).
  split; [done|].
  rewrite (get_lowest_price_unfold _ _ _ _ _ Hpop).
  pose proof (candidates_price_ok _ _ _ _ _ Hpop) as Hc.
  pose proof (candidates_retailer ld la lj lm) as Hr.
  unfold priced_items in *.
  destruct (candidates ld la lj lm) as [|c cs].
  { apply Permutation_nil_r in Hperm. by subst. }
  destruct (lowest_of_candidates c cs Hc) as (i & r & d & Hmin & Hfirst).
  assert (Hhead : head out = Some (IDict d)).
  { apply (sorted_head_first_min item_price ((fun p => IDict p.2) <$> c :: cs) out i);
      [| done..|].
    - eapply Forall_impl; [exact Hk|]. by intros x [_ ?].
    - destruct Hfirst as (Hi & Hle & Hlt). split; [|split].
      + by rewrite list_lookup_fmap, Hi.
      + intros j y ([r' d'] & -> & Hj)%list_lookup_fmap_Some. apply (Hle j _ Hj).
      + intros j y Hji ([r' d'] & -> & Hj)%list_lookup_fmap_Some. apply (Hlt j _ Hji Hj). }
  destruct out as [|x out']; [done|]. injection Hhead as ->.
  exists r, d. split; [done|]. split.
  - destruct Hfirst as (Hi & _). apply list_elem_of_lookup_2 in Hi. apply (Hr _ Hi).
  - rewrite fmap_cons in *. by rewrite Hmin.
Qed.

Lemma lowest_price_heads_price_comparison_witness :
  exists comparison,
    get_price_comparison (with_lists [] [khaki_30; khaki_10] [jcp_10] [macys_20])
      = Ok comparison
    /\ match comparison with
       | [] => get_lowest_price (with_lists [] [khaki_30; khaki_10] [jcp_10] [macys_20])
               = Ok None
       | x :: _ =>
           exists retailer d,
             x = IDict d /\ retailer ∈ retailers
             /\ get_lowest_price (with_lists [] [khaki_30; khaki_10] [jcp_10] [macys_20])
                = Ok (Some (<["retailer_key" := AStr retailer]> d))
       end.
Proof.
  apply (lowest_price_heads_price_comparison
           (with_lists [] [khaki_30; khaki_10] [jcp_10] [macys_20])
           [] [khaki_30; khaki_10] [jcp_10] [macys_20]).
  apply populated_with_lists. repeat constructor.
Defined.

(** ** Objects that are no dictionaries *)

Section CollectAtoms.
Context {A : Type} (wrap : string -> item -> outcome A).
Hypothesis wrap_dict : forall r d, exists w, wrap r (IDict d) = Ok w.

Lemma collect_outcome r l acc :
  (exists a, IAtom a ∈ l) /\ collect (wrap r) l acc = Raised no_get
  \/ (forall a, IAtom a ∉ l) /\ exists out, collect (wrap r) l acc = Ok out.
Proof.
  revert acc. induction l as [|x l IH]; intros acc.
  - right. split; [by intros a H%elem_of_nil|]. simpl. eauto.
  - destruct x as [a|d]; simpl.
    + left. split; [|done]. exists a. by left.
    + destruct (wrap_dict r d) as [w Hw]. rewrite Hw.
      destruct (truthy _); simpl.
      * destruct (IH (acc ++ [w])) as [[[a Ha] ->]|[Hn [out ->]]].
        -- left. split; [|done]. exists a. by right.
        -- right. split; [|eauto]. intros a [?|?]%elem_of_cons; [done|]. by eapply Hn.
      * destruct (IH acc) as [[[a Ha] ->]|[Hn [out ->]]].
        -- left. split; [|done]. exists a. by right.
        -- right. split; [|eauto]. intros a [?|?]%elem_of_cons; [done|]. by eapply Hn.
Qed.

Lemma collect_all_outcome self names acc :
  Forall (fun r => exists l, results self !! r = Some (FList l)) names ->
  (exists r l a, r ∈ names /\ results self !! r = Some (FList l) /\ IAtom a ∈ l)
    /\ collect_all wrap self names acc = Raised no_get
  \/ (forall r l a, r ∈ names -> results self !! r = Some (FList l) -> IAtom a ∉ l)
    /\ exists out, collect_all wrap self names acc = Ok out.
Proof.
  intros Hn. revert acc. induction Hn as [|r names [l Hl] _ IH]; intros acc.
  - right. split; [by intros r l a H%elem_of_nil|]. simpl. eauto.
  - simpl. unfold getitem. rewrite Hl. simpl.
    destruct (collect_outcome r l acc) as [[[a Ha] ->]|[Hno [out ->]]]; simpl.
    + left. split; [|done]. exists r, l, a. split; [by left|done].
    + destruct (IH out) as [[(r' & l' & a & Hr & Hl' & Ha) ->]|[Hno' [out' ->]]].
      * left. split; [|done]. exists r', l', a. split; [by right|done].
      * right. split; [|eauto].
        intros r' l' a [->|Hr]%elem_of_cons Hl'.
        -- rewrite Hl in Hl'. injection Hl' as <-. apply Hno.
        -- by eapply Hno'.
Qed.
End CollectAtoms.

Lemma retailers_lists self :
  lists_at_sources self ->
  Forall (fun r => exists l, results self !! r = Some (FList l)) retailers.
Proof.
  intros H. unfold retailers.
  repeat constructor;
    [apply (H DockersScraper)|apply (H AmazonScraper)
    |apply (H JCPenneyScraper)|apply (H MacysScraper)].
Qed.

(** X5.  Neither aggregator checks what the lists hold: when the source
    keys hold lists and one of the lists holds an object that is no
    dictionary (the [None] that [scrape_product] returns when it fails,
    which [scrape_dockers] appends unchecked, is one), both
    [get_lowest_price] and [get_price_comparison] raise
    [AttributeError]. *)
Theorem aggregators_raise_on_non_dict self t l a :
  lists_at_sources self ->
  results self !! source_key t = Some (FList l) ->
  IAtom a ∈ l ->
  exists msg,
    get_lowest_price self = Raised (AttributeError msg)
    /\ get_price_comparison self = Raised (AttributeError msg).
Proof.
  intros Hself Hl Ha. exists "object has no attribute 'get'".
  unfold get_lowest_price, get_price_comparison.
  split.
  - destruct (collect_all_outcome
                (fun retailer product => dict_with product "retailer_key" (AStr retailer))
                (fun r d => ex_intro _ _ eq_refl) self retailers [] (retailers_lists _ Hself))
      as [[_ ->]|[Hno _]]; [done|].
    destruct (Hno _ _ a (source_key_retailers t) Hl Ha).
  - destruct (collect_all_outcome (fun _ product => Ok product)
                (fun r d => ex_intro _ _ eq_refl) self retailers [] (retailers_lists _ Hself))
      as [[_ ->]|[Hno _]]; [done|].
    destruct (Hno _ _ a (source_key_retailers t) Hl Ha).
Qed.

Lemma aggregators_raise_on_non_dict_witness :
  exists msg,
    get_lowest_price unchecked_dockers = Raised (AttributeError msg)
    /\ get_price_comparison unchecked_dockers = Raised (AttributeError msg).
Proof.
  apply (aggregators_raise_on_non_dict unchecked_dockers DockersScraper [IAtom ANone] ANone).
  - intros t. destruct t; eexists; reflexivity.
  - reflexivity.
  - apply elem_of_cons. by left.
Defined.

(** ** Records of the Dockers modules in the aggregators *)

Lemma build_product_data_no_price name subtitle current_price original_price url
    availability product_data :
  build_product_data name subtitle current_price original_price url availability
    = Ok product_data ->
  product_data !! "price" = None.
Proof.
  unfold build_product_data.
  destruct (match original_price with Some _ => _ | None => _ end); simpl.
  - destruct (py_sub _ _); simpl; [|done].
    destruct (py_div _ _); simpl; [|done].
    destruct (py_round _ _); simpl; [|done].
    intros [= <-]. by rewrite lookup_insert_ne.
  - by intros [= <-].
Qed.

Lemma candidates_unpriced_dockers ld la lj lm :
  Forall (fun d => d !! "price" = None) ld ->
  candidates ld la lj lm = candidates [] la lj lm.
Proof.
  intros H. unfold candidates, flatten. rewrite !filter_app. f_equal.
  simpl. unfold tagged. induction H as [|d ld Hd _ IH]; [done|].
  rewrite fmap_cons, filter_cons_False; [done|].
  simpl. unfold has_price. by rewrite Hd.
Qed.

(** X6.  The record that [Dockers_scraper.scrape_product] (and
    [multi_scraper.scrape_product]) builds keeps its price under
    ["current_price"]; the aggregators read ["price"].  So a record of
    that form counts as unpriced: on a populated result set whose Dockers
    list holds such records, both aggregators return what they return
    without them. *)
Theorem dockers_records_are_never_candidates self self' ld la lj lm :
  populated self ld la lj lm ->
  populated self' [] la lj lm ->
  Forall (fun d => exists name subtitle current_price original_price url availability,
            build_product_data name subtitle current_price original_price url availability
            = Ok d) ld ->
  Forall (fun d => has_price d = false) ld
  /\ get_lowest_price self = get_lowest_price self'
  /\ get_price_comparison self = get_price_comparison self'.
Proof.
  intros Hpop Hpop' Hld.
  assert (Hnp : Forall (fun d : gmap string atom => d !! "price" = None) ld).
  { eapply Forall_impl; [exact Hld|]. intros d (?&?&?&?&?&?&H).
    by eapply build_product_data_no_price. }
  split.
  - eapply Forall_impl; [exact Hnp|]. intros d Hd. unfold has_price. by rewrite Hd.
  - rewrite (get_lowest_price_unfold _ _ _ _ _ Hpop),
      (get_lowest_price_unfold _ _ _ _ _ Hpop'),
      (get_price_comparison_unfold _ _ _ _ _ Hpop),
      (get_price_comparison_unfold _ _ _ _ _ Hpop').
    unfold priced_items. by rewrite (candidates_unpriced_dockers _ _ _ _ Hnp).
Qed.

Lemma sale_record_built :
  build_product_data "Signature Iron Free Khakis" None (Some 40%float) (Some 50%float)
    Dockers_scraper.PRODUCT_URL "In Stock" = Ok sale_record.
Proof. reflexivity. Qed.

Lemma sale_record_scraped :
  (Dockers_scraper.scrape_product sale_site []).1 = IDict sale_record.
Proof. reflexivity. Qed.

Lemma dockers_records_are_never_candidates_witness :
  Forall (fun d => has_price d = false) [sale_record]
  /\ get_lowest_price (with_lists [sale_record] [khaki_10] [] [])
     = get_lowest_price (with_lists [] [khaki_10] [] [])
  /\ get_price_comparison (with_lists [sale_record] [khaki_10] [] [])
     = get_price_comparison (with_lists [] [khaki_10] [] []).
Proof.
  apply (dockers_records_are_never_candidates
           (with_lists [sale_record] [khaki_10] [] []) (with_lists [] [khaki_10] [] [])
           [sale_record] [khaki_10] [] []).
  - apply populated_with_lists. repeat constructor.
  - apply populated_with_lists. repeat constructor.
  - constructor; [|constructor]. do 6 eexists. exact sale_record_built.
Defined.

Example dockers_record_example :
  sale_record !! "current_price" = Some (AFloat 40)
  /\ sale_record !! "discount_percentage" = Some (AFloat 20)
  /\ get_lowest_price (with_lists [sale_record] [khaki_10] [] [])
     = Ok (Some (<["retailer_key" := AStr "amazon"]> khaki_10)).
Proof. repeat split; vm_compute; reflexivity. Qed.

(** ** What a retailer record says about its request *)

Lemma price_loop_returns extract_price page selectors p0 :
  (forall text, exists r, extract_price text = Ok r) ->
  exists p, price_loop extract_price page selectors p0 = Ok p.
Proof.
  intros He. revert p0. induction selectors as [|s selectors IH]; intros p0; simpl; [eauto|].
  destruct (select_one page s) as [t|]; [|apply IH].
  destruct (He (get_text_strip t)) as [r ->]. simpl.
  destruct (price_truthy r); [eauto|apply IH].
Qed.

Lemma regex_extract_price_returns text : exists r, amazon_scraper.extract_price text = Ok r.
Proof. destruct (regex_extract_price text) as (r & Hr & _). eauto. Qed.

Lemma name_or_unknown_nonempty name : name_or_unknown name <> "".
Proof.
  unfold name_or_unknown. destruct name as [n|]; [|done].
  simpl. destruct (String.eqb_spec n ""); simpl; done.
Qed.

Lemma classify_values text :
  classify text "Check Site" ∈ ["In Stock"; "Out of Stock"; "Check Site"].
Proof.
  unfold classify. destruct (py_in "in stock" text); [set_solver|].
  destruct (_ || _); set_solver.
Qed.

Lemma availability_loop_values page selectors :
  availability_loop page selectors ∈ ["In Stock"; "Out of Stock"; "Check Site"].
Proof.
  induction selectors as [|s selectors IH]; simpl; [set_solver|].
  destruct (select_one page s); [apply classify_values|done].
Qed.

Lemma record_error_dom result e :
  "error" ∈ dom result -> dom (record_error result e) = dom result.
Proof.
  intros H%elem_of_dom. destruct e; simpl; by apply dom_insert_lookup_L.
Qed.

Lemma record_error_error result e :
  exists msg, record_error result e !! "error" = Some (AStr msg).
Proof. destruct e; simpl; rewrite lookup_insert_eq; eauto. Qed.

Ltac lookup_key :=
  repeat (rewrite lookup_insert_ne by done);
  first [by rewrite lookup_insert_eq | by rewrite lookup_singleton_eq].

Ltac product_reports :=
  intros; cbv beta delta [amazon_scraper.scrape_amazon_product
    jcpenney_scraper.scrape_jcpenney_product macys_scraper.scrape_macys_product];
  destruct (fetch_soup _ _ _) as [[page|e] lg']; cbn [fst snd];
  [ repeat match goal with
      | |- context [price_loop ?f page ?s None] =>
          let p := fresh "p" in
          destruct (price_loop_returns f page s None regex_extract_price_returns) as [p ->]
      end;
    split; [unfold record_keys; rewrite !dom_insert_L; set_solver|];
    split; [lookup_key|];
    split; [eexists; split; [lookup_key|apply name_or_unknown_nonempty]|];
    eexists; split; [lookup_key|];
    first [apply availability_loop_values
          | destruct (select_one page _); [apply classify_values|set_solver]]
  | split; [rewrite record_error_dom;
            [unfold record_keys; rewrite !dom_insert_L; set_solver
            |rewrite !dom_insert_L; set_solver]|];
    split; [apply record_error_error|];
    rewrite !record_error_other by done; repeat split; lookup_key ].

Lemma scrape_amazon_product_reports http url lg :
  reports_fetch (fetch_soup http url lg).1 (amazon_scraper.scrape_amazon_product http url lg).1.
Proof. product_reports. Qed.

Lemma scrape_jcpenney_product_reports http url lg :
  reports_fetch (fetch_soup http url lg).1
    (jcpenney_scraper.scrape_jcpenney_product http url lg).1.
Proof. product_reports. Qed.

Lemma scrape_macys_product_reports http url lg :
  reports_fetch (fetch_soup http url lg).1 (macys_scraper.scrape_macys_product http url lg).1.
Proof. product_reports. Qed.

(** X7.  The record of [scrape_amazon_product], [scrape_jcpenney_product]
    and [scrape_macys_product] always has the same seven keys, and its
    ["error"] tells whether the page was fetched: when the request and
    [raise_for_status] succeed the error is [None], the name is a string
    that is not empty (["Unknown"] at worst) and the availability is one
    of "In Stock", "Out of Stock", "Check Site"; when they raise, the
    error is a string and name, price and original price are [None] and
    the availability is "Unknown", as initialised. *)
Theorem product_record_reports_fetch http url lg :
  Forall (reports_fetch (fetch_soup http url lg).1)
    [ (amazon_scraper.scrape_amazon_product http url lg).1;
      (jcpenney_scraper.scrape_jcpenney_product http url lg).1;
      (macys_scraper.scrape_macys_product http url lg).1 ].
Proof.
  constructor; [apply scrape_amazon_product_reports|].
  constructor; [apply scrape_jcpenney_product_reports|].
  constructor; [apply scrape_macys_product_reports|constructor].
Qed.

Example product_record_example :
  (amazon_scraper.scrape_amazon_product not_found_site "https://www.amazon.com/dp/B0" []).1
    !! "availability" = Some (AStr "Unknown")
  /\ (amazon_scraper.scrape_amazon_product zero_price_site "https://www.amazon.com/dp/B0" []).1
       !! "name" = Some (AStr "Unknown")
  /\ (amazon_scraper.scrape_amazon_product zero_price_site "https://www.amazon.com/dp/B0" []).1
       !! "availability" = Some (AStr "Check Site").
Proof. repeat split; vm_compute; reflexivity. Qed.

(** ** The prices of the retailer records are not negative *)

Section NonNegative.

Lemma binary_round_aux_nonneg mx ex lx :
  0 <= mx -> nonneg_sf (binary_round_aux prec emax false mx ex lx).
Proof.
  intros H. unfold binary_round_aux.
  pose proof (shr_fexp_nonneg mx ex lx H) as H1.
  destruct (shr_fexp prec emax mx ex lx) as [mrs' e']. simpl in H1.
  pose proof (shr_fexp_nonneg _ e' loc_Exact
                (round_nearest_even_nonneg _ (loc_of_shr_record mrs') H1)) as H2.
  destruct (shr_fexp prec emax _ e' loc_Exact) as [mrs'' e'']. simpl in H2.
  destruct (shr_m mrs''); [done| |lia].
  by destruct (e'' <=? emax - prec).
Qed.

Lemma binary_round_nonneg mx ex : nonneg_sf (binary_round prec emax false mx ex).
Proof.
  unfold binary_round. destruct (shl_align _ _ _) as [mz ez].
  apply binary_round_aux_nonneg. lia.
Qed.

Lemma binary_normalize_nonneg m e :
  0 <= m -> nonneg_sf (binary_normalize prec emax m e false).
Proof. destruct m; simpl; [done|intros _; apply binary_round_nonneg|lia]. Qed.

Lemma SFdiv_finite_nonneg m1 e1 m2 e2 :
  nonneg_sf (SFdiv prec emax (S754_finite false m1 e1) (S754_finite false m2 e2)).
Proof.
  simpl. unfold SFdiv_core_binary.
  set (m' := match _ with 0 => Z.pos m1 | Z.pos _ => _ | Z.neg _ => 0 end).
  assert (Hm : 0 <= m').
  { unfold m'. destruct (_ - _ - _); [lia| |lia]. apply Z.shiftl_nonneg. lia. }
  pose proof (Z.div_pos m' (Z.pos m2) Hm eq_refl) as Hq.
  change IntDef.Z.div_eucl with Z.div_eucl.
  unfold Z.div in Hq. destruct (Z.div_eucl m' (Z.pos m2)) as [q r]. simpl in Hq.
  by apply binary_round_aux_nonneg.
Qed.

Lemma SF2Prim_nonneg x : nonneg_sf x -> nonneg_sf (Prim2SF (SF2Prim x)).
Proof.
  destruct x as [[]|[]| |[] m e]; try done.
  intros _. unfold SF2Prim.
  rewrite Z_ldexp_spec, of_uint63_spec. unfold SFldexp.
  pose proof (Uint63.to_Z_bounded (Uint63Axioms.of_Z (Z.pos m))) as [Hb _].
  pose proof (binary_normalize_nonneg
                (Uint63Axioms.to_Z (Uint63Axioms.of_Z (Z.pos m))) 0 Hb) as Hn.
  destruct (binary_normalize _ _ _ _ _) as [[]|[]| |[] m' e']; try done.
  apply binary_round_nonneg.
Qed.

Lemma nonneg_sf_leb f : nonneg_sf (Prim2SF f) -> PrimFloat.leb 0 f = true.
Proof.
  rewrite leb_spec. unfold SFleb.
  change (Prim2SF 0) with (S754_zero false).
  by destruct (Prim2SF f) as [[]|[]| |[] m e].
Qed.

Lemma float_of_decimal_nonneg m e10 :
  PrimFloat.leb 0 (float_of_decimal false m e10) = true.
Proof.
  apply nonneg_sf_leb. unfold float_of_decimal.
  destruct m as [|p|p]; try done.
  destruct (Z.leb_spec 0 e10); apply SF2Prim_nonneg.
  - apply binary_normalize_nonneg. apply Z.mul_nonneg_nonneg; [lia|].
    by apply Z.pow_nonneg.
  - apply SFdiv_finite_nonneg.
Qed.

End NonNegative.

Lemma numeric_not_sign c :
  numeric c = true -> Ascii.eqb c "-" = false /\ Ascii.eqb c "+" = false.
Proof.
  unfold numeric. intros H.
  destruct (Ascii.eqb_spec c "."); [by subst|].
  rewrite orb_false_r in H.
  split; apply Ascii.eqb_neq; intros ->; vm_compute in H; discriminate.
Qed.

(** A text of digits and dots that [float] accepts is read as a number
    that is not below zero. *)
Lemma parse_float_numeric_nonneg l f :
  Forall (fun c => numeric c = true) l -> parse_float l = Some f ->
  PrimFloat.leb 0 f = true.
Proof.
  intros Hl Hf. pose proof (parse_float_numeric l f Hl Hf) as Hnan.
  revert Hf. unfold parse_float.
  destruct (drop_underscores _ _) as [l'|] eqn:Hd; [|done]. simpl.
  assert (Hs : split_sign l' = (false, l')).
  { destruct l' as [|c r]; [done|]. simpl.
    assert (Hc : numeric c = true).
    { rewrite Forall_forall in Hl. apply Hl, (strip_list_elem_of float_isspace).
      eapply drop_underscores_elem_of; [done|]. by left. }
    destruct (numeric_not_sign c Hc) as [-> ->]. done. }
  rewrite Hs.
  destruct (String.eqb (lower_list l') "inf" || String.eqb (lower_list l') "infinity").
  { by intros [= <-]. }
  destruct (String.eqb (lower_list l') "nan").
  { intros [= <-]. done. }
  destruct (match drop_while is_digit l' with [] => _ | _ => _ end) as [fp l3].
  destruct (take_while is_digit l' ++ fp); [done|].
  destruct (parse_exponent l3); simpl; [|done].
  intros [= <-]. apply float_of_decimal_nonneg.
Qed.

Lemma regex_extract_price_nonneg text f :
  amazon_scraper.extract_price text = Ok (Some f) -> PrimFloat.leb 0 f = true.
Proof.
  unfold amazon_scraper.extract_price, re_search_price.
  destruct (negb _); [done|].
  destruct (price_group _) as [g|] eqn:Hg; simpl; [|done].
  unfold py_float.
  destruct (parse_float _) as [f'|] eqn:Hf; simpl; [|done].
  intros [= <-]. eapply parse_float_numeric_nonneg; [|done].
  apply py_remove_comma_chars. rewrite list_ascii_of_string_of_list_ascii.
  by eapply price_group_chars.
Qed.

Lemma regex_extract_price_nonneg_atom text r :
  amazon_scraper.extract_price text = Ok r -> nonneg_price (atom_of_price r).
Proof. destruct r as [f|]; [|done]. apply regex_extract_price_nonneg. Qed.

Lemma price_loop_Forall (P : option float -> Prop) extract_price page selectors p0 p :
  (forall text r, extract_price text = Ok r -> P r) ->
  P p0 ->
  price_loop extract_price page selectors p0 = Ok p -> P p.
Proof.
  intros He. revert p0. induction selectors as [|s selectors IH]; intros p0 H0; simpl.
  - by intros [= <-].
  - destruct (select_one page s) as [t|]; [|by apply IH].
    destruct (extract_price (get_text_strip t)) as [p1|] eqn:E; simpl; [|done].
    destruct (price_truthy p1); [intros [= <-]; eauto|apply IH; eauto].
Qed.

Ltac product_nonneg :=
  intros; cbv beta delta [amazon_scraper.scrape_amazon_product
    jcpenney_scraper.scrape_jcpenney_product macys_scraper.scrape_macys_product];
  destruct (fetch_soup _ _ _) as [[page|e] lg']; cbn [fst snd];
  [|exists ANone, ANone; rewrite !record_error_other by done;
     repeat split; lookup_key];
  repeat match goal with
    | |- context [price_loop ?f page ?s None] =>
        let Hp := fresh "Hp" in
        let p := fresh "p" in
        let Hl := fresh "Hl" in
        pose proof (price_loop_Forall (fun p => nonneg_price (atom_of_price p)) f page s None)
          as Hp;
        destruct (price_loop_returns f page s None regex_extract_price_returns) as [p Hl];
        rewrite Hl in *;
        specialize (Hp p regex_extract_price_nonneg_atom I eq_refl); clear Hl
    end;
  eexists _, _; split; [lookup_key|]; split; [lookup_key|]; split; assumption.

Lemma scrape_amazon_product_nonneg http url lg :
  nonneg_prices (amazon_scraper.scrape_amazon_product http url lg).1.
Proof. product_nonneg. Qed.

Lemma scrape_jcpenney_product_nonneg http url lg :
  nonneg_prices (jcpenney_scraper.scrape_jcpenney_product http url lg).1.
Proof. product_nonneg. Qed.

Lemma scrape_macys_product_nonneg http url lg :
  nonneg_prices (macys_scraper.scrape_macys_product http url lg).1.
Proof. product_nonneg. Qed.

(** X8.  The price and the original price in a record of the three
    retailer modules are [None] or a number that is not below zero: the
    pattern of [extract_price] takes digits, commas and a dot, never a
    sign and never the letters of [nan], and [float] rounds what it reads
    to zero, a positive number or plus infinity. *)
Theorem retailer_prices_are_not_negative http url lg :
  Forall nonneg_prices
    [ (amazon_scraper.scrape_amazon_product http url lg).1;
      (jcpenney_scraper.scrape_jcpenney_product http url lg).1;
      (macys_scraper.scrape_macys_product http url lg).1 ]
  /\ forall price_text f,
       amazon_scraper.extract_price price_text = Ok (Some f)
       \/ jcpenney_scraper.extract_price price_text = Ok (Some f)
       \/ macys_scraper.extract_price price_text = Ok (Some f) ->
       PrimFloat.leb 0 f = true.
Proof.
  split; [|intros price_text f [H|[H|H]]; exact (regex_extract_price_nonneg _ _ H)].
  constructor; [apply scrape_amazon_product_nonneg|].
  constructor; [apply scrape_jcpenney_product_nonneg|].
  constructor; [apply scrape_macys_product_nonneg|constructor].
Qed.

Example unsigned_price_example :
  amazon_scraper.extract_price "-$5.00" = Ok (Some 5%float)
  /\ Dockers_scraper.extract_price "-5.00" = Ok (Some (-5)%float).
Proof. split; vm_compute; reflexivity. Qed.

(** ** Which selector gives the name and the price *)

Lemma last_cons_default {A} (x : A) l : last (x :: l) = Some (default x (last l)).
Proof.
  revert x. induction l as [|y l IH]; intros x; [done|].
  rewrite last_cons_cons, !IH. done.
Qed.

Lemma default_last_cons {A} (x0 x : A) l : default x0 (last (x :: l)) = default x (last l).
Proof. by rewrite last_cons_default. Qed.

Lemma price_in_spec text : amazon_scraper.extract_price text = Ok (price_in text).
Proof. unfold price_in. by destruct (regex_extract_price_returns text) as [r ->]. Qed.

Lemma price_loop_first_truthy page selectors price0 :
  price_loop amazon_scraper.extract_price page selectors price0
  = Ok match head (filter truthy_price (price_in <$> found_texts page selectors)) with
       | Some price => price
       | None => default price0 (last (price_in <$> found_texts page selectors))
       end.
Proof.
  revert price0. unfold found_texts.
  induction selectors as [|s selectors IH]; intros price0; simpl; [done|].
  destruct (select_one page s) as [t|]; simpl; [|apply IH].
  rewrite price_in_spec. simpl. rewrite filter_cons.
  destruct (price_truthy (price_in (get_text_strip t))) eqn:E.
  - by rewrite decide_True.
  - rewrite decide_False by (unfold truthy_price; congruence). rewrite IH.
    destruct (head _); [done|]. by rewrite default_last_cons.
Qed.

(** X9.  The price loop of the three product scrapers, for any page and
    any list of selectors: the price is what [extract_price] reads in the
    first element, in the order of the selectors, in which it reads a
    price that is true in a condition; when there is no such element it is
    what [extract_price] reads in the last element found (zero or
    [None]), and [None] when no selector finds an element.  The loop
    never raises. *)
Theorem price_is_first_truthy_reading page selectors :
  price_loop amazon_scraper.extract_price page selectors None
  = Ok match head (filter truthy_price (price_in <$> found_texts page selectors)) with
       | Some price => price
       | None => default None (last (price_in <$> found_texts page selectors))
       end
  /\ price_loop jcpenney_scraper.extract_price page selectors None
     = price_loop amazon_scraper.extract_price page selectors None
  /\ price_loop macys_scraper.extract_price page selectors None
     = price_loop amazon_scraper.extract_price page selectors None
  /\ forall price_text, amazon_scraper.extract_price price_text = Ok (price_in price_text).
Proof.
  split; [apply price_loop_first_truthy|]. split; [done|]. split; [done|].
  apply price_in_spec.
Qed.

Lemma name_loop_first_long page selectors name0 :
  name_loop page selectors name0
  = match head (filter long_name (found_texts page selectors)) with
    | Some name => Some name
    | None => match last (found_texts page selectors) with
              | Some name => Some name
              | None => name0
              end
    end.
Proof.
  revert name0. unfold found_texts.
  induction selectors as [|s selectors IH]; intros name0; simpl; [done|].
  destruct (select_one page s) as [t|]; simpl; [|apply IH].
  rewrite filter_cons.
  destruct (decide (long_name (get_text_strip t))) as [Hl|Hl].
  - unfold long_name in Hl. simpl in Hl. by rewrite Hl.
  - apply not_true_is_false in Hl. simpl in Hl. rewrite Hl, IH.
    destruct (head _); [done|].
    rewrite last_cons_default. by destruct (last _).
Qed.

(** X10.  The name loop of the three product scrapers, for any page and
    any list of selectors: the name is the text of the first element, in
    the order of the selectors, whose text has more than five characters;
    when there is no such element it is the text of the last element
    found, however short, and [None] when no selector finds an element;
    the record then holds the name, or ["Unknown"] in place of [None] and
    of the empty text. *)
Theorem name_is_first_long_text page selectors :
  name_loop page selectors None
  = match head (filter long_name (found_texts page selectors)) with
    | Some name => Some name
    | None => last (found_texts page selectors)
    end
  /\ name_or_unknown (name_loop page selectors None)
     = match name_loop page selectors None with
       | Some name => if String.eqb name "" then "Unknown" else name
       | None => "Unknown"
       end.
Proof.
  split.
  - rewrite name_loop_first_long. destruct (head _); [done|]. by destruct (last _).
  - unfold name_or_unknown. destruct (name_loop page selectors None) as [n|]; [|done].
    simpl. by destruct (String.eqb n "").
Qed.

Example short_name_example :
  let page := Tag "" "" ∅ (fun q =>
                if String.eqb q "h1" then [Tag "Pants" "Pants" ∅ (fun _ => [])]
                else if String.eqb q ".product-name"
                     then [Tag "Slim" "Slim" ∅ (fun _ => [])] else []) in
  name_loop page ["h1"; "h1.productTitle"; ".product-name"] None = Some "Slim".
Proof. vm_compute. reflexivity. Qed.

(** ** The requests and the records of a search *)

Lemma scrape_each_urls scrape links lg :
  (forall link lg, (scrape link lg).1 !! "url" = Some (AStr link)) ->
  (fun d : gmap string atom => d !! "url") <$> (scrape_each scrape links lg).1
  = (fun link => Some (AStr link)) <$> links.
Proof.
  intros Hs. revert lg. induction links as [|link links IH]; intros lg; simpl; [done|].
  pose proof (Hs link lg) as H. destruct (scrape link lg) as [p lg1].
  pose proof (IH lg1) as H'. destruct (scrape_each scrape links lg1) as [ps lg2].
  cbn [fst snd] in *. rewrite !fmap_cons. by f_equal.
Qed.

Lemma absolute_startswith href :
  startswith (absolute "https://www.amazon.com" href) "http" = true
  /\ startswith (absolute "https://www.jcpenney.com" href) "http" = true
  /\ startswith (absolute "https://www.macys.com" href) "http" = true.
Proof. unfold absolute. destruct (startswith href "http") eqn:E; done. Qed.

Lemma amazon_product_links_absolute containers :
  Forall (fun link => startswith link "http" = true) (amazon_scraper.product_links containers).
Proof.
  induction containers as [|c cs IH]; simpl; [constructor|].
  destruct (select_one c _) as [h2|]; [|exact IH].
  destruct (select_one h2 _) as [link|]; [|exact IH].
  destruct (attr link "href") as [href|]; [|exact IH].
  destruct (negb (String.eqb href "")); [|exact IH].
  constructor; [apply absolute_startswith|exact IH].
Qed.

Lemma jcpenney_add_links_absolute links (s : gset string) :
  set_Forall (fun link => startswith link "http" = true) s ->
  set_Forall (fun link => startswith link "http" = true) (jcpenney_scraper.add_links links s).
Proof.
  revert s. induction links as [|l links IH]; intros s Hs; simpl; [done|].
  destruct (attr l "href") as [href|]; [|by apply IH].
  destruct (negb (String.eqb href "")); [|by apply IH].
  apply IH. apply set_Forall_union; [|done]. apply set_Forall_singleton.
  apply absolute_startswith.
Qed.

Lemma macys_add_links_absolute links (s : gset string) :
  set_Forall (fun link => startswith link "http" = true) s ->
  set_Forall (fun link => startswith link "http" = true) (macys_scraper.add_links links s).
Proof.
  revert s. induction links as [|l links IH]; intros s Hs; simpl; [done|].
  destruct (attr l "href") as [href|]; [|by apply IH].
  destruct (negb (String.eqb href "")); [|by apply IH].
  apply IH. apply set_Forall_union; [|done]. apply set_Forall_singleton.
  apply absolute_startswith.
Qed.

Lemma jcpenney_product_links_absolute page :
  set_Forall (fun link => startswith link "http" = true) (jcpenney_scraper.product_links page).
Proof.
  unfold jcpenney_scraper.product_links. case_bool_decide as E.
  - rewrite E. apply jcpenney_add_links_absolute. apply set_Forall_empty.
  - apply jcpenney_add_links_absolute. apply set_Forall_empty.
Qed.

Lemma macys_product_links_absolute page :
  set_Forall (fun link => startswith link "http" = true) (macys_scraper.product_links page).
Proof.
  unfold macys_scraper.product_links. case_bool_decide as E.
  - rewrite E. apply macys_add_links_absolute. apply set_Forall_empty.
  - apply macys_add_links_absolute. apply set_Forall_empty.
Qed.

(** X11.  [search_amazon_dockers] requests the search page and then the
    first three links collected from it, in page order, and returns one
    record for each of these requests, in the same order, whose ["url"] is
    the URL requested; every URL requested for a product starts with
    [http].  When the search page cannot be fetched no product page is
    requested and the list returned is empty. *)
Theorem amazon_search_requests_first_three_links http search_term lg :
  match (fetch_soup http (amazon_scraper.search_url search_term) lg).1 with
  | Raised _ =>
      amazon_scraper.search_amazon_dockers http search_term lg
      = ([], lg ++ [amazon_scraper.search_url search_term])
  | Ok page =>
      let links :=
        take 3 (amazon_scraper.product_links
                  (select page (attr_is "div" "data-component-type" "s-search-result"))) in
      (amazon_scraper.search_amazon_dockers http search_term lg).2
        = lg ++ [amazon_scraper.search_url search_term] ++ links
      /\ (fun d : gmap string atom => d !! "url")
           <$> (amazon_scraper.search_amazon_dockers http search_term lg).1
         = (fun link => Some (AStr link)) <$> links
      /\ Forall (fun link => startswith link "http" = true) links
  end.
Proof.
  unfold amazon_scraper.search_amazon_dockers.
  pose proof (fetch_soup_log http (amazon_scraper.search_url search_term) lg) as Hl.
  destruct (fetch_soup _ _ _) as [[page|e] lg']; simpl in Hl; subst; [|done].
  cbn zeta. cbn [fst snd]. split; [|split].
  - rewrite scrape_each_log by apply scrape_amazon_product_log. by rewrite <- app_assoc.
  - apply scrape_each_urls. intros. apply scrape_amazon_product_fields.
  - apply Forall_take, amazon_product_links_absolute.
Qed.

(** X12.  [search_jcpenney_dockers] and [search_macys_dockers] request
    the search page and then at most three of the links collected from
    it; the links are kept in a set, so the product pages requested are
    pairwise distinct, in whatever order the set is listed; one record is
    returned for each of these requests, in the same order, whose ["url"]
    is the URL requested, and every such URL starts with [http].  When the
    search page cannot be fetched no product page is requested and the
    list returned is empty. *)
Theorem set_searches_request_distinct_links http list_of_set search_term lg :
  (forall s, list_of_set s ≡ₚ elements s) ->
  match (fetch_soup http (jcpenney_scraper.search_url search_term) lg).1 with
  | Raised _ =>
      jcpenney_scraper.search_jcpenney_dockers http list_of_set search_term lg
      = ([], lg ++ [jcpenney_scraper.search_url search_term])
  | Ok page =>
      let links := take 3 (list_of_set (jcpenney_scraper.product_links page)) in
      (jcpenney_scraper.search_jcpenney_dockers http list_of_set search_term lg).2
        = lg ++ [jcpenney_scraper.search_url search_term] ++ links
      /\ (fun d : gmap string atom => d !! "url")
           <$> (jcpenney_scraper.search_jcpenney_dockers http list_of_set search_term lg).1
         = (fun link => Some (AStr link)) <$> links
      /\ NoDup links
      /\ Forall (fun link => startswith link "http" = true) links
  end
  /\ match (fetch_soup http (macys_scraper.search_url search_term) lg).1 with
     | Raised _ =>
         macys_scraper.search_macys_dockers http list_of_set search_term lg
         = ([], lg ++ [macys_scraper.search_url search_term])
     | Ok page =>
         let links := take 3 (list_of_set (macys_scraper.product_links page)) in
         (macys_scraper.search_macys_dockers http list_of_set search_term lg).2
           = lg ++ [macys_scraper.search_url search_term] ++ links
         /\ (fun d : gmap string atom => d !! "url")
              <$> (macys_scraper.search_macys_dockers http list_of_set search_term lg).1
            = (fun link => Some (AStr link)) <$> links
         /\ NoDup links
         /\ Forall (fun link => startswith link "http" = true) links
     end.
Proof.
  intros Hset. split.
  - unfold jcpenney_scraper.search_jcpenney_dockers.
    pose proof (fetch_soup_log http (jcpenney_scraper.search_url search_term) lg) as Hl.
    destruct (fetch_soup _ _ _) as [[page|e] lg']; simpl in Hl; subst; [|done].
    cbn zeta. cbn [fst snd]. split; [|split; [|split]].
    + rewrite scrape_each_log by apply scrape_jcpenney_product_log. by rewrite <- app_assoc.
    + apply scrape_each_urls. intros. apply scrape_jcpenney_product_fields.
    + eapply sublist_NoDup; [|apply sublist_take]. rewrite Hset. apply NoDup_elements.
    + apply Forall_take. rewrite Hset. apply Forall_forall. intros l Hl%elem_of_elements.
      by apply (jcpenney_product_links_absolute page l).
  - unfold macys_scraper.search_macys_dockers.
    pose proof (fetch_soup_log http (macys_scraper.search_url search_term) lg) as Hl.
    destruct (fetch_soup _ _ _) as [[page|e] lg']; simpl in Hl; subst; [|done].
    cbn zeta. cbn [fst snd]. split; [|split; [|split]].
    + rewrite scrape_each_log by apply scrape_macys_product_log. by rewrite <- app_assoc.
    + apply scrape_each_urls. intros. apply scrape_macys_product_fields.
    + eapply sublist_NoDup; [|apply sublist_take]. rewrite Hset. apply NoDup_elements.
    + apply Forall_take. rewrite Hset. apply Forall_forall. intros l Hl%elem_of_elements.
      by apply (macys_product_links_absolute page l).
Qed.

Lemma set_searches_request_distinct_links_witness :
  (jcpenney_scraper.search_jcpenney_dockers jcpenney_duplicate_site elements
     "Dockers Khakis" []).2
  = [] ++ [jcpenney_scraper.search_url "Dockers Khakis"]
       ++ take 3 (elements (jcpenney_scraper.product_links jcpenney_duplicate_page))
  /\ NoDup (take 3 (elements (jcpenney_scraper.product_links jcpenney_duplicate_page))).
Proof.
  pose proof (proj1 (set_searches_request_distinct_links jcpenney_duplicate_site elements
                       "Dockers Khakis" [] (fun s => Permutation_refl (elements s)))) as H.
  destruct H as (H1 & _ & H2 & _). split; [exact H1|exact H2].
Defined.

Example set_search_example :
  (jcpenney_scraper.search_jcpenney_dockers jcpenney_duplicate_site elements
     "Dockers Khakis" []).2
  = [jcpenney_scraper.search_url "Dockers Khakis"; "https://www.jcpenney.com/p/1"].
Proof. vm_compute. reflexivity. Qed.

(** ** The search URLs *)

Lemma first_quoted_quote_plus_char c (r : string) :
  first_quoted (quote_plus_char c ++ r)%string = Some c.
Proof. destruct c as [[] [] [] [] [] [] [] []]; vm_compute; reflexivity. Qed.

Lemma quote_plus_char_safe c :
  Forall (fun a => url_safe a = true) (list_ascii_of_string (quote_plus_char c)).
Proof.
  apply Forall_forall. intros a Ha%list_elem_of_In. revert a Ha. apply forallb_forall.
  destruct c as [[] [] [] [] [] [] [] []]; vm_compute; reflexivity.
Qed.

Lemma quote_plus_char_nonempty c (r : string) : (quote_plus_char c ++ r)%string <> "".
Proof.
  intros H. pose proof (first_quoted_quote_plus_char c r) as Hq. by rewrite H in Hq.
Qed.

Lemma string_app_inv_head (s r1 r2 : string) :
  (s ++ r1)%string = (s ++ r2)%string -> r1 = r2.
Proof. induction s as [|c s IH]; simpl; [done|]. intros [= H]. auto. Qed.

(** The encoding of [quote_plus] can be undone. *)
Lemma quote_plus_inj s1 s2 : quote_plus s1 = quote_plus s2 -> s1 = s2.
Proof.
  revert s2. induction s1 as [|c1 s1 IH]; intros [|c2 s2]; simpl; [done| | |].
  - intros H. symmetry in H. by apply quote_plus_char_nonempty in H.
  - intros H. by apply quote_plus_char_nonempty in H.
  - intros H. pose proof (f_equal first_quoted H) as Hc.
    rewrite !first_quoted_quote_plus_char in Hc. injection Hc as ->.
    apply string_app_inv_head in H. f_equal. auto.
Qed.

Lemma list_ascii_of_string_app (s r : string) :
  list_ascii_of_string (s ++ r)%string = list_ascii_of_string s ++ list_ascii_of_string r.
Proof. induction s as [|c s IH]; simpl; [done|]. by rewrite IH. Qed.

Lemma quote_plus_safe s :
  Forall (fun a => url_safe a = true) (list_ascii_of_string (quote_plus s)).
Proof.
  induction s as [|c s IH]; simpl; [constructor|].
  rewrite list_ascii_of_string_app. apply Forall_app. split; [apply quote_plus_char_safe|done].
Qed.

Lemma spaces_to_plus_quote_plus s :
  Forall (fun c => is_unreserved c = true \/ c = " "%char) (list_ascii_of_string s) ->
  spaces_to_plus s = quote_plus s.
Proof.
  induction s as [|c s IH]; simpl; [done|].
  intros [Hc Hs]%Forall_cons. rewrite IH by done. unfold quote_plus_char.
  destruct Hc as [Hc| ->]; [|done]. rewrite Hc.
  destruct (Ascii.eqb_spec c " ") as [->|]; [done|]. done.
Qed.

(** X13.  The search URL of JCPenney and of Macy's is built with
    [urlencode]: two different search terms never give the same URL, and
    the query consists of letters, digits and the characters [_.-~+%],
    whatever the search term.  The search URL of Amazon is built with
    [replace(' ', '+')]: it is the same URL as with [urlencode] when the
    search term consists of letters, digits, [_.-~] and spaces, but it
    does not tell a space from a plus sign. *)
Theorem search_url_determines_search_term s1 s2 :
  (jcpenney_scraper.search_url s1 = jcpenney_scraper.search_url s2 -> s1 = s2)
  /\ (macys_scraper.search_url s1 = macys_scraper.search_url s2 -> s1 = s2)
  /\ (exists query,
        jcpenney_scraper.search_url s1
        = ("https://www.jcpenney.com/search?q=" ++ query)%string
        /\ macys_scraper.search_url s1
           = ("https://www.macys.com/shop/search?q=" ++ query)%string
        /\ Forall (fun c => url_safe c = true) (list_ascii_of_string query))
  /\ (Forall (fun c => is_unreserved c = true \/ c = " "%char) (list_ascii_of_string s1) ->
      amazon_scraper.search_url s1
      = ("https://www.amazon.com/s?k=" ++ quote_plus s1)%string)
  /\ amazon_scraper.search_url "a b" = amazon_scraper.search_url "a+b".
Proof.
  split; [|split; [|split; [|split]]].
  - unfold jcpenney_scraper.search_url, urlencode_q. simpl. intros [= H].
    by apply quote_plus_inj.
  - unfold macys_scraper.search_url, urlencode_q. simpl. intros [= H].
    by apply quote_plus_inj.
  - exists (quote_plus s1). split; [done|]. split; [done|]. apply quote_plus_safe.
  - intros H. unfold amazon_scraper.search_url. by rewrite spaces_to_plus_quote_plus.
  - reflexivity.
Qed.

Example search_url_example :
  jcpenney_scraper.search_url "Dockers Khakis"
  = "https://www.jcpenney.com/search?q=Dockers+Khakis"
  /\ macys_scraper.search_url "men's & boys'"
     = "https://www.macys.com/shop/search?q=men%27s+%26+boys%27"
  /\ amazon_scraper.search_url "men's & boys'" = "https://www.amazon.com/s?k=men's+&+boys'".
Proof. repeat split; vm_compute; reflexivity. Qed.

(** ** The two versions of [extract_price] on plain prices *)

Lemma take_while_app_all p l r :
  Forall (fun c => p c = true) l -> take_while p (l ++ r) = l ++ take_while p r.
Proof. induction 1 as [|c l Hc _ IH]; simpl; [done|]. by rewrite Hc, IH. Qed.

Lemma drop_while_app_all p l r :
  Forall (fun c => p c = true) l -> drop_while p (l ++ r) = drop_while p r.
Proof. induction 1 as [|c l Hc _ IH]; simpl; [done|]. by rewrite Hc, IH. Qed.

Lemma take_while_all p l : Forall (fun c => p c = true) l -> take_while p l = l.
Proof. induction 1 as [|c l Hc _ IH]; simpl; [done|]. by rewrite Hc, IH. Qed.

Lemma drop_while_none p l : Forall (fun c => p c = false) l -> drop_while p l = l.
Proof. destruct 1 as [|c l Hc _]; simpl; [done|]. by rewrite Hc. Qed.

Lemma strip_list_none l :
  Forall (fun c => py_isspace c = false) l -> strip_list l = l.
Proof.
  intros H. unfold strip_list, strip_with. rewrite (drop_while_none _ l H).
  rewrite drop_while_none; [apply rev_involutive|].
  apply Forall_forall. intros c Hc. apply (proj1 (rev_elem_of l c)) in Hc.
  rewrite Forall_forall in H. by apply H.
Qed.

Lemma py_remove_list c l :
  list_ascii_of_string (py_remove c (string_of_list_ascii l))
  = filter (fun a => a <> c) l.
Proof.
  induction l as [|a l IH]; simpl; [done|]. rewrite filter_cons.
  destruct (Ascii.eqb_spec a c) as [->|Hn].
  - by rewrite decide_False by (by intros ?).
  - rewrite decide_True by done. simpl. by rewrite IH.
Qed.

Lemma py_remove_of_list c l :
  py_remove c (string_of_list_ascii l) = string_of_list_ascii (filter (fun a => a <> c) l).
Proof. by rewrite <- py_remove_list, string_of_list_ascii_of_string. Qed.

Lemma is_digit_or_comma_plain c :
  is_digit_or_comma c = true ->
  py_isspace c = false /\ c <> "$"%char /\ c <> "."%char.
Proof.
  unfold is_digit_or_comma, is_digit, py_isspace. intros H.
  destruct (Ascii.eqb_spec c ",") as [Hc|_].
  { subst c. repeat split; done. }
  rewrite orb_false_r in H. apply andb_prop in H as [H1%Z.leb_le H2%Z.leb_le].
  split; [|split].
  - repeat (apply orb_false_intro); try (apply Z.eqb_neq; lia);
      apply andb_false_iff; first [left; apply Z.leb_gt; lia | right; apply Z.leb_gt; lia].
  - intros Hc. subst c. vm_compute in H1. done.
  - intros Hc. subst c. vm_compute in H1. done.
Qed.

Lemma is_digit_plain c :
  is_digit c = true -> is_digit_or_comma c = true /\ c <> ","%char.
Proof.
  unfold is_digit_or_comma. intros H. rewrite H. split; [done|].
  intros ->. done.
Qed.

Lemma filter_all {A} (P : A -> Prop) `{!forall x, Decision (P x)} (l : list A) :
  Forall P l -> filter P l = l.
Proof. induction 1 as [|x l Hx _ IH]; [done|]. by rewrite filter_cons_True, IH. Qed.

Lemma plain_price_strip dollar whole tail :
  Forall (fun c => py_isspace c = false /\ c <> "$"%char) (whole ++ tail) ->
  Dockers_scraper.extract_price
    (string_of_list_ascii ((if dollar : bool then ["$"%char] else []) ++ whole ++ tail))
  = try_except
      (f ← py_float (string_of_list_ascii (filter (fun a => a <> ","%char) (whole ++ tail)));
       Ok (Some f))
      (fun e => is_ValueError e || is_AttributeError e) (fun _ => Ok None).
Proof.
  intros Hplain. unfold Dockers_scraper.extract_price, py_strip.
  rewrite list_ascii_of_string_of_list_ascii.
  rewrite strip_list_none.
  2:{ apply Forall_app. split; [by destruct dollar; repeat constructor|].
      eapply Forall_impl; [exact Hplain|]. by intros c [? _]. }
  rewrite !py_remove_of_list. do 3 f_equal.
  rewrite filter_app. rewrite (filter_all _ (whole ++ tail)).
  2:{ eapply Forall_impl; [exact Hplain|]. by intros c [_ ?]. }
  destruct dollar; [|done]. rewrite filter_cons_False by (by intros H; apply H). done.
Qed.

Lemma plain_price_group dollar whole cents :
  whole <> [] ->
  Forall (fun c => is_digit_or_comma c = true) whole ->
  Forall (fun c => is_digit c = true) (default [] cents) ->
  price_group ((if dollar : bool then ["$"%char] else [])
                 ++ whole ++ match cents with Some ds => "."%char :: ds | None => [] end)
  = Some (whole ++ match cents with Some ds => "."%char :: ds | None => [] end).
Proof.
  intros Hne Hw Hc. unfold price_group.
  assert (Hd : drop_while (fun c => negb (is_digit_or_comma c))
                 ((if dollar then ["$"%char] else [])
                    ++ whole ++ match cents with Some ds => "."%char :: ds | None => [] end)
               = whole ++ match cents with Some ds => "."%char :: ds | None => [] end).
  { destruct whole as [|c whole]; [done|]. apply Forall_cons in Hw as [Hc0 Hw].
    destruct dollar; simpl; by rewrite Hc0. }
  rewrite Hd. destruct whole as [|c whole]; [done|].
  rewrite <- app_comm_cons.
  change (c :: whole ++ ?t) with ((c :: whole) ++ t).
  rewrite take_while_app_all, drop_while_app_all by done.
  destruct cents as [ds|]; simpl.
  - simpl in Hc. rewrite (take_while_all _ ds) by done. by rewrite app_nil_r.
  - by rewrite app_nil_r.
Qed.

(** X14.  On a price as a shop prints it (an optional [$], digits and
    commas, optionally a dot and digits) the two versions of
    [extract_price] return the same: that of [Dockers_scraper.py], which
    strips the text and hands it to [float], and that of
    [amazon_scraper.py], which searches it with a regular expression. *)
Theorem plain_price_read_alike price_text :
  plain_price price_text ->
  amazon_scraper.extract_price price_text = Dockers_scraper.extract_price price_text.
Proof.
  intros (dollar & whole & cents & -> & Hne & Hw & Hc).
  pose proof (plain_price_group dollar whole cents Hne Hw Hc) as Hg.
  remember (match cents with Some ds => "."%char :: ds | None => [] end) as tail eqn:Ht.
  assert (Hplain : Forall (fun c => py_isspace c = false /\ c <> "$"%char) (whole ++ tail)).
  { apply Forall_app. split.
    - eapply Forall_impl; [exact Hw|]. intros c H%is_digit_or_comma_plain. tauto.
    - rewrite Ht. destruct cents as [ds|]; [|constructor]. constructor; [done|].
      simpl in Hc. eapply Forall_impl; [exact Hc|].
      intros c [H%is_digit_or_comma_plain _]%is_digit_plain. tauto. }
  rewrite (plain_price_strip dollar whole tail Hplain).
  unfold amazon_scraper.extract_price, re_search_price.
  rewrite list_ascii_of_string_of_list_ascii, Hg.
  assert (Hnonempty : truthy (AStr (string_of_list_ascii
            ((if dollar then ["$"%char] else []) ++ whole ++ tail))) = true).
  { destruct dollar; [done|]. destruct whole; [done|]. done. }
  rewrite Hnonempty. simpl. rewrite py_remove_of_list.
  destruct (py_float _) as [f|e] eqn:E; simpl; [done|].
  by rewrite (py_float_raises _ _ E).
Qed.

Lemma plain_price_read_alike_witness :
  amazon_scraper.extract_price "$1,234.50" = Dockers_scraper.extract_price "$1,234.50".
Proof.
  apply (plain_price_read_alike "$1,234.50").
  exists true, ["1"; ","; "2"; "3"; "4"]%char, (Some ["5"; "0"]%char).
  split; [reflexivity|]. split; [discriminate|].
  split; repeat constructor.
Defined.

Example other_price_texts_example :
  amazon_scraper.extract_price "Now $19.50" = Ok (Some 19.5%float)
  /\ Dockers_scraper.extract_price "Now $19.50" = Ok None
  /\ amazon_scraper.extract_price "1e3" = Ok (Some 1%float)
  /\ Dockers_scraper.extract_price "1e3" = Ok (Some 1000%float)
  /\ scraper.extract_price "1e3" = Dockers_scraper.extract_price "1e3".
Proof. repeat split; vm_compute; reflexivity. Qed.

(** ** The records of [Dockers_scraper.py] and [multi_scraper.py] *)

Lemma page_availability_values page :
  page_availability page ∈ ["In Stock"; "Out of Stock"].
Proof.
  unfold page_availability.
  destruct (select_one page (attr_is "meta" "itemprop" "availability")) as [m|].
  - destruct (py_in "OutOfStock" _); [set_solver|].
    destruct (py_in "InStock" _); [set_solver|].
    destruct (select_one page _); set_solver.
  - destruct (select_one page _); set_solver.
Qed.

Lemma build_product_data_shape name subtitle current_price original_price url availability d :
  build_product_data name subtitle current_price original_price url availability = Ok d ->
  dom d = product_keys
  /\ d !! "url" = Some (AStr url)
  /\ d !! "name" = Some (AStr name)
  /\ d !! "availability" = Some (AStr availability)
  /\ d !! "current_price" = Some (atom_of_price current_price)
  /\ d !! "original_price" = Some (atom_of_price original_price)
  /\ (d !! "is_on_sale" = Some (ABool true)
      /\ (exists discount, d !! "discount_percentage" = Some (AFloat discount))
      \/ d !! "is_on_sale" = Some (ABool false)
         /\ d !! "discount_percentage" = Some ANone).
Proof.
  unfold build_product_data.
  destruct (match original_price with Some _ => _ | None => _ end); simpl.
  - destruct (py_sub _ _); simpl; [|done].
    destruct (py_div _ _); simpl; [|done].
    destruct (py_round _ _) as [r|]; simpl; [|done].
    intros [= <-].
    split; [unfold product_keys; rewrite !dom_insert_L; set_solver|].
    repeat (split; [lookup_key|]).
    left. split; [lookup_key|]. exists r. lookup_key.
  - intros [= <-].
    split; [unfold product_keys; rewrite !dom_insert_L; set_solver|].
    repeat (split; [lookup_key|]).
    right. split; lookup_key.
Qed.

Lemma build_product_data_product name subtitle current_price original_price url
    availability d :
  availability ∈ ["In Stock"; "Out of Stock"] ->
  build_product_data name subtitle current_price original_price url availability = Ok d ->
  dockers_product url d.
Proof.
  intros Ha (H1 & H2 & H3 & H4 & _ & _ & H5)%build_product_data_shape.
  split; [done|]. split; [done|]. split; [eauto|]. split; [eauto|done].
Qed.

(** [span_loop] never holds an original price without a current price. *)
Lemma span_loop_original extract_price spans current_price original_price c o :
  (original_price <> None -> price_truthy current_price = true) ->
  span_loop extract_price spans current_price original_price = Ok (c, o) ->
  o <> None -> price_truthy c = true.
Proof.
  revert current_price original_price.
  induction spans as [|span spans IH]; intros cp op Hinv; simpl.
  - by intros [= <- <-].
  - destruct (startswith _ "$"); [|by apply IH].
    destruct (price_truthy cp) eqn:Ec; simpl.
    + destruct (negb (price_truthy op) && py_ne op cp); [|by apply IH].
      destruct (extract_price _) as [op'|]; simpl; [|done].
      apply IH. by rewrite Ec.
    + destruct (extract_price _) as [cp'|]; simpl; [|done].
      apply IH. intros Hop. apply Hinv in Hop. congruence.
Qed.

Lemma page_prices_original extract_price page c o :
  page_prices extract_price page = Ok (c, o) ->
  o <> None -> price_truthy c = true.
Proof.
  unfold page_prices.
  destruct (match select_one page (attr_is "div" _ _) with Some _ => _ | None => _ end)
    as [[c0 o0]|] eqn:E; simpl; [|done].
  assert (H0 : o0 <> None -> price_truthy c0 = true).
  { destruct (select_one page (attr_is "div" _ _)).
    - eapply span_loop_original; [|exact E]. done.
    - by injection E as <- <-. }
  destruct (price_truthy c0) eqn:Ec; simpl.
  - by intros [= <- <-].
  - assert (o0 = None) as -> by (destruct o0; [by discriminate H0|done]).
    destruct (select_one page (attr_is "meta" _ _)).
    + destruct (extract_price _); simpl; [|done]. by intros [= <- <-].
    + by intros [= <- <-].
Qed.

Lemma dockers_scrape_product_log http lg :
  (Dockers_scraper.scrape_product http lg).2 = lg ++ [Dockers_scraper.PRODUCT_URL].
Proof.
  unfold Dockers_scraper.scrape_product.
  pose proof (fetch_soup_log http Dockers_scraper.PRODUCT_URL lg) as H.
  by destruct (fetch_soup _ _ _).
Qed.

Lemma multi_scrape_product_log http url lg :
  (multi_scraper.scrape_product http url lg).2 = lg ++ [url].
Proof.
  unfold multi_scraper.scrape_product.
  pose proof (fetch_soup_log http url lg) as H.
  by destruct (fetch_soup _ _ _).
Qed.

(** What [scrape_product] returns: [None], or the record built from the
    page that was fetched. *)
Lemma dockers_scrape_product_result http lg :
  match (Dockers_scraper.scrape_product http lg).1 with
  | IDict d =>
      exists page name subtitle current_price original_price,
        (fetch_soup http Dockers_scraper.PRODUCT_URL lg).1 = Ok page
        /\ page_prices Dockers_scraper.extract_price page = Ok (current_price, original_price)
        /\ build_product_data name subtitle current_price original_price
             Dockers_scraper.PRODUCT_URL (page_availability page) = Ok d
  | IAtom a => a = ANone
  end.
Proof.
  unfold Dockers_scraper.scrape_product.
  destruct (fetch_soup _ _ _) as [[page|e] lg']; simpl.
  - destruct (page_prices _ page) as [[c o]|e] eqn:Ep; simpl.
    + destruct (build_product_data _ _ c o _ _) as [d|e] eqn:Eb; simpl.
      * eauto 10.
      * by destruct (is_RequestException e).
    + by destruct (is_RequestException e).
  - by destruct (is_RequestException e).
Qed.

Lemma multi_scrape_product_result http url lg :
  match (multi_scraper.scrape_product http url lg).1 with
  | IDict d =>
      exists page name subtitle current_price original_price,
        (fetch_soup http url lg).1 = Ok page
        /\ name <> ""
        /\ page_prices multi_scraper.extract_price page = Ok (current_price, original_price)
        /\ build_product_data name subtitle current_price original_price
             url (page_availability page) = Ok d
  | IAtom a => a = ANone
  end.
Proof.
  unfold multi_scraper.scrape_product.
  destruct (fetch_soup _ _ _) as [[page|e] lg']; simpl.
  - destruct (select_one page "h1.product-form_title") as [t|]; simpl; [|done].
    destruct (String.eqb_spec (py_strip (text t)) "") as [|Hn]; simpl; [done|].
    destruct (page_prices _ page) as [[c o]|e] eqn:Ep; simpl.
    + destruct (build_product_data _ _ c o _ _) as [d|e] eqn:Eb; simpl.
      * exists page. eauto 10.
      * by destruct (is_RequestException e).
    + by destruct (is_RequestException e).
  - by destruct (is_RequestException e).
Qed.

(** X15.  [scrape_product], in [Dockers_scraper.py] and in
    [multi_scraper.py], makes exactly one request, for the product page,
    and returns [None] or a record: a dictionary with the eight keys, the
    URL requested under ["url"], a name, the availability "In Stock" or
    "Out of Stock", and a discount that is a number exactly when
    [is_on_sale] is [True].  A record is returned only when the page was
    fetched; the record of [multi_scraper.py] moreover has a name that is
    not empty. *)
Theorem scrape_product_returns_none_or_product http product_url lg :
  (Dockers_scraper.scrape_product http lg).2 = lg ++ [Dockers_scraper.PRODUCT_URL]
  /\ match (Dockers_scraper.scrape_product http lg).1 with
     | IDict d =>
         dockers_product Dockers_scraper.PRODUCT_URL d
         /\ exists page, (fetch_soup http Dockers_scraper.PRODUCT_URL lg).1 = Ok page
     | IAtom a => a = ANone
     end
  /\ (multi_scraper.scrape_product http product_url lg).2 = lg ++ [product_url]
  /\ match (multi_scraper.scrape_product http product_url lg).1 with
     | IDict d =>
         dockers_product product_url d
         /\ (exists name, d !! "name" = Some (AStr name) /\ name <> "")
         /\ exists page, (fetch_soup http product_url lg).1 = Ok page
     | IAtom a => a = ANone
     end.
Proof.
  split; [apply dockers_scrape_product_log|]. split; [|split].
  - pose proof (dockers_scrape_product_result http lg) as H.
    destruct (Dockers_scraper.scrape_product http lg).1 as [a|d]; [done|].
    destruct H as (page & name & sub & c & o & Hf & _ & Hb).
    split; [|eauto]. eapply build_product_data_product; [|exact Hb].
    apply page_availability_values.
  - apply multi_scrape_product_log.
  - pose proof (multi_scrape_product_result http product_url lg) as H.
    destruct (multi_scraper.scrape_product http product_url lg).1 as [a|d]; [done|].
    destruct H as (page & name & sub & c & o & Hf & Hn & _ & Hb).
    split; [|split; [|eauto]].
    + eapply build_product_data_product; [|exact Hb]. apply page_availability_values.
    + exists name. split; [|done]. by apply build_product_data_shape in Hb as (_&_&?&_).
Qed.

(** X16.  A record of [scrape_product], in [Dockers_scraper.py] and in
    [multi_scraper.py], never has an original price without a current
    price: when ["original_price"] is a number, ["current_price"] is a
    number too, and not zero.  The second price of the page is read only
    after a first one that is true in a condition. *)
Theorem original_price_needs_current_price http product_url lg d original :
  (Dockers_scraper.scrape_product http lg).1 = IDict d
  \/ (multi_scraper.scrape_product http product_url lg).1 = IDict d ->
  d !! "original_price" = Some (AFloat original) ->
  exists current,
    d !! "current_price" = Some (AFloat current) /\ PrimFloat.eqb current 0 = false.
Proof.
  intros Hd Ho.
  assert (exists page extract_price name sub c o url,
            page_prices extract_price page = Ok (c, o)
            /\ build_product_data name sub c o url (page_availability page) = Ok d)
    as (page & ep & name & sub & c & o & url & Hp & Hb).
  { destruct Hd as [Hd|Hd].
    - pose proof (dockers_scrape_product_result http lg) as H. rewrite Hd in H.
      destruct H as (page & name & sub & c & o & _ & Hp & Hb). eauto 10.
    - pose proof (multi_scrape_product_result http product_url lg) as H. rewrite Hd in H.
      destruct H as (page & name & sub & c & o & _ & _ & Hp & Hb). eauto 10. }
  apply build_product_data_shape in Hb as (_ & _ & _ & _ & Hc & Ho' & _).
  rewrite Ho in Ho'. destruct o as [o'|]; [|done].
  pose proof (page_prices_original _ _ _ _ Hp) as Ht.
  destruct c as [cf|]; [|by discriminate Ht].
  exists cf. split; [done|]. specialize (Ht ltac:(done)).
  unfold price_truthy in Ht. simpl in Ht. by apply negb_true_iff in Ht.
Qed.

Lemma original_price_needs_current_price_witness :
  exists current,
    sale_record !! "current_price" = Some (AFloat current)
    /\ PrimFloat.eqb current 0 = false.
Proof.
  apply (original_price_needs_current_price sale_site Dockers_scraper.PRODUCT_URL []
           sale_record 50%float).
  - left. exact sale_record_scraped.
  - reflexivity.
Defined.

(** ** [scrape_multiple_products] *)

Lemma scrape_multiple_products_log http product_urls lg :
  (multi_scraper.scrape_multiple_products http product_urls lg).2 = lg ++ product_urls.
Proof.
  revert lg. induction product_urls as [|url rest IH]; intros lg;
    cbn [multi_scraper.scrape_multiple_products].
  - by rewrite app_nil_r.
  - pose proof (multi_scrape_product_log http url lg) as H.
    destruct (multi_scraper.scrape_product http url lg) as [p lg1].
    pose proof (IH lg1) as H'.
    destruct (multi_scraper.scrape_multiple_products http rest lg1) as [ps lg2].
    simpl in *. subst. by rewrite <- app_assoc.
Qed.

(** X17.  [scrape_multiple_products] makes exactly one request for each
    URL of its argument, in the order of the argument, also after a
    failure; the products returned are records with a name that is not
    empty, the [None] of a failed [scrape_product] is left out, and the
    URLs of the products returned are, in order, URLs of the argument (a
    sublist of it), so there are at most as many products as URLs. *)
Theorem scrape_multiple_products_keeps_order http product_urls lg :
  (multi_scraper.scrape_multiple_products http product_urls lg).2 = lg ++ product_urls
  /\ exists urls,
       urls `sublist_of` product_urls
       /\ item_url <$> (multi_scraper.scrape_multiple_products http product_urls lg).1
          = Some <$> urls
       /\ Forall (fun x => exists d name,
                    x = IDict d /\ d !! "name" = Some (AStr name) /\ name <> "")
            (multi_scraper.scrape_multiple_products http product_urls lg).1.
Proof.
  split; [apply scrape_multiple_products_log|].
  revert lg. induction product_urls as [|url rest IH]; intros lg;
    cbn [multi_scraper.scrape_multiple_products].
  - exists []. by repeat split.
  - pose proof (multi_scrape_product_result http url lg) as H.
    destruct (multi_scraper.scrape_product http url lg) as [p lg1].
    destruct (IH lg1) as (urls & Hsub & Hurls & Hall).
    destruct (multi_scraper.scrape_multiple_products http rest lg1) as [ps lg2].
    cbn [fst snd] in *.
    destruct p as [a|d].
    + subst a. simpl. exists urls. split; [by apply sublist_cons|done].
    + destruct H as (page & name & sub & c & o & _ & Hn & _ & Hb).
      apply build_product_data_shape in Hb as (Hdom & Hu & Hname & _).
      assert (Ht : truthy_item (IDict d) = true).
      { simpl. apply negb_true_iff, bool_decide_eq_false. intros ->.
        by rewrite lookup_empty in Hu. }
      rewrite Ht. exists (url :: urls). split; [by apply sublist_skip|].
      split.
      * rewrite !fmap_cons. f_equal; [|done]. simpl. by rewrite Hu.
      * constructor; [|done]. eauto.
Qed.

(** ** The listing scraper of [scraper.py] *)

Lemma listing_extract_price_returns text : exists r, scraper.extract_price text = Ok r.
Proof. destruct (strip_extract_price text) as (r & Hr & _). eauto. Qed.

Lemma extract_product_data_listed urljoin product_element :
  scraper.extract_product_data urljoin product_element = IAtom ANone
  \/ listed_product (scraper.extract_product_data urljoin product_element).
Proof.
  unfold scraper.extract_product_data.
  set (name := match select_one product_element (attr_is "a" "href*" "/products/") with
               | Some link_elem => _ | None => None end).
  clearbody name. destruct name as [name|]; simpl; [|left; reflexivity].
  destruct (String.eqb_spec name "") as [|Hn]; simpl; [by left|].
  repeat match goal with
    | |- context [match select_one product_element ?s with
                  | Some elem => scraper.extract_price (text elem)
                  | None => Ok None
                  end] =>
        let r := fresh "price" in
        let E := fresh "E" in
        assert (exists r, match select_one product_element s with
                          | Some elem => scraper.extract_price (text elem)
                          | None => Ok None
                          end = Ok r) as [r E];
        [destruct (select_one product_element s);
           [apply listing_extract_price_returns|eauto]|];
        rewrite E; clear E
    end.
  simpl.
  match goal with
  | |- context [insert "availability" (AStr ?a)] => set (availability := a)
  end.
  assert (Ha : availability ∈ ["In Stock"; "Out of Stock"]).
  { unfold availability. destruct (select_one product_element _).
    - destruct (_ || _); [set_solver|]. destruct (_ || _); set_solver.
    - destruct (select_one product_element _); set_solver. }
  clearbody availability.
  match goal with |- context [if ?b then _ else _] => destruct b eqn:Es end; simpl.
  - destruct (py_sub _ _); simpl; [|left; reflexivity].
    destruct (py_div _ _); simpl; [|left; reflexivity].
    destruct (py_round _ _) as [r|]; simpl; [|left; reflexivity].
    right. eexists _, name. split; [done|].
    split; [unfold listing_keys; rewrite !dom_insert_L; set_solver|].
    split; [lookup_key|]. split; [done|].
    split; [exists availability; split; [lookup_key|done]|].
    left. split; [lookup_key|]. exists r. lookup_key.
  - right. eexists _, name. split; [done|].
    split; [unfold listing_keys; rewrite !dom_insert_L; set_solver|].
    split; [lookup_key|]. split; [done|].
    split; [exists availability; split; [lookup_key|done]|].
    right. split; lookup_key.
Qed.

Lemma fetch_page_log http url lg : (scraper.fetch_page http url lg).2 = lg ++ [url].
Proof.
  unfold scraper.fetch_page. pose proof (fetch_soup_log http url lg) as H.
  by destruct (fetch_soup _ _ _).
Qed.

Lemma scrape_pages_requests http urljoin pages_left page_count current_url products lg :
  exists requested,
    (scraper.scrape_pages http urljoin pages_left page_count current_url products lg).2
    = lg ++ requested
    /\ (length requested <= pages_left)%nat
    /\ (forall url, head requested = Some url -> current_url = Some url).
Proof.
  revert page_count current_url products lg.
  induction pages_left as [|n IH]; intros page_count current_url products lg;
    cbn [scraper.scrape_pages].
  { exists []. split; [by rewrite app_nil_r|]. split; [simpl; lia|done]. }
  destruct current_url as [url|]; cbn [atom_of_str default from_option]; unfold id.
  2:{ exists []. split; [by rewrite app_nil_r|]. split; [simpl; lia|done]. }
  destruct (negb (truthy (AStr url))).
  { exists []. split; [by rewrite app_nil_r|]. split; [simpl; lia|done]. }
  pose proof (fetch_page_log http url lg) as Hl.
  destruct (scraper.fetch_page http url lg) as [fetched lg']. simpl in Hl. subst lg'.
  assert (Hone : exists requested : list string,
            lg ++ [url] = lg ++ requested /\ (length requested <= S n)%nat
            /\ (forall url0, head requested = Some url0 -> Some url = Some url0)).
  { exists [url]. split; [done|]. split; [simpl; lia|]. by intros ? [= <-]. }
  destruct fetched as [[soup|]|e]; [|exact Hone..].
  destruct (select soup "li.product-card_thumbnail-container") as [|el els]; [exact Hone|].
  destruct (IH (page_count + 1) (scraper.get_next_page_url urljoin soup page_count)
              (products ++ filter (fun product_data => truthy_item product_data = true)
                             (scraper.extract_product_data urljoin <$> el :: els))
              (lg ++ [url])) as (req & -> & Hlen & _).
  exists (url :: req). rewrite <- app_assoc. split; [done|]. split; [simpl; lia|].
  by intros ? [= <-].
Qed.

Lemma scrape_pages_products http urljoin pages_left page_count current_url products lg out :
  Forall listed_product products ->
  (scraper.scrape_pages http urljoin pages_left page_count current_url products lg).1
    = Ok out ->
  Forall listed_product out /\ products `prefix_of` out.
Proof.
  revert page_count current_url products lg.
  induction pages_left as [|n IH]; intros page_count current_url products lg Hp;
    cbn [scraper.scrape_pages].
  - by intros [= <-].
  - destruct (negb (truthy (atom_of_str current_url))); [by intros [= <-]|].
    destruct (scraper.fetch_page http _ lg) as [[[soup|]|e] lg']; cbn [fst];
      [|by intros [= <-]|done].
    destruct (select soup "li.product-card_thumbnail-container") as [|el els];
      [by intros [= <-]|].
    intros H. apply IH in H as [H1 H2].
    + split; [done|]. etrans; [|exact H2]. by apply prefix_app_r.
    + apply Forall_app. split; [done|].
      apply Forall_forall. intros x [Ht Hx]%list_elem_of_filter.
      apply list_elem_of_fmap in Hx as (pe & -> & _).
      destruct (extract_product_data_listed urljoin pe) as [E|Hl]; [|done].
      by rewrite E in Ht.
Qed.

(** X18.  [scrape_dockers(max_pages)] of [scraper.py] requests at most
    [max_pages] pages, whatever the pages link to, and none at all when
    [max_pages] is zero or negative; the first page requested is the
    product listing.  When it returns, every product returned is a
    dictionary with the seven keys and a name that is not empty, the
    availability "In Stock" or "Out of Stock", and a discount that is a
    number exactly when [is_on_sale] is [True]. *)
Theorem scrape_dockers_stops_at_max_pages http urljoin max_pages lg :
  (exists requested,
     (scraper.scrape_dockers http urljoin max_pages lg).2 = lg ++ requested
     /\ Z.of_nat (length requested) <= Z.max 0 max_pages
     /\ (forall url, head requested = Some url
           -> url = urljoin scraper.BASE_URL scraper.PRODUCTS_ENDPOINT))
  /\ (max_pages <= 0 -> scraper.scrape_dockers http urljoin max_pages lg = (Ok [], lg))
  /\ (forall products,
        (scraper.scrape_dockers http urljoin max_pages lg).1 = Ok products ->
        Forall listed_product products).
Proof.
  unfold scraper.scrape_dockers. split; [|split].
  - destruct (scrape_pages_requests http urljoin (Z.to_nat max_pages) 0
                (Some (urljoin scraper.BASE_URL scraper.PRODUCTS_ENDPOINT)) [] lg)
      as (req & Hl & Hlen & Hh).
    exists req. split; [done|]. split; [lia|].
    intros url Hu. specialize (Hh url Hu). by injection Hh.
  - intros H. replace (Z.to_nat max_pages) with 0%nat by lia. done.
  - intros products H. by apply scrape_pages_products in H as [H _].
Qed.

Example endless_listing_example :
  let run := scraper.scrape_dockers endless_site (fun base url => (base ++ url)%string) 3 [] in
  run.2 = ["https://www.dockers.com/en/shop/mens/pants";
           "https://www.dockers.com/en/shop/mens/pants?page=2";
           "https://www.dockers.com/en/shop/mens/pants?page=2"]
  /\ match run.1 with
     | Ok products => length products = 3%nat
     | Raised _ => False
     end.
Proof. split; vm_compute; reflexivity. Qed.
